(** * Tele-bot: a shallow embedding of [main.go] and its verified properties

    The bot stores Telegram channel posts in Firestore, classifies them
    with fixed keyword rules, fingerprints their normalised text and
    forwards one copy of each relevant posting to a personal chat.

    Go strings are modelled by the list of their runes (Unicode code
    points); this is the view of a valid UTF-8 string that [strings],
    [regexp] and [range] take.  Where the program looks at bytes
    ([len], slicing, hashing) the runes are encoded with [utf8_encode]. *)

From Stdlib Require Import ZArith NArith Lia List String Ascii Bool.
From Stdlib Require Import DecimalString DecimalZ DecimalPos.
From stdpp Require Import gmap list.

Local Open Scope N_scope.

(** ** Runes and strings *)

Abbreviation rune := N (only parsing).
Abbreviation gostring := (list N) (only parsing).

Fixpoint str (s : string) : gostring :=
  match s with
  | EmptyString => []
  | String c s' => N_of_ascii c :: str s'
  end.
Arguments str s%_string : simpl never.

(** Character classes of Go's RE2 syntax and of package [unicode]. *)

Definition is_digit (r : rune) : bool := (48 <=? r) && (r <=? 57).
Definition is_lower_az (r : rune) : bool := (97 <=? r) && (r <=? 122).
Definition is_upper_AZ (r : rune) : bool := (65 <=? r) && (r <=? 90).
Definition is_letter (r : rune) : bool := is_lower_az r || is_upper_AZ r.

(** [\s] is [[\t\n\f\r ]]. *)
Definition is_space_re (r : rune) : bool :=
  (r =? 9) || (r =? 10) || (r =? 12) || (r =? 13) || (r =? 32).

(** [unicode.IsSpace]: the Latin-1 spaces and the White_Space table. *)
Definition unicode_IsSpace (r : rune) : bool :=
  if r <=? 255 then
    (r =? 9) || (r =? 10) || (r =? 11) || (r =? 12) || (r =? 13) ||
    (r =? 32) || (r =? 133) || (r =? 160)
  else
    (r =? 5760) || ((8192 <=? r) && (r <=? 8202)) || (r =? 8232) ||
    (r =? 8233) || (r =? 8239) || (r =? 8287) || (r =? 12288).

Definition lowerASCII (r : rune) : rune :=
  if is_upper_AZ r then r + 32 else r.

(** [strings.HasPrefix] and [strings.Contains]. *)

Fixpoint strings_HasPrefix (s prefix : gostring) {struct prefix} : bool :=
  match prefix with
  | [] => true
  | p :: prefix' =>
      match s with
      | [] => false
      | c :: s' => (c =? p) && strings_HasPrefix s' prefix'
      end
  end.

Fixpoint strings_Contains (s substr : gostring) : bool :=
  strings_HasPrefix s substr ||
  match s with
  | [] => false
  | _ :: s' => strings_Contains s' substr
  end.

(** [strings.TrimSpace]. *)

Fixpoint trim_left (s : gostring) : gostring :=
  match s with
  | [] => []
  | c :: s' => if unicode_IsSpace c then trim_left s' else s
  end.

Fixpoint trim_right (s : gostring) : gostring :=
  match s with
  | [] => []
  | c :: s' =>
      match trim_right s' with
      | [] => if unicode_IsSpace c then [] else [c]
      | t => c :: t
      end
  end.

Definition strings_TrimSpace (s : gostring) : gostring :=
  trim_right (trim_left s).

(** ** Package [regexp]

    A compiled expression is modelled by its matcher: given the text
    from some position on, the length of the match that Go's
    leftmost-first (backtracking order) semantics selects at that
    position, if there is one.  None of the five expressions of the bot
    matches the empty string. *)

Abbreviation Regexp := (list N -> option nat) (only parsing).

(** Length of the longest prefix whose runes are all in [cls]. *)
Fixpoint run_length (cls : rune -> bool) (s : gostring) : nat :=
  match s with
  | [] => O
  | c :: s' => if cls c then S (run_length cls s') else O
  end.

(** The largest [i < n] such that [here] holds of the text from
    position [i] on: where a greedy repetition of at most [n] runes
    ends when what follows it in the expression must still match. *)
Fixpoint last_where (here : gostring -> bool) (n : nat) (s : gostring)
  : option nat :=
  match n with
  | O => None
  | S n' =>
      match s with
      | [] => None
      | _ :: s' =>
          match last_where here n' s' with
          | Some i => Some (S i)
          | None => if here s then Some O else None
          end
      end
  end.

Definition strip_prefix (prefix s : gostring) : option gostring :=
  if strings_HasPrefix s prefix
  then Some (skipn (List.length prefix) s) else None.

(** [https?://\S+] *)
Definition url_tail (consumed : nat) (s : gostring) : option nat :=
  match strip_prefix (str "://") s with
  | None => None
  | Some rest =>
      match run_length (fun c => negb (is_space_re c)) rest with
      | O => None
      | n => Some (consumed + 3 + n)%nat
      end
  end.

Definition urlRegex (s : gostring) : option nat :=
  match strip_prefix (str "http") s with
  | None => None
  | Some rest =>
      match rest with
      | c :: rest' =>
          if c =? 115 then
            match url_tail 5 rest' with
            | Some n => Some n
            | None => url_tail 4 rest
            end
          else url_tail 4 rest
      | [] => url_tail 4 rest
      end
  end.

(** [[a-zA-Z0-9._%+\-]+@[a-zA-Z0-9.\-]+\.[a-zA-Z]{2,}] *)
Definition email_local (r : rune) : bool :=
  is_letter r || is_digit r ||
  (r =? 46) || (r =? 95) || (r =? 37) || (r =? 43) || (r =? 45).

Definition email_domain (r : rune) : bool :=
  is_letter r || is_digit r || (r =? 46) || (r =? 45).

(** [\.[a-zA-Z]{2,}] matches here. *)
Definition email_tld_here (s : gostring) : bool :=
  match s with
  | c :: rest => (c =? 46) && (2 <=? run_length is_letter rest)%nat
  | [] => false
  end.

Definition emailRegex (s : gostring) : option nat :=
  match run_length email_local s with
  | O => None
  | l =>
      match skipn l s with
      | c :: dom =>
          if c =? 64 then
            match
              last_where email_tld_here (run_length email_domain dom) dom
            with
            | Some (S d) =>
                Some (l + 1 + S d + 1
                      + run_length is_letter (skipn (S (S d)) dom))%nat
            | _ => None
            end
          else None
      | [] => None
      end
  end.

(** [\+?\d[\d\s\-]{7,}\d] *)
Definition phone_middle (r : rune) : bool :=
  is_digit r || is_space_re r || (r =? 45).

Definition digit_here (s : gostring) : bool :=
  match s with
  | c :: _ => is_digit c
  | [] => false
  end.

Definition phone_body (s : gostring) : option nat :=
  match s with
  | c :: rest =>
      if is_digit c then
        match last_where digit_here (run_length phone_middle rest) rest with
        | Some m => if (7 <=? m)%nat then Some (1 + m + 1)%nat else None
        | None => None
        end
      else None
  | [] => None
  end.

Definition phoneRegex (s : gostring) : option nat :=
  match s with
  | c :: rest =>
      if c =? 43 then
        match phone_body rest with
        | Some n => Some (S n)
        | None => phone_body s
        end
      else phone_body s
  | [] => phone_body s
  end.

(** [[^a-z0-9\s]] *)
Definition is_text (r : rune) : bool :=
  is_lower_az r || is_digit r || is_space_re r.

Definition nonTextRegex (s : gostring) : option nat :=
  match s with
  | c :: _ => if is_text c then None else Some 1%nat
  | [] => None
  end.

(** [\s+] *)
Definition spaceRegex (s : gostring) : option nat :=
  match run_length is_space_re s with
  | O => None
  | n => Some n
  end.

(** [Regexp.ReplaceAllString]: successive non-overlapping matches,
    each the leftmost one at or after the end of the previous match,
    are replaced by [repl].  [skip] counts the runes of the current
    match that are still to be dropped. *)
Fixpoint replace_from (re : Regexp) (repl : gostring) (skip : nat)
  (s : gostring) : gostring :=
  match s with
  | [] => []
  | c :: s' =>
      match skip with
      | S k => replace_from re repl k s'
      | O =>
          match re s with
          | Some (S k) => repl ++ replace_from re repl k s'
          | _ => c :: replace_from re repl O s'
          end
      end
  end.

Definition ReplaceAllString (re : Regexp) (src repl : gostring) : gostring :=
  replace_from re repl O src.

(** ** Bytes: UTF-8, [encoding/hex], [fmt] *)

(** [[]byte(s)]: the UTF-8 encoding of the runes of [s]. *)
Definition utf8_rune (r : rune) : list N :=
  if r <? 128 then [r]
  else if r <? 2048 then
    [N.lor 192 (N.shiftr r 6); N.lor 128 (N.land r 63)]
  else if r <? 65536 then
    [N.lor 224 (N.shiftr r 12); N.lor 128 (N.land (N.shiftr r 6) 63);
     N.lor 128 (N.land r 63)]
  else
    [N.lor 240 (N.shiftr r 18); N.lor 128 (N.land (N.shiftr r 12) 63);
     N.lor 128 (N.land (N.shiftr r 6) 63); N.lor 128 (N.land r 63)].

Definition utf8_encode (s : gostring) : list N := flat_map utf8_rune s.

(** The digits of [hex.EncodeToString]: "0123456789abcdef". *)
Definition hex_digit (n : N) : rune :=
  if n <? 10 then 48 + n else 87 + n.

Definition hex_EncodeToString (src : list N) : gostring :=
  flat_map (fun b => [hex_digit (N.shiftr b 4); hex_digit (N.land b 15)]) src.

(** The verb [%d] of [fmt.Sprintf] on an integer. *)
Definition fmt_d (x : Z) : gostring :=
  str (DecimalString.NilZero.string_of_int (Z.to_int x)).

(** ** [crypto/sha256] (FIPS 180-4) on 32-bit words held in [N] *)

Module sha256.

Definition w32 (x : N) : N := x mod 4294967296.

Definition rotr (n x : N) : N :=
  N.lor (N.shiftr x n) (w32 (N.shiftl x (32 - n))).

Definition Ch (x y z : N) : N :=
  N.lxor (N.land x y) (N.land (N.lxor x 4294967295) z).

Definition Maj (x y z : N) : N :=
  N.lxor (N.land x y) (N.lxor (N.land x z) (N.land y z)).

Definition Sigma0 x := N.lxor (rotr 2 x) (N.lxor (rotr 13 x) (rotr 22 x)).
Definition Sigma1 x := N.lxor (rotr 6 x) (N.lxor (rotr 11 x) (rotr 25 x)).
Definition sigma0 x := N.lxor (rotr 7 x) (N.lxor (rotr 18 x) (N.shiftr x 3)).
Definition sigma1 x := N.lxor (rotr 17 x) (N.lxor (rotr 19 x) (N.shiftr x 10)).

(** The constants are, as FIPS 180-4 defines them, the first 32 bits of
    the fractional parts of the cube roots (round constants) and of the
    square roots (initial hash value) of the first primes. *)
Definition primes : list N :=
  [2; 3; 5; 7; 11; 13; 17; 19; 23; 29; 31; 37; 41; 43; 47; 53; 59; 61; 67;
   71; 73; 79; 83; 89; 97; 101; 103; 107; 109; 113; 127; 131; 137; 139; 149;
   151; 157; 163; 167; 173; 179; 181; 191; 193; 197; 199; 211; 223; 227;
   229; 233; 239; 241; 251; 257; 263; 269; 271; 277; 281; 283; 293; 307;
   311].

(** The largest [r] below [2 ^ bits] with [r ^ k <= x], bit by bit. *)
Fixpoint root_bits (k x : N) (bits : nat) (r : N) : N :=
  match bits with
  | O => r
  | S b =>
      let r' := r + 2 ^ N.of_nat b in
      if r' ^ k <=? x then root_bits k x b r' else root_bits k x b r
  end.

Definition frac32_root (k p : N) : N :=
  w32 (root_bits k (p * 2 ^ (32 * k)) 35 0).

Definition K : list N := map (frac32_root 3) primes.

Record digest := Digest {
  h0 : N; h1 : N; h2 : N; h3 : N; h4 : N; h5 : N; h6 : N; h7 : N }.

Definition init : digest :=
  let h := fun i => frac32_root 2 (nth i primes 0) in
  Digest (h 0%nat) (h 1%nat) (h 2%nat) (h 3%nat)
         (h 4%nat) (h 5%nat) (h 6%nat) (h 7%nat).

(** Big-endian packing of words and of the bit length. *)
Definition be32 (w : N) : list N :=
  [N.shiftr w 24 mod 256; N.shiftr w 16 mod 256; N.shiftr w 8 mod 256;
   w mod 256].

Definition be64 (w : N) : list N := be32 (N.shiftr w 32) ++ be32 (w32 w).

Fixpoint words (bs : list N) : list N :=
  match bs with
  | a :: b :: c :: d :: bs' =>
      (N.shiftl a 24 + N.shiftl b 16 + N.shiftl c 8 + d) :: words bs'
  | _ => []
  end.

(** Padding: a 1 bit, zeros up to 56 modulo 64 bytes, and the length. *)
Definition pad (msg : list N) : list N :=
  let len := N.of_nat (List.length msg) in
  msg ++ [128] ++ repeat 0 (N.to_nat ((119 - len mod 64) mod 64))
      ++ be64 (8 * len).

Fixpoint blocks (fuel : nat) (bs : list N) : list (list N) :=
  match fuel, bs with
  | S fuel', _ :: _ => firstn 64 bs :: blocks fuel' (skipn 64 bs)
  | _, _ => []
  end.

(** The message schedule: [w] holds the last sixteen words. *)
Fixpoint schedule (n : nat) (w : list N) : list N :=
  match n with
  | O => []
  | S n' =>
      let x := w32 (sigma1 (nth 14 w 0) + nth 9 w 0
                    + sigma0 (nth 1 w 0) + nth 0 w 0) in
      x :: schedule n' (tl w ++ [x])
  end.

Definition round (s : digest) (kw : N * N) : digest :=
  let t1 := h7 s + Sigma1 (h4 s) + Ch (h4 s) (h5 s) (h6 s) + fst kw + snd kw in
  let t2 := Sigma0 (h0 s) + Maj (h0 s) (h1 s) (h2 s) in
  Digest (w32 (t1 + t2)) (h0 s) (h1 s) (h2 s)
         (w32 (h3 s + t1)) (h4 s) (h5 s) (h6 s).

Definition block (s : digest) (b : list N) : digest :=
  let w := words b in
  let t := fold_left round (combine K (w ++ schedule 48 w)) s in
  Digest (w32 (h0 s + h0 t)) (w32 (h1 s + h1 t)) (w32 (h2 s + h2 t))
         (w32 (h3 s + h3 t)) (w32 (h4 s + h4 t)) (w32 (h5 s + h5 t))
         (w32 (h6 s + h6 t)) (w32 (h7 s + h7 t)).

(** [sha256.Sum256]: the 32 bytes of the digest. *)
Definition Sum256 (data : list N) : list N :=
  let p := pad data in
  let d := fold_left block (blocks (List.length p) p) init in
  be32 (h0 d) ++ be32 (h1 d) ++ be32 (h2 d) ++ be32 (h3 d) ++
  be32 (h4 d) ++ be32 (h5 d) ++ be32 (h6 d) ++ be32 (h7 d).

End sha256.

(** ** [strconv.ParseInt] in base 10 with bit size 64 *)

Module strconv.

Inductive NumError := ErrSyntax | ErrRange.

Definition maxUint64 : N := 18446744073709551615.
Definition u64 (x : N) : N := x mod 18446744073709551616.

(** [int64(x)] for an unsigned [x], and negation in [int64]. *)
Definition int64 (x : Z) : Z :=
  ((x + 9223372036854775808) mod 18446744073709551616
   - 9223372036854775808)%Z.

(** The digit loop of [ParseUint] over the bytes of the string; [n] is
    the value accumulated so far.  A range error returns at once,
    before the bytes that follow are looked at. *)
Fixpoint parse_digits (n : N) (bs : list N) : N * option NumError :=
  match bs with
  | [] => (n, None)
  | c :: bs' =>
      if is_digit c then
        let d := c - 48 in
        if maxUint64 / 10 + 1 <=? n then (maxUint64, Some ErrRange)
        else
          let n := u64 (n * 10) in
          let n1 := u64 (n + d) in
          if (n1 <? n) || (maxUint64 <? n1) then (maxUint64, Some ErrRange)
          else parse_digits n1 bs'
      else (0, Some ErrSyntax)
  end.

Definition ParseUint (bs : list N) : N * option NumError :=
  match bs with
  | [] => (0, Some ErrSyntax)
  | _ => parse_digits 0 bs
  end.

Definition ParseInt (s : gostring) : Z * option NumError :=
  match utf8_encode s with
  | [] => (0%Z, Some ErrSyntax)
  | c :: rest =>
      let neg := c =? 45 in
      let digits := if (c =? 43) || (c =? 45) then rest else c :: rest in
      match ParseUint digits with
      | (_, Some ErrSyntax) => (0%Z, Some ErrSyntax)
      | (un, _) =>
          let cutoff : N := 9223372036854775808 in
          if negb neg && (cutoff <=? un)
          then (int64 (Z.of_N (cutoff - 1)), Some ErrRange)
          else if neg && (cutoff <? un)
          then (int64 (- int64 (Z.of_N cutoff)), Some ErrRange)
          else
            let n := int64 (Z.of_N un) in
            (if neg then int64 (- n) else n, None)
      end
  end.

End strconv.

(** ** The persisted record and the Telegram wire types *)

Record TelegramMessage := {
  ChannelID : Z;
  ChannelName : gostring;
  MessageID : Z;
  MessageText : gostring;
  MessageTimestamp : Z;
  ReceivedAt : Z;
  IsProcessed : bool;
  IsRelevant : option bool;
  ProcessedAt : option Z;
  JobFingerprint : option gostring;
  IsForwarded : bool
}.

Record Photo := { photo_FileID : gostring }.

Record Document := {
  doc_FileID : gostring; doc_FileName : gostring; doc_MimeType : gostring }.

Record Chat := { chat_ID : Z; chat_Title : gostring; chat_Type : gostring }.

Record TelegramMessageRaw := {
  raw_MessageID : Z;
  raw_Date : Z;
  raw_Text : gostring;
  raw_Caption : gostring;
  raw_Chat : Chat;
  raw_Photo : list Photo;
  raw_Document : option Document
}.

Record TelegramUpdate := {
  UpdateID : Z;
  Message : option TelegramMessageRaw;
  ChannelPost : option TelegramMessageRaw
}.

(** The keyword tables of the classifier. *)

Definition internshipKeywords : list gostring :=
  [str "intern"; str "internship"; str "trainee"; str "apprentice"].

Definition studentKeywords : list gostring :=
  [str "final year"; str "final-year"; str "student"; str "students only";
   str "currently pursuing"; str "pursuing degree"; str "campus hiring";
   str "on campus"; str "college student"].

Definition experienceRejectPatterns : list gostring :=
  [str "2+ year"; str "3+ year"; str "4+ year";
   str "minimum 2 year"; str "minimum 3 year";
   str "2 years experience"; str "3 years experience";
   str "experienced candidate"; str "experienced only"].

Definition explicitNon2025Patterns : list gostring :=
  [str "2024 batch"; str "2023 batch"; str "2022 batch"; str "2021 batch";
   str "2022-2024"; str "2021-2023"].

Fixpoint containsAny (text : gostring) (patterns : list gostring) : bool :=
  match patterns with
  | [] => false
  | p :: patterns' =>
      if strings_Contains text p then true else containsAny text patterns'
  end.

Definition excludes2025 (text : gostring) : bool :=
  if containsAny text explicitNon2025Patterns then true
  else if strings_Contains text (str "2025") then false
  else false.

(** What the specification says of the rule: membership of the fixed
    list of explicit patterns, and nothing else. *)
Definition in_explicit_non2025_list (text : gostring) : Prop :=
  exists p,
    In p [str "2024 batch"; str "2023 batch"; str "2022 batch";
          str "2021 batch"; str "2022-2024"; str "2021-2023"]
    /\ strings_Contains text p = true.

(** ** The outside world: environment, Firestore, the Telegram API *)

Inductive HttpOutcome :=
| TransportError
| Response (StatusCode : Z).

(** The calls that leave the process. *)
Inductive Call :=
| NewClient (projectID : gostring)
| DocSet (docID : gostring) (msg : TelegramMessage)
| QueryUnprocessed (limit : nat)
| DocUpdateResult (docID : gostring) (isRelevant : bool)
    (fingerprint : gostring)
| DocUpdateForwarded (docID : gostring)
| QueryForwarded (fingerprint : gostring)
| HttpPost (url : gostring) (chat_id : Z) (text : gostring).

(** What the program cannot decide: the process environment, the clock,
    and whether a remote call goes through.  Each may depend on the
    calls made so far. *)
Record Env := {
  os_Getenv : gostring -> gostring;
  time_Now : list Call -> Z;
  firestore_fails : list Call -> Call -> bool;
  http_Post : list Call -> Call -> HttpOutcome
}.

Inductive error :=
| Unavailable
| NotFound
| PostFailed
| BadStatus (code : Z)
| ProjectNotSet.

(** The collection [telegram_messages] and the calls made, oldest first. *)
Record World := {
  messages : gmap (list N) TelegramMessage;
  calls : list Call
}.

Record DocumentSnapshot := {
  Ref_ID : gostring;
  fields : option TelegramMessage
}.

(** [doc.DataTo(&msg)]; [None] is its error. *)
Definition DataTo (doc : DocumentSnapshot) : option TelegramMessage :=
  fields doc.

(** A small state monad over the world. *)
Definition M (A : Type) : Type := World -> A * World.

Definition ret {A} (a : A) : M A := fun w => (a, w).

Definition bind {A B} (m : M A) (k : A -> M B) : M B :=
  fun w => let (a, w') := m w in k a w'.

Notation "x <- m ;; k" := (bind m (fun x => k))
  (at level 100, m at next level, right associativity).
Notation "m ;;; k" := (bind m (fun _ => k))
  (at level 100, right associativity).

Definition run {A} (m : M A) (w : World) : World := snd (m w).

Definition is_Some_bool {A} (o : option A) : bool :=
  match o with Some _ => true | None => false end.

Fixpoint for_each {A} (f : A -> M unit) (l : list A) : M unit :=
  match l with
  | [] => ret tt
  | x :: l' => f x ;;; for_each f l'
  end.

(** ** The program *)

Section Bot.

(** The lower-case mapping of package [unicode] for the runes beyond
    ASCII is a table of the Go library; the program is read for any such
    table. *)
Variable unicode_lower : rune -> rune.

Definition unicode_ToLower (r : rune) : rune :=
  if r <=? 127 then lowerASCII r else unicode_lower r.

Definition strings_ToLower (s : gostring) : gostring :=
  map unicode_ToLower s.

Definition normalizeText (text : gostring) : gostring :=
  let t := strings_ToLower text in
  let t := ReplaceAllString urlRegex t (str "") in
  let t := ReplaceAllString emailRegex t (str "") in
  let t := ReplaceAllString phoneRegex t (str "") in
  let t := ReplaceAllString nonTextRegex t (str " ") in
  let t := ReplaceAllString spaceRegex t (str " ") in
  strings_TrimSpace t.

Definition computeFingerprint (messageText : gostring) : gostring :=
  let normalized := utf8_encode (normalizeText messageText) in
  let normalized :=
    if (400 <? List.length normalized)%nat
    then firstn 400 normalized else normalized in
  hex_EncodeToString (sha256.Sum256 normalized).

Definition isRelevant (messageText : gostring) : bool :=
  let text := strings_ToLower messageText in
  if containsAny text internshipKeywords then false
  else if containsAny text studentKeywords then false
  else if containsAny text experienceRejectPatterns then false
  else if excludes2025 text then false
  else true.

Variable env : Env.

Definition gets {A} (f : World -> A) : M A := fun w => (f w, w).

Definition log (c : Call) (w : World) : World :=
  {| messages := messages w; calls := calls w ++ [c] |}.

(** A Firestore call: logged; [true] when it goes through. *)
Definition firestore_call (c : Call) : M bool :=
  fun w => (negb (firestore_fails env (calls w) c), log c w).

Definition write_doc (docID : gostring) (msg : TelegramMessage) : M unit :=
  fun w => (tt, {| messages := <[docID := msg]> (messages w);
                   calls := calls w |}).

Definition getFirestoreClient : M (option error) :=
  let projectID := os_Getenv env (str "GOOGLE_CLOUD_PROJECT") in
  if bool_decide (projectID = []) then ret (Some ProjectNotSet)
  else
    ok <- firestore_call (NewClient projectID) ;;
    ret (if ok then None else Some Unavailable).

Definition storeMessage (docID : gostring) (msg : TelegramMessage)
  : M (option error) :=
  ok <- firestore_call (DocSet docID msg) ;;
  if ok then write_doc docID msg ;;; ret None
  else ret (Some Unavailable).

Definition snapshot (kv : list N * TelegramMessage) : DocumentSnapshot :=
  {| Ref_ID := fst kv; fields := Some (snd kv) |}.

(** The listing order of a query is that of the map, which stands for
    whatever order Firestore returns. *)
Definition fetchUnprocessed (limit : nat)
  : M (list DocumentSnapshot * option error) :=
  ok <- firestore_call (QueryUnprocessed limit) ;;
  if ok then
    gets (fun w =>
      (firstn limit
         (map snapshot
            (List.filter (fun kv => negb (IsProcessed (snd kv)))
               (map_to_list (messages w)))), None))
  else ret ([], Some Unavailable).

Definition with_result (msg : TelegramMessage) (isRelevant : bool)
  (fingerprint : gostring) (now : Z) : TelegramMessage :=
  {| ChannelID := ChannelID msg; ChannelName := ChannelName msg;
     MessageID := MessageID msg; MessageText := MessageText msg;
     MessageTimestamp := MessageTimestamp msg; ReceivedAt := ReceivedAt msg;
     IsProcessed := true; IsRelevant := Some isRelevant;
     ProcessedAt := Some now; JobFingerprint := Some fingerprint;
     IsForwarded := IsForwarded msg |}.

Definition with_forwarded (msg : TelegramMessage) : TelegramMessage :=
  {| ChannelID := ChannelID msg; ChannelName := ChannelName msg;
     MessageID := MessageID msg; MessageText := MessageText msg;
     MessageTimestamp := MessageTimestamp msg; ReceivedAt := ReceivedAt msg;
     IsProcessed := IsProcessed msg; IsRelevant := IsRelevant msg;
     ProcessedAt := ProcessedAt msg; JobFingerprint := JobFingerprint msg;
     IsForwarded := true |}.

(** [Doc(docID).Update]: fails with NotFound when there is no such
    document, and then writes nothing. *)
Definition update_doc (c : Call) (docID : gostring)
  (f : TelegramMessage -> TelegramMessage) : M (option error) :=
  ok <- firestore_call c ;;
  if ok then
    old <- gets (fun w => messages w !! docID) ;;
    match old with
    | Some msg => write_doc docID (f msg) ;;; ret None
    | None => ret (Some NotFound)
    end
  else ret (Some Unavailable).

Definition updateProcessingResult (docID : gostring) (isRelevant : bool)
  (fingerprint : gostring) : M (option error) :=
  now <- gets (fun w => time_Now env (calls w)) ;;
  update_doc (DocUpdateResult docID isRelevant fingerprint) docID
    (fun msg => with_result msg isRelevant fingerprint now).

Definition markForwarded (docID : gostring) : M (option error) :=
  update_doc (DocUpdateForwarded docID) docID with_forwarded.

Definition claims_fingerprint (fingerprint : gostring)
  (kv : list N * TelegramMessage) : bool :=
  bool_decide (JobFingerprint (snd kv) = Some fingerprint)
  && IsForwarded (snd kv).

Definition isFingerprintForwarded (fingerprint : gostring)
  : M (bool * option error) :=
  ok <- firestore_call (QueryForwarded fingerprint) ;;
  if ok then
    docs <- gets (fun w =>
      firstn 1 (List.filter (claims_fingerprint fingerprint)
                  (map_to_list (messages w)))) ;;
    ret ((0 <? List.length docs)%nat, None)
  else ret (false, Some Unavailable).

Definition telegramAPIURL (method : gostring) : gostring :=
  str "https://api.telegram.org/bot" ++ os_Getenv env (str "BOT_TOKEN")
  ++ str "/" ++ method.

Definition sendTextMessage (chatID : Z) (text : gostring) : M (option error) :=
  let c := HttpPost (telegramAPIURL (str "sendMessage")) chatID text in
  fun w =>
    (match http_Post env (calls w) c with
     | TransportError => Some PostFailed
     | Response code =>
         if (code =? 200)%Z then None else Some (BadStatus code)
     end, log c w).

Definition formatMessage (msg : TelegramMessage) : gostring :=
  [128226] ++ str " Job Post" ++ [10; 10] ++ str "Channel: "
  ++ ChannelName msg ++ [10; 10] ++ MessageText msg.

Definition mustGetPersonalChatID : Z :=
  let idStr := os_Getenv env (str "PERSONAL_CHAT_ID") in
  let (id, _) := strconv.ParseInt idStr in
  id.

Definition processOne (doc : DocumentSnapshot) : M unit :=
  match DataTo doc with
  | None => ret tt
  | Some msg =>
      let fingerprint := computeFingerprint (MessageText msg) in
      let relevant := isRelevant (MessageText msg) in
      updateProcessingResult (Ref_ID doc) relevant fingerprint ;;;
      if negb relevant then ret tt
      else
        r <- isFingerprintForwarded fingerprint ;;
        let (forwarded, err) := r in
        if is_Some_bool err || forwarded then ret tt
        else
          let chatID := mustGetPersonalChatID in
          sendTextMessage chatID (formatMessage msg) ;;;
          markForwarded (Ref_ID doc) ;;;
          ret tt
  end.

Record HttpResponse := { Status : Z; Body : gostring }.

(** The worker.  [http.Error] writes the message and a newline. *)
Definition workerHandler (method : gostring) : M HttpResponse :=
  if bool_decide (method = str "GET")
  then ret {| Status := 200; Body := str "worker alive" |}
  else if negb (bool_decide (method = str "POST"))
  then ret {| Status := 405; Body := str "method not allowed" ++ [10] |}
  else
    err <- getFirestoreClient ;;
    if is_Some_bool err
    then ret {| Status := 500;
                Body := str "firestore unavailable" ++ [10] |}
    else
      r <- fetchUnprocessed 50 ;;
      let (docs, err) := r in
      if is_Some_bool err
      then ret {| Status := 500; Body := str "failed to fetch" ++ [10] |}
      else
        for_each processOne docs ;;;
        ret {| Status := 200; Body := str "processed" |}.

(** The webhook; [body] is the outcome of decoding the request body,
    [None] when it does not decode.  The result is the status written. *)
Definition telegramWebhookHandler (method : gostring)
  (body : option TelegramUpdate) : M Z :=
  if negb (bool_decide (method = str "POST")) then ret 200%Z
  else
    match body with
    | None => ret 200%Z
    | Some update =>
        let chosen :=
          match Message update with
          | Some m => Some m
          | None => ChannelPost update
          end in
        match chosen with
        | None => ret 200%Z
        | Some msg =>
            let hasMedia :=
              is_Some_bool (raw_Document msg)
              || (0 <? List.length (raw_Photo msg))%nat in
            let hasText :=
              negb (bool_decide (raw_Text msg = []))
              || negb (bool_decide (raw_Caption msg = [])) in
            if negb hasText && negb hasMedia then ret 200%Z
            else
              let docID :=
                fmt_d (chat_ID (raw_Chat msg)) ++ str "_"
                ++ fmt_d (raw_MessageID msg) in
              err <- getFirestoreClient ;;
              if is_Some_bool err then ret 200%Z
              else
                now <- gets (fun w => time_Now env (calls w)) ;;
                let firestoreMsg :=
                  {| ChannelID := chat_ID (raw_Chat msg);
                     ChannelName := chat_Title (raw_Chat msg);
                     MessageID := raw_MessageID msg;
                     MessageText := raw_Text msg;
                     MessageTimestamp := raw_Date msg;
                     ReceivedAt := now;
                     IsProcessed := false;
                     IsRelevant := None;
                     ProcessedAt := None;
                     JobFingerprint := None;
                     IsForwarded := false |} in
                err <- storeMessage docID firestoreMsg ;;
                if is_Some_bool err then ret 200%Z
                else ret 200%Z
        end
    end.

End Bot.

(** ** Predicates used in the statements *)

(** Some match of [re] starts somewhere in [s]. *)
Fixpoint has_match (re : Regexp) (s : gostring) : bool :=
  match s with
  | [] => false
  | _ :: s' => is_Some_bool (re s) || has_match re s'
  end.

(** The alphabet of normalised text: [a-z], [0-9] and the space. *)
Definition canon_char (c : rune) : bool :=
  is_lower_az c || is_digit c || (c =? 32).

(** On a rune of normalised text: it is its own lower case, it is text,
    the only space is 32, and it is neither a colon nor an at sign. *)
Definition canon_facts (c : rune) : bool :=
  implb (canon_char c)
    ((lowerASCII c =? c) && is_text c
     && eqb (is_space_re c) (c =? 32)
     && eqb (unicode_IsSpace c) (c =? 32)
     && negb (c =? 58) && negb (c =? 64)).

(** No two spaces in a row. *)
Fixpoint single_spaced (s : gostring) : bool :=
  match s with
  | [] => true
  | a :: t =>
      match t with
      | [] => true
      | b :: _ => negb ((a =? 32) && (b =? 32)) && single_spaced t
      end
  end.

(** The digits of lower-case hexadecimal. *)
Definition is_lower_hex (c : rune) : bool :=
  is_digit c || ((97 <=? c) && (c <=? 102)).

(** A case table that leaves every rune beyond ASCII as it is.  It
    serves to run the program on ASCII texts, which never reach the
    table. *)
Definition ascii_only : rune -> rune := fun r => r.

(** The number that a string of decimal digits denotes, after [n]. *)
Fixpoint digits_value (n : N) (ds : list N) : N :=
  match ds with
  | [] => n
  | c :: ds' => digits_value (10 * n + (c - 48)) ds'
  end.

(** Some record of the collection carries this fingerprint and is
    marked forwarded. *)
Definition fingerprint_claimed (fingerprint : gostring)
  (ms : gmap (list N) TelegramMessage) : Prop :=
  exists k m,
    ms !! k = Some m /\
    JobFingerprint m = Some fingerprint /\ IsForwarded m = true.

(** Every Firestore call goes through. *)
Definition firestore_reliable (env : Env) : Prop :=
  forall h c, firestore_fails env h c = false.

(** The message of an update that the webhook looks at. *)
Definition incoming (update : TelegramUpdate) : option TelegramMessageRaw :=
  match Message update with
  | Some m => Some m
  | None => ChannelPost update
  end.

(** The message has a text, a caption, a document or a photo. *)
Definition has_content (msg : TelegramMessageRaw) : Prop :=
  raw_Text msg <> [] \/ raw_Caption msg <> [] \/
  raw_Document msg <> None \/ raw_Photo msg <> [].

(** ** Predicates used in the further properties *)

(** The document ID the webhook builds, and the record it stores. *)
Definition document_id (chat id : Z) : gostring :=
  fmt_d chat ++ str "_" ++ fmt_d id.

Definition ingested (msg : TelegramMessageRaw) (now : Z) : TelegramMessage :=
  {| ChannelID := chat_ID (raw_Chat msg);
     ChannelName := chat_Title (raw_Chat msg);
     MessageID := raw_MessageID msg;
     MessageText := raw_Text msg;
     MessageTimestamp := raw_Date msg;
     ReceivedAt := now;
     IsProcessed := false;
     IsRelevant := None;
     ProcessedAt := None;
     JobFingerprint := None;
     IsForwarded := false |}.

(** The snapshots that the query of [fetchUnprocessed] lists. *)
Definition batch_of (limit : nat) (ms : gmap (list N) TelegramMessage)
  : list DocumentSnapshot :=
  firstn limit
    (map snapshot
       (List.filter (fun kv => negb (IsProcessed (snd kv)))
          (map_to_list ms))).

(** The fields that ingestion sets are the same in both records. *)
Definition same_post (m m' : TelegramMessage) : Prop :=
  ChannelID m = ChannelID m' /\ ChannelName m = ChannelName m' /\
  MessageID m = MessageID m' /\ MessageText m = MessageText m' /\
  MessageTimestamp m = MessageTimestamp m' /\ ReceivedAt m = ReceivedAt m'.

(** [m'] is [m] further along: the same post, and no flag taken back. *)
Definition advances (m m' : TelegramMessage) : Prop :=
  same_post m m' /\
  (IsProcessed m = true -> IsProcessed m' = true) /\
  (IsForwarded m = true -> IsForwarded m' = true).

(** The same keys, and every record further along. *)
Definition store_advances (ms ms' : gmap (list N) TelegramMessage) : Prop :=
  forall k,
    match ms !! k, ms' !! k with
    | Some m, Some m' => advances m m'
    | None, None => True
    | _, _ => False
    end.

(** A forwarded record is processed, and no two records that are
    forwarded carry the same fingerprint. *)
Definition dedup_invariant (ms : gmap (list N) TelegramMessage) : Prop :=
  (forall k m, ms !! k = Some m -> IsForwarded m = true ->
               IsProcessed m = true) /\
  (forall k1 k2 m1 m2 fp,
     ms !! k1 = Some m1 -> ms !! k2 = Some m2 ->
     JobFingerprint m1 = Some fp -> JobFingerprint m2 = Some fp ->
     IsForwarded m1 = true -> IsForwarded m2 = true -> k1 = k2).

Definition is_send (c : Call) : bool :=
  match c with HttpPost _ _ _ => true | _ => false end.

Definition is_write (c : Call) : bool :=
  match c with
  | DocSet _ _ | DocUpdateResult _ _ _ | DocUpdateForwarded _ => true
  | _ => false
  end.

(** Every record marked forwarded is processed and was classified
    relevant. *)
Definition forwarded_are_relevant (ms : gmap (list N) TelegramMessage)
  : Prop :=
  forall k m, ms !! k = Some m -> IsForwarded m = true ->
              IsProcessed m = true /\ IsRelevant m = Some true.

(** ** Concrete inputs *)

(** An environment with the given PERSONAL_CHAT_ID, in which the
    Firestore calls selected by [down] fail and every post to the
    Telegram API has the outcome [post]. *)
Definition sample_env (chat_id : gostring) (down : Call -> bool)
  (post : HttpOutcome) : Env :=
  {| os_Getenv := fun name =>
       if bool_decide (name = str "PERSONAL_CHAT_ID") then chat_id
       else if bool_decide (name = str "GOOGLE_CLOUD_PROJECT")
       then str "tele-bot" else str "token";
     time_Now := fun h => (1700000000 + Z.of_nat (List.length h))%Z;
     firestore_fails := fun _ c => down c;
     http_Post := fun _ _ => post |}.

Definition never (c : Call) : bool := false.

Definition result_updates (c : Call) : bool :=
  match c with DocUpdateResult _ _ _ => true | _ => false end.

(** A record as the webhook stores it. *)
Definition fresh_record (channel id : Z) (text : gostring)
  : TelegramMessage :=
  {| ChannelID := channel; ChannelName := str "jobs"; MessageID := id;
     MessageText := text; MessageTimestamp := 1700000000;
     ReceivedAt := 1700000000; IsProcessed := false; IsRelevant := None;
     ProcessedAt := None; JobFingerprint := None; IsForwarded := false |}.

Definition post_A : TelegramMessage :=
  fresh_record (-1001) 5 (str "Backend engineer role, apply now, 2025 batch").

Definition post_B : TelegramMessage :=
  fresh_record (-1002) 9
    (str "BACKEND engineer role - apply now! 2025 batch https://t.me/x").

Definition one_post : World :=
  {| messages := {[ str "-1001_5" := post_A ]}; calls := [] |}.

Definition two_posts : World :=
  {| messages := <[str "-1002_9" := post_B]> {[ str "-1001_5" := post_A ]};
     calls := [] |}.

(** A photo with a caption and no text, as a channel post. *)
Definition caption_only : TelegramUpdate :=
  {| UpdateID := 1;
     Message := None;
     ChannelPost :=
       Some {| raw_MessageID := 12; raw_Date := 1700000000;
               raw_Text := []; raw_Caption := str "We are hiring";
               raw_Chat := {| chat_ID := -1001; chat_Title := str "jobs";
                              chat_Type := str "channel" |};
               raw_Photo := [ {| photo_FileID := str "f1" |} ];
               raw_Document := None |} |}.

Definition queries_fail (c : Call) : bool :=
  match c with QueryUnprocessed _ => true | _ => false end.

(** A post that the classifier rejects. *)
Definition post_C : TelegramMessage :=
  fresh_record (-1001) 7 (str "Unpaid internship, apply now").

(** A text message of a channel, and the update that carries it. *)
Definition hiring_msg (id : Z) : TelegramMessageRaw :=
  {| raw_MessageID := id; raw_Date := 1700000000;
     raw_Text := str "Backend engineer role, apply now";
     raw_Caption := [];
     raw_Chat := {| chat_ID := -1001; chat_Title := str "jobs";
                    chat_Type := str "channel" |};
     raw_Photo := [];
     raw_Document := None |}.

Definition hiring_update (id : Z) : TelegramUpdate :=
  {| UpdateID := 2; Message := Some (hiring_msg id); ChannelPost := None |}.

Definition empty_store : World := {| messages := ∅; calls := [] |}.

(** The record of [hiring_msg 5] after it has been forwarded, and a
    store that holds it. *)
Definition forwarded_record : TelegramMessage :=
  with_forwarded
    (with_result (ingested (hiring_msg 5) 1700000000) true
       (computeFingerprint ascii_only (raw_Text (hiring_msg 5)))
       1700000001).

Definition forwarded_store : World :=
  {| messages := {[ str "-1001_5" := forwarded_record ]}; calls := [] |}.


(** The forwarded record together with a post that is not processed. *)
Definition mixed_store : World :=
  {| messages := <[str "-1002_9" := post_B]> (messages forwarded_store);
     calls := [] |}.


Definition writes_fail (c : Call) : bool :=
  match c with DocSet _ _ => true | _ => false end.



(** * Properties *)

(** ** Substring search *)

Lemma HasPrefix_app (p rest : gostring) :
  strings_HasPrefix (p ++ rest) p = true.
Proof.
  induction p as [|c p IH]; simpl; [reflexivity|].
  now rewrite N.eqb_refl, IH.
Qed.

Lemma Contains_here (s substr : gostring) :
  strings_HasPrefix s substr = true -> strings_Contains s substr = true.
Proof. intros H. destruct s; simpl; now rewrite H. Qed.

Lemma Contains_later (pre s substr : gostring) :
  strings_Contains s substr = true ->
  strings_Contains (pre ++ s) substr = true.
Proof.
  intros H. induction pre as [|c pre IH]; simpl; [exact H|].
  rewrite IH. apply orb_true_r.
Qed.

Lemma Contains_infix (pre substr post : gostring) :
  strings_Contains (pre ++ substr ++ post) substr = true.
Proof. apply Contains_later, Contains_here, HasPrefix_app. Qed.

Lemma containsAny_spec (text : gostring) (patterns : list gostring) :
  containsAny text patterns = true <->
  exists p, In p patterns /\ strings_Contains text p = true.
Proof.
  induction patterns as [|q patterns IH]; simpl.
  - split; [discriminate | intros (p & [] & _)].
  - destruct (strings_Contains text q) eqn:E.
    + split; [intros _; exists q; auto | reflexivity].
    + rewrite IH. split.
      * intros (p & Hin & Hp). exists p; auto.
      * intros (p & [<- | Hin] & Hp); [congruence | exists p; auto].
Qed.

Lemma excludes2025_is_list_membership (text : gostring) :
  excludes2025 text = containsAny text explicitNon2025Patterns.
Proof.
  unfold excludes2025.
  destruct (containsAny text explicitNon2025Patterns); [reflexivity|].
  now destruct (strings_Contains text (str "2025")).
Qed.

Section Classifier.

Variable U : rune -> rune.

Lemma ToLower_app (a b : gostring) :
  strings_ToLower U (a ++ b) = strings_ToLower U a ++ strings_ToLower U b.
Proof. apply map_app. Qed.

Lemma lowerASCII_is_ascii (c l : rune) :
  lowerASCII c = l -> l <= 127 -> c <= 127.
Proof.
  unfold lowerASCII, is_upper_AZ. intros <-.
  destruct (65 <=? c) eqn:E1, (c <=? 90) eqn:E2; simpl; lia.
Qed.

Lemma ToLower_ascii_word (w l : gostring) :
  map lowerASCII w = l -> Forall (fun c => c <= 127) l ->
  strings_ToLower U w = l.
Proof.
  revert l. induction w as [|c w IH]; intros l Hw Hl; simpl in *.
  - exact Hw.
  - subst l. inversion Hl as [|? ? Hc Hrest]; subst.
    rewrite (IH _ eq_refl Hrest). f_equal.
    unfold unicode_ToLower.
    assert (c <= 127) by (eapply lowerASCII_is_ascii; eauto).
    destruct (c <=? 127) eqn:E; [reflexivity|].
    apply N.leb_gt in E. lia.
Qed.

(** The four reject rules, read off [isRelevant]. *)
Lemma isRelevant_true_iff (text : gostring) :
  isRelevant U text = true <->
  containsAny (strings_ToLower U text) internshipKeywords = false /\
  containsAny (strings_ToLower U text) studentKeywords = false /\
  containsAny (strings_ToLower U text) experienceRejectPatterns = false /\
  excludes2025 (strings_ToLower U text) = false.
Proof.
  unfold isRelevant.
  destruct (containsAny _ internshipKeywords),
           (containsAny _ studentKeywords),
           (containsAny _ experienceRejectPatterns),
           (excludes2025 _); intuition congruence.
Qed.

(** C6: a text whose lower-cased form contains no internship keyword, no
    student keyword, no experience pattern, no explicit non-2025 pattern
    and not the literal 2025 is classified relevant: a text without any
    cohort-year signal is accepted. *)
Theorem relevant_without_any_signal (text : gostring) :
  containsAny (strings_ToLower U text) internshipKeywords = false ->
  containsAny (strings_ToLower U text) studentKeywords = false ->
  containsAny (strings_ToLower U text) experienceRejectPatterns = false ->
  containsAny (strings_ToLower U text) explicitNon2025Patterns = false ->
  strings_Contains (strings_ToLower U text) (str "2025") = false ->
  isRelevant U text = true.
Proof.
  intros Hi Hs He Hn _. apply isRelevant_true_iff.
  now rewrite excludes2025_is_list_membership.
Qed.

(** C7: a text that contains the word intern, each letter in either
    case, is classified not relevant. *)
Theorem intern_any_case_rejected (pre w post : gostring) :
  map lowerASCII w = str "intern" ->
  isRelevant U (pre ++ w ++ post) = false.
Proof.
  intros Hw. unfold isRelevant.
  assert (Hlow : strings_ToLower U w = str "intern").
  { apply ToLower_ascii_word; [exact Hw|].
    repeat constructor; cbv; discriminate. }
  assert (Hc : containsAny (strings_ToLower U (pre ++ w ++ post))
                 internshipKeywords = true).
  { apply containsAny_spec. exists (str "intern"). split; [now left|].
    rewrite !ToLower_app, Hlow. apply Contains_infix. }
  now rewrite Hc.
Qed.

(** C8: [excludes2025] is membership of the fixed list of explicit
    patterns; the test for the literal 2025 never changes its result;
    and a text with 2026 batch and no reject signal is relevant. *)
Theorem excludes2025_exactly_the_list :
  (forall text, excludes2025 text = true <-> in_explicit_non2025_list text) /\
  (forall text, excludes2025 text = containsAny text explicitNon2025Patterns) /\
  (forall text,
     strings_Contains (strings_ToLower U text) (str "2026 batch") = true ->
     containsAny (strings_ToLower U text) internshipKeywords = false ->
     containsAny (strings_ToLower U text) studentKeywords = false ->
     containsAny (strings_ToLower U text) experienceRejectPatterns = false ->
     ~ in_explicit_non2025_list (strings_ToLower U text) ->
     isRelevant U text = true).
Proof.
  assert (Hiff : forall text,
             excludes2025 text = true <-> in_explicit_non2025_list text).
  { intros text. rewrite excludes2025_is_list_membership.
    apply containsAny_spec. }
  split; [exact Hiff|]. split; [exact excludes2025_is_list_membership|].
  intros text _ Hi Hs He Hn. apply isRelevant_true_iff.
  repeat split; try assumption.
  destruct (excludes2025 (strings_ToLower U text)) eqn:E; [|reflexivity].
  exfalso. apply Hn, Hiff, E.
Qed.

End Classifier.

(** ** Character classes on normalised text *)

Lemma ascii_cases (P : rune -> bool) :
  forallb P (map N.of_nat (seq 0 128)) = true ->
  forall c, c <= 127 -> P c = true.
Proof.
  intros H c Hc. rewrite forallb_forall in H. apply H.
  apply in_map_iff. exists (N.to_nat c). split; [lia|].
  apply in_seq. lia.
Qed.

Lemma is_text_ascii (c : rune) : is_text c = true -> c <= 127.
Proof.
  unfold is_text, is_lower_az, is_digit, is_space_re.
  rewrite !orb_true_iff, !andb_true_iff, !N.leb_le, !N.eqb_eq. lia.
Qed.

Lemma canon_char_ascii (c : rune) : canon_char c = true -> c <= 127.
Proof.
  unfold canon_char, is_lower_az, is_digit.
  rewrite !orb_true_iff, !andb_true_iff, !N.leb_le, !N.eqb_eq. lia.
Qed.

Lemma canon_facts_hold (c : rune) :
  canon_char c = true ->
  lowerASCII c = c /\ is_text c = true /\
  is_space_re c = (c =? 32) /\ unicode_IsSpace c = (c =? 32) /\
  c <> 58 /\ c <> 64.
Proof.
  intros Hc.
  assert (H : canon_facts c = true).
  { apply ascii_cases; [now vm_compute | now apply canon_char_ascii]. }
  unfold canon_facts in H. rewrite Hc in H. simpl in H.
  rewrite !andb_true_iff, !negb_true_iff, !N.eqb_neq in H.
  destruct H as (((((H1 & H2) & H3) & H4) & H5) & H6).
  apply N.eqb_eq in H1. apply eqb_prop in H3, H4. auto 6.
Qed.

Lemma text_not_space_is_canon (c : rune) :
  is_text c = true -> is_space_re c = false -> canon_char c = true.
Proof.
  unfold is_text, canon_char. intros H Hs. rewrite Hs, orb_false_r in H.
  now rewrite H.
Qed.

(** ** [ReplaceAllString] *)

Lemma replace_quiet (re : Regexp) (repl s : gostring) :
  has_match re s = false -> replace_from re repl O s = s.
Proof.
  induction s as [|c s IH]; simpl; [reflexivity|].
  intros H. apply orb_false_iff in H as [Hre Hs].
  destruct (re (c :: s)); [discriminate|]. now rewrite IH.
Qed.

Lemma HasPrefix_split (s p : gostring) :
  strings_HasPrefix s p = true -> s = p ++ skipn (List.length p) s.
Proof.
  revert s. induction p as [|a p IH]; intros s H; simpl in *.
  - reflexivity.
  - destruct s as [|c s]; [discriminate|].
    apply andb_true_iff in H as [Hc Hp]. apply N.eqb_eq in Hc. subst c.
    simpl. f_equal. now apply IH.
Qed.

Lemma strip_prefix_Some (p s rest : gostring) :
  strip_prefix p s = Some rest -> s = p ++ rest.
Proof.
  unfold strip_prefix. destruct (strings_HasPrefix s p) eqn:E; [|discriminate].
  intros [= <-]. now apply HasPrefix_split.
Qed.

Lemma url_tail_colon (k n : nat) (s : gostring) :
  url_tail k s = Some n -> In 58 s.
Proof.
  unfold url_tail. destruct (strip_prefix (str "://") s) eqn:E; [|discriminate].
  intros _. apply strip_prefix_Some in E. subst s. now left.
Qed.

Lemma urlRegex_colon (s : gostring) (n : nat) :
  urlRegex s = Some n -> In 58 s.
Proof.
  unfold urlRegex.
  destruct (strip_prefix (str "http") s) as [rest|] eqn:E; [|discriminate].
  apply strip_prefix_Some in E. subst s. intros H.
  apply in_or_app. right.
  destruct rest as [|c rest'].
  - now apply url_tail_colon in H.
  - destruct (c =? 115).
    + destruct (url_tail 5 rest') eqn:E5.
      * right. eapply url_tail_colon; eauto.
      * eapply url_tail_colon; eauto.
    + eapply url_tail_colon; eauto.
Qed.

Lemma In_skipn_In (n : nat) (x : N) (s : gostring) :
  In x (skipn n s) -> In x s.
Proof.
  revert s. induction n as [|n IH]; intros [|c s] H; simpl in *; auto.
Qed.

Lemma emailRegex_at (s : gostring) (n : nat) :
  emailRegex s = Some n -> In 64 s.
Proof.
  unfold emailRegex. destruct (run_length email_local s) as [|l]; [discriminate|].
  destruct (skipn (S l) s) as [|c dom] eqn:E; [discriminate|].
  destruct (c =? 64) eqn:Ec; [|discriminate].
  intros _. apply N.eqb_eq in Ec. subst c.
  apply (In_skipn_In (S l)). rewrite E. now left.
Qed.

Lemma canon_no_url (s : gostring) :
  Forall (fun c => canon_char c = true) s -> has_match urlRegex s = false.
Proof.
  induction 1 as [|c s Hc Hs IH]; simpl; [reflexivity|].
  rewrite IH, orb_false_r.
  destruct (urlRegex (c :: s)) eqn:E; [|reflexivity].
  exfalso. apply urlRegex_colon in E.
  assert (Hall : Forall (fun c => canon_char c = true) (c :: s))
    by now constructor.
  rewrite List.Forall_forall in Hall. apply Hall in E. now vm_compute in E.
Qed.

Lemma canon_no_email (s : gostring) :
  Forall (fun c => canon_char c = true) s -> has_match emailRegex s = false.
Proof.
  induction 1 as [|c s Hc Hs IH]; simpl; [reflexivity|].
  rewrite IH, orb_false_r.
  destruct (emailRegex (c :: s)) eqn:E; [|reflexivity].
  exfalso. apply emailRegex_at in E.
  assert (Hall : Forall (fun c => canon_char c = true) (c :: s))
    by now constructor.
  rewrite List.Forall_forall in Hall. apply Hall in E. now vm_compute in E.
Qed.

Lemma replace_nonText (s : gostring) :
  ReplaceAllString nonTextRegex s [32]
  = map (fun c => if is_text c then c else 32) s.
Proof.
  unfold ReplaceAllString.
  induction s as [|c s IH]; simpl; [reflexivity|].
  destruct (is_text c); simpl; now rewrite IH.
Qed.

Lemma replace_nonText_is_text (s : gostring) :
  Forall (fun c => is_text c = true)
    (ReplaceAllString nonTextRegex s [32]).
Proof.
  rewrite replace_nonText. apply List.Forall_forall. intros x Hx.
  apply in_map_iff in Hx as (c & <- & _).
  destruct (is_text c) eqn:E; [exact E | reflexivity].
Qed.

Lemma spaceRegex_cons (c : rune) (s : gostring) :
  spaceRegex (c :: s)
  = if is_space_re c then Some (S (run_length is_space_re s)) else None.
Proof. unfold spaceRegex. simpl. now destruct (is_space_re c). Qed.

Lemma collapse_canon (s : gostring) (k : nat) :
  Forall (fun c => is_text c = true) s ->
  Forall (fun c => canon_char c = true)
    (replace_from spaceRegex [32] k s).
Proof.
  intros H. revert k. induction H as [|c s Hc Hs IH]; intros k; simpl.
  - constructor.
  - destruct k as [|k]; [|apply IH].
    rewrite spaceRegex_cons. destruct (is_space_re c) eqn:E.
    + simpl. constructor; [reflexivity | apply IH].
    + constructor; [now apply text_not_space_is_canon | apply IH].
Qed.

Lemma single_spaced_cons (c : rune) (t : gostring) :
  single_spaced (c :: t)
  = match t with
    | [] => true
    | b :: _ => negb ((c =? 32) && (b =? 32)) && single_spaced t
    end.
Proof. reflexivity. Qed.

Lemma collapse_single_spaced (s : gostring) (k : nat) :
  k = O \/ k = run_length is_space_re s ->
  single_spaced (replace_from spaceRegex [32] k s) = true /\
  (k = run_length is_space_re s ->
   hd_error (replace_from spaceRegex [32] k s) <> Some 32).
Proof.
  revert k. induction s as [|c s IH]; intros k Hk.
  - simpl. split; [reflexivity | discriminate].
  - simpl. destruct k as [|k].
    + rewrite spaceRegex_cons. destruct (is_space_re c) eqn:E.
      * simpl.
        destruct (IH (run_length is_space_re s)) as [Hs Hh]; [now right|].
        specialize (Hh eq_refl). split; [|discriminate].
        destruct (replace_from spaceRegex [32] (run_length is_space_re s) s)
          as [|b t] eqn:Eo; [reflexivity|].
        rewrite Hs, andb_true_r. simpl in Hh.
        destruct (b =? 32) eqn:Eb; [|reflexivity].
        apply N.eqb_eq in Eb. congruence.
      * destruct (IH O) as [Hs _]; [now left|].
        assert (Hc : (c =? 32) = false).
        { destruct (c =? 32) eqn:Ec; [|reflexivity].
          apply N.eqb_eq in Ec. subst c. discriminate. }
        split.
        -- rewrite single_spaced_cons.
           destruct (replace_from spaceRegex [32] 0 s); [reflexivity|].
           now rewrite Hc, Hs.
        -- intros _. simpl. apply N.eqb_neq in Hc. congruence.
    + destruct Hk as [Hk | Hk]; [discriminate|]. simpl in Hk.
      destruct (is_space_re c); [|discriminate].
      injection Hk as Hk.
      destruct (IH k) as [Hs Hh]; [now right|].
      split; [exact Hs | intros _; exact (Hh Hk)].
Qed.

(** ** [strings.TrimSpace] *)

Lemma single_spaced_tail (c : rune) (t : gostring) :
  single_spaced (c :: t) = true -> single_spaced t = true.
Proof.
  rewrite single_spaced_cons. destruct t; [reflexivity|].
  intros H. now apply andb_true_iff in H.
Qed.

Lemma trim_left_Forall (P : rune -> Prop) (s : gostring) :
  Forall P s -> Forall P (trim_left s).
Proof.
  induction 1 as [|c s Hc Hs IH]; simpl; [constructor|].
  destruct (unicode_IsSpace c); [exact IH | now constructor].
Qed.

Lemma trim_right_Forall (P : rune -> Prop) (s : gostring) :
  Forall P s -> Forall P (trim_right s).
Proof.
  induction 1 as [|c s Hc Hs IH]; simpl; [constructor|].
  destruct (trim_right s).
  - destruct (unicode_IsSpace c); repeat constructor; assumption.
  - now constructor.
Qed.

Lemma trim_left_single_spaced (s : gostring) :
  single_spaced s = true -> single_spaced (trim_left s) = true.
Proof.
  induction s as [|c s IH]; intros H; simpl; [reflexivity|].
  destruct (unicode_IsSpace c); [|exact H].
  eapply IH, single_spaced_tail, H.
Qed.

Lemma trim_right_head (s t : gostring) (b : rune) :
  trim_right s = b :: t -> exists s', s = b :: s'.
Proof.
  destruct s as [|c s]; simpl; [discriminate|].
  destruct (trim_right s); [destruct (unicode_IsSpace c)|];
    intros [= <- <-]; eauto.
Qed.

Lemma trim_right_single_spaced (s : gostring) :
  single_spaced s = true -> single_spaced (trim_right s) = true.
Proof.
  induction s as [|c s IH]; intros H; [reflexivity|].
  simpl trim_right. destruct (trim_right s) as [|b t] eqn:E.
  - now destruct (unicode_IsSpace c).
  - destruct (trim_right_head _ _ _ E) as [s' ->].
    rewrite single_spaced_cons in H. apply andb_true_iff in H as [Hcb Hs].
    rewrite single_spaced_cons, Hcb. now apply IH.
Qed.

Lemma trim_right_cons (c : rune) (s : gostring) :
  trim_right (c :: s)
  = match trim_right s with
    | [] => if unicode_IsSpace c then [] else [c]
    | t => c :: t
    end.
Proof. reflexivity. Qed.

Lemma trim_right_idem (s : gostring) :
  trim_right (trim_right s) = trim_right s.
Proof.
  induction s as [|c s IH]; [reflexivity|].
  rewrite (trim_right_cons c s). destruct (trim_right s) as [|b t] eqn:E.
  - destruct (unicode_IsSpace c) eqn:Ec; [reflexivity|].
    simpl. now rewrite Ec.
  - rewrite (trim_right_cons c (b :: t)). now rewrite IH.
Qed.

Lemma trim_left_head (s u : gostring) (c : rune) :
  trim_left s = c :: u -> unicode_IsSpace c = false.
Proof.
  induction s as [|a s IH]; simpl; [discriminate|].
  destruct (unicode_IsSpace a) eqn:E; [exact IH|].
  now intros [= <- _].
Qed.

Lemma TrimSpace_idem (s : gostring) :
  strings_TrimSpace (strings_TrimSpace s) = strings_TrimSpace s.
Proof.
  unfold strings_TrimSpace.
  assert (H : trim_left (trim_right (trim_left s)) = trim_right (trim_left s)).
  { destruct (trim_left s) as [|c u] eqn:E; [reflexivity|].
    apply trim_left_head in E. rewrite trim_right_cons.
    destruct (trim_right u); rewrite ?E; simpl; now rewrite E. }
  rewrite H. apply trim_right_idem.
Qed.

(** ** Normalised text is a fixed point of every step but the phone step *)

Lemma nonText_fixed (t : gostring) :
  Forall (fun c => canon_char c = true) t ->
  ReplaceAllString nonTextRegex t [32] = t.
Proof.
  rewrite replace_nonText.
  induction 1 as [|c t Hc Ht IH]; simpl; [reflexivity|].
  destruct (canon_facts_hold c Hc) as (_ & -> & _). now rewrite IH.
Qed.

Lemma collapse_fixed (t : gostring) :
  Forall (fun c => canon_char c = true) t ->
  single_spaced t = true ->
  ReplaceAllString spaceRegex t [32] = t.
Proof.
  unfold ReplaceAllString.
  induction 1 as [|c t Hc Ht IH]; intros Hs; [reflexivity|].
  specialize (IH (single_spaced_tail _ _ Hs)).
  simpl. rewrite spaceRegex_cons.
  destruct (canon_facts_hold c Hc) as (_ & _ & -> & _).
  destruct (c =? 32) eqn:Ec; [|now rewrite IH].
  apply N.eqb_eq in Ec. subst c.
  assert (Hrun : run_length is_space_re t = O).
  { destruct t as [|b t']; [reflexivity|].
    rewrite single_spaced_cons in Hs. apply andb_true_iff in Hs as [Hb _].
    inversion Ht as [|? ? Hcb _]; subst.
    destruct (canon_facts_hold b Hcb) as (_ & _ & Hsp & _).
    simpl. rewrite Hsp. simpl in Hb. now destruct (b =? 32). }
  rewrite Hrun. simpl. now rewrite IH.
Qed.

Section Normalizer.

Variable U : rune -> rune.

Lemma normalizeText_steps (s : gostring) :
  normalizeText U s
  = strings_TrimSpace
      (ReplaceAllString spaceRegex
         (ReplaceAllString nonTextRegex
            (ReplaceAllString phoneRegex
               (ReplaceAllString emailRegex
                  (ReplaceAllString urlRegex (strings_ToLower U s) [])
                  [])
               [])
            [32])
         [32]).
Proof. reflexivity. Qed.

Lemma ToLower_fixed (t : gostring) :
  Forall (fun c => canon_char c = true) t -> strings_ToLower U t = t.
Proof.
  induction 1 as [|c t Hc Ht IH]; simpl; [reflexivity|].
  rewrite IH. f_equal. unfold unicode_ToLower.
  pose proof (canon_char_ascii c Hc) as Ha. apply N.leb_le in Ha.
  rewrite Ha. now destruct (canon_facts_hold c Hc) as (-> & _).
Qed.

(** The output of [normalizeText] is over [a-z0-9] and single spaces. *)
Lemma normalizeText_canonical (s : gostring) :
  Forall (fun c => canon_char c = true) (normalizeText U s) /\
  single_spaced (normalizeText U s) = true.
Proof.
  rewrite normalizeText_steps. unfold strings_TrimSpace, ReplaceAllString.
  split.
  - apply trim_right_Forall, trim_left_Forall, collapse_canon.
    apply replace_nonText_is_text.
  - apply trim_right_single_spaced, trim_left_single_spaced.
    apply collapse_single_spaced. now left.
Qed.

(** C2 (as amended): [normalizeText] applied to its own output returns
    it unchanged whenever that output has no phone-number-like run (a
    digit, seven or more digits, spaces or hyphens, and a digit). *)
Theorem normalize_idempotent_without_phone_run (s : gostring) :
  has_match phoneRegex (normalizeText U s) = false ->
  normalizeText U (normalizeText U s) = normalizeText U s.
Proof.
  intros Hphone.
  destruct (normalizeText_canonical s) as [Hcanon Hsingle].
  rewrite (normalizeText_steps (normalizeText U s)).
  rewrite (ToLower_fixed _ Hcanon).
  unfold ReplaceAllString at 5. rewrite (replace_quiet _ _ _ (canon_no_url _ Hcanon)).
  unfold ReplaceAllString at 4. rewrite (replace_quiet _ _ _ (canon_no_email _ Hcanon)).
  unfold ReplaceAllString at 3. rewrite (replace_quiet _ _ _ Hphone).
  rewrite (nonText_fixed _ Hcanon), (collapse_fixed _ Hcanon Hsingle).
  rewrite (normalizeText_steps s) at 1 2. apply TrimSpace_idem.
Qed.

End Normalizer.

(** ** A phone-like run in normalised text is removed by a second pass *)

Lemma replace_length_le (re : Regexp) (s : gostring) (k : nat) :
  (List.length (replace_from re [] k s) <= List.length s)%nat.
Proof.
  revert k. induction s as [|c s IH]; intros k; simpl; [lia|].
  destruct k as [|k]; [|specialize (IH k); lia].
  destruct (re (c :: s)) as [[|n]|]; simpl.
  - specialize (IH O). lia.
  - specialize (IH n). lia.
  - specialize (IH O). lia.
Qed.

Lemma replace_length_lt (re : Regexp) (s : gostring) :
  (forall x, re x <> Some O) ->
  has_match re s = true ->
  (List.length (replace_from re [] O s) < List.length s)%nat.
Proof.
  intros Hpos. induction s as [|c s IH]; simpl; [discriminate|].
  destruct (re (c :: s)) as [[|n]|] eqn:E; simpl.
  - now apply Hpos in E.
  - intros _. pose proof (replace_length_le re s n). lia.
  - intros H. specialize (IH H). lia.
Qed.

Lemma phoneRegex_nonempty (x : gostring) : phoneRegex x <> Some O.
Proof.
  assert (Hbody : forall y, phone_body y <> Some O).
  { intros [|c y]; unfold phone_body; [discriminate|].
    destruct (is_digit c); [|discriminate].
    destruct (last_where _ _ _) as [m|]; [|discriminate].
    destruct (7 <=? m)%nat; [intros [= H]; lia | discriminate]. }
  unfold phoneRegex. destruct x as [|c rest]; [apply Hbody|].
  destruct (c =? 43); [|apply Hbody].
  destruct (phone_body rest); [discriminate | apply Hbody].
Qed.

Lemma collapse_length_le (s : gostring) (k : nat) :
  (List.length (replace_from spaceRegex [32%N] k s) <= List.length s)%nat.
Proof.
  revert k. induction s as [|c s IH]; intros k; simpl; [lia|].
  destruct k as [|k]; [|specialize (IH k); lia].
  rewrite spaceRegex_cons. destruct (is_space_re c); simpl.
  - specialize (IH (run_length is_space_re s)). lia.
  - specialize (IH O). lia.
Qed.

Lemma trim_left_length_le (s : gostring) :
  (List.length (trim_left s) <= List.length s)%nat.
Proof.
  induction s as [|c s IH]; simpl; [lia|].
  destruct (unicode_IsSpace c); simpl; lia.
Qed.

Lemma trim_right_length_le (s : gostring) :
  (List.length (trim_right s) <= List.length s)%nat.
Proof.
  induction s as [|c s IH]; [simpl; lia|].
  rewrite trim_right_cons. destruct (trim_right s).
  - destruct (unicode_IsSpace c); simpl; lia.
  - simpl in *. lia.
Qed.

Section SecondPass.

Variable U : rune -> rune.

(** The condition is necessary as well: when the normalised text has
    a phone-like run, a second pass shortens it. *)
Lemma normalize_removes_phone_run (s : gostring) :
  has_match phoneRegex (normalizeText U s) = true ->
  normalizeText U (normalizeText U s) <> normalizeText U s.
Proof.
  intros Hphone Heq.
  destruct (normalizeText_canonical U s) as [Hcanon Hsingle].
  assert (Hlen : (List.length (normalizeText U (normalizeText U s))
                  < List.length (normalizeText U s))%nat).
  { rewrite (normalizeText_steps U (normalizeText U s)).
    rewrite (ToLower_fixed U _ Hcanon).
    unfold ReplaceAllString at 5.
    rewrite (replace_quiet _ _ _ (canon_no_url _ Hcanon)).
    unfold ReplaceAllString at 4.
    rewrite (replace_quiet _ _ _ (canon_no_email _ Hcanon)).
    pose proof (replace_length_lt phoneRegex (normalizeText U s)
                  phoneRegex_nonempty Hphone) as Hlt.
    fold (ReplaceAllString phoneRegex (normalizeText U s) []) in Hlt.
    set (t := ReplaceAllString phoneRegex (normalizeText U s) []) in *.
    rewrite replace_nonText. unfold strings_TrimSpace, ReplaceAllString.
    eapply Nat.le_lt_trans; [apply trim_right_length_le|].
    eapply Nat.le_lt_trans; [apply trim_left_length_le|].
    eapply Nat.le_lt_trans; [apply collapse_length_le|].
    now rewrite length_map. }
  rewrite Heq in Hlen. lia.
Qed.

End SecondPass.

(** ** The fingerprint *)

(** The embedded SHA-256 on the test vectors of FIPS 180-4. *)
Example sha256_constants :
  nth 0 sha256.K 0 = 0x428a2f98 /\ nth 63 sha256.K 0 = 0xc67178f2 /\
  sha256.h0 sha256.init = 0x6a09e667 /\ sha256.h7 sha256.init = 0x5be0cd19.
Proof. vm_compute. auto. Qed.

Example sha256_abc :
  hex_EncodeToString (sha256.Sum256 (str "abc"))
  = str "ba7816bf8f01cfea414140de5dae2223b00361a396177a9cb410ff61f20015ad".
Proof. vm_compute. reflexivity. Qed.

Example sha256_two_blocks :
  hex_EncodeToString
    (sha256.Sum256
       (str "abcdbcdecdefdefgefghfghighijhijkijkljklmklmnlmnomnopnopq"))
  = str "248d6a61d20638b8e5c026930c3e6039a33ce45964ff2167f6ecedd419db06c1".
Proof. vm_compute. reflexivity. Qed.

Lemma utf8_ascii (s : gostring) :
  Forall (fun c => c <= 127) s -> utf8_encode s = s.
Proof.
  unfold utf8_encode. induction 1 as [|c s Hc Hs IH]; simpl; [reflexivity|].
  rewrite IH. unfold utf8_rune.
  destruct (c <? 128) eqn:E; [reflexivity|]. apply N.ltb_ge in E. lia.
Qed.

Lemma be32_bytes (w : N) : Forall (fun b => b < 256) (sha256.be32 w).
Proof. unfold sha256.be32. repeat constructor; now apply N.mod_lt. Qed.

Lemma Sum256_length (data : list N) :
  List.length (sha256.Sum256 data) = 32%nat.
Proof. unfold sha256.Sum256. now rewrite !length_app. Qed.

Lemma Sum256_bytes (data : list N) :
  Forall (fun b => b < 256) (sha256.Sum256 data).
Proof.
  unfold sha256.Sum256.
  repeat (apply Forall_app; split); apply be32_bytes.
Qed.

Lemma hex_length (src : list N) :
  List.length (hex_EncodeToString src) = (2 * List.length src)%nat.
Proof.
  unfold hex_EncodeToString.
  induction src as [|b src IH]; simpl in *; [reflexivity|]. rewrite IH. lia.
Qed.

Lemma hex_digit_lower (n : N) : n < 16 -> is_lower_hex (hex_digit n) = true.
Proof.
  intros H. unfold hex_digit, is_lower_hex, is_digit.
  destruct (n <? 10) eqn:E.
  - apply N.ltb_lt in E. apply orb_true_iff. left.
    apply andb_true_iff. split; apply N.leb_le; lia.
  - apply N.ltb_ge in E. apply orb_true_iff. right.
    apply andb_true_iff. split; apply N.leb_le; lia.
Qed.

Lemma hex_lower (src : list N) :
  Forall (fun b => b < 256) src ->
  Forall (fun c => is_lower_hex c = true) (hex_EncodeToString src).
Proof.
  unfold hex_EncodeToString.
  induction 1 as [|b src Hb Hs IH]; simpl; [constructor|].
  constructor; [|constructor; [|exact IH]]; apply hex_digit_lower.
  - rewrite N.shiftr_div_pow2. change (2 ^ 4) with 16.
    apply N.Div0.div_lt_upper_bound. lia.
  - change 15 with (N.ones 4). rewrite N.land_ones. now apply N.mod_lt.
Qed.

Section Fingerprint.

Variable U : rune -> rune.

Lemma normalizeText_ascii (text : gostring) :
  Forall (fun c => c <= 127) (normalizeText U text).
Proof.
  eapply List.Forall_impl; [|apply (normalizeText_canonical U text)].
  intros c. apply canon_char_ascii.
Qed.

Lemma computeFingerprint_eq (text : gostring) :
  computeFingerprint U text
  = hex_EncodeToString (sha256.Sum256 (firstn 400 (normalizeText U text))).
Proof.
  unfold computeFingerprint.
  rewrite (utf8_ascii _ (normalizeText_ascii text)).
  destruct (400 <? List.length (normalizeText U text))%nat eqn:E;
    [reflexivity|].
  apply Nat.ltb_ge in E. now rewrite firstn_all2.
Qed.

(** C5: the fingerprint is the lower-case hexadecimal rendering (64
    digits) of the SHA-256 digest (32 bytes, 256 bits) of the first 400
    characters of the normalised text, whose characters are single
    bytes; so texts whose normalised forms agree on their first 400
    characters have the same fingerprint. *)
Theorem fingerprint_is_hex_sha256_of_normalized_prefix :
  (forall text,
     utf8_encode (normalizeText U text) = normalizeText U text /\
     computeFingerprint U text
     = hex_EncodeToString
         (sha256.Sum256 (firstn 400 (normalizeText U text)))) /\
  (forall data, List.length (sha256.Sum256 data) = 32%nat) /\
  (forall text,
     List.length (computeFingerprint U text) = 64%nat /\
     Forall (fun c => is_lower_hex c = true) (computeFingerprint U text)) /\
  (forall t1 t2,
     firstn 400 (normalizeText U t1) = firstn 400 (normalizeText U t2) ->
     computeFingerprint U t1 = computeFingerprint U t2).
Proof.
  split; [|split; [|split]].
  - intros text. split; [|apply computeFingerprint_eq].
    apply utf8_ascii, normalizeText_ascii.
  - apply Sum256_length.
  - intros text. rewrite computeFingerprint_eq. split.
    + now rewrite hex_length, Sum256_length.
    + apply hex_lower, Sum256_bytes.
  - intros t1 t2 H. now rewrite !computeFingerprint_eq, H.
Qed.

End Fingerprint.

(** ** [strconv.ParseInt] *)

Lemma is_digit_bounds (c : rune) : is_digit c = true -> 48 <= c <= 57.
Proof.
  unfold is_digit. rewrite andb_true_iff, !N.leb_le. tauto.
Qed.

Lemma digits_value_ge (ds : list N) (n : N) : n <= digits_value n ds.
Proof.
  revert n. induction ds as [|c ds IH]; intros n; simpl; [lia|].
  specialize (IH (10 * n + (c - 48))). lia.
Qed.

Lemma u64_small (x : N) : x < 18446744073709551616 -> strconv.u64 x = x.
Proof. intros H. unfold strconv.u64. now apply N.mod_small. Qed.

Lemma u64_wrap (x : N) :
  18446744073709551616 <= x < 2 * 18446744073709551616 ->
  strconv.u64 x = x - 18446744073709551616.
Proof.
  intros H. unfold strconv.u64. symmetry.
  apply (N.mod_unique x 18446744073709551616 1); lia.
Qed.

(** On digits the loop of [ParseUint] computes the number they denote,
    or reports that it does not fit 64 bits. *)
Lemma parse_digits_spec (ds : list N) :
  Forall (fun c => is_digit c = true) ds ->
  forall n, n <= strconv.maxUint64 ->
  strconv.parse_digits n ds
  = if digits_value n ds <=? strconv.maxUint64
    then (digits_value n ds, None)
    else (strconv.maxUint64, Some strconv.ErrRange).
Proof.
  unfold strconv.maxUint64.
  induction 1 as [|c ds Hc Hds IH]; intros n Hn; simpl.
  - apply N.leb_le in Hn. now rewrite Hn.
  - rewrite Hc. apply is_digit_bounds in Hc.
    pose proof (digits_value_ge ds (10 * n + (c - 48))) as Hge.
    change (strconv.maxUint64 / 10 + 1) with 1844674407370955162.
    unfold strconv.maxUint64.
    destruct (1844674407370955162 <=? n) eqn:Ecut.
    + apply N.leb_le in Ecut.
      destruct (digits_value (10 * n + (c - 48)) ds <=? 18446744073709551615)
        eqn:E; [|reflexivity].
      apply N.leb_le in E. lia.
    + apply N.leb_gt in Ecut.
      rewrite (u64_small (n * 10)) by lia.
      destruct (N.lt_ge_cases (n * 10 + (c - 48)) 18446744073709551616)
        as [Hfit | Hover].
      * rewrite (u64_small _ Hfit).
        assert (E1 : (n * 10 + (c - 48) <? n * 10) = false)
          by (apply N.ltb_ge; lia).
        assert (E2 : (18446744073709551615 <? n * 10 + (c - 48)) = false)
          by (apply N.ltb_ge; lia).
        rewrite E1, E2. simpl. rewrite IH by lia.
        now replace (10 * n) with (n * 10) by lia.
      * rewrite (u64_wrap (n * 10 + (c - 48))) by lia.
        assert (E1 : (n * 10 + (c - 48) - 18446744073709551616 <? n * 10)
                     = true) by (apply N.ltb_lt; lia).
        rewrite E1. simpl.
        destruct (digits_value (10 * n + (c - 48)) ds <=? 18446744073709551615)
          eqn:E; [|reflexivity].
        apply N.leb_le in E. lia.
Qed.





(** ** The store operations *)

Section Store.

Variable env : Env.

Lemma update_doc_ok (c : Call) (docID : gostring)
  (f : TelegramMessage -> TelegramMessage) (w : World) (m : TelegramMessage) :
  firestore_fails env (calls w) c = false ->
  messages w !! docID = Some m ->
  update_doc env c docID f w
  = (None, {| messages := <[docID := f m]> (messages w);
              calls := calls w ++ [c] |}).
Proof.
  intros Hf Hm. unfold update_doc, bind, firestore_call, gets, write_doc, ret.
  rewrite Hf. simpl. now rewrite Hm.
Qed.

Lemma update_doc_missing (c : Call) (docID : gostring)
  (f : TelegramMessage -> TelegramMessage) (w : World) :
  firestore_fails env (calls w) c = false ->
  messages w !! docID = None ->
  update_doc env c docID f w = (Some NotFound, log c w).
Proof.
  intros Hf Hm. unfold update_doc, bind, firestore_call, gets, write_doc, ret.
  rewrite Hf. simpl. now rewrite Hm.
Qed.

Lemma update_doc_down (c : Call) (docID : gostring)
  (f : TelegramMessage -> TelegramMessage) (w : World) :
  firestore_fails env (calls w) c = true ->
  update_doc env c docID f w = (Some Unavailable, log c w).
Proof.
  intros Hf. unfold update_doc, bind, firestore_call, ret. now rewrite Hf.
Qed.

(** Whatever its outcome, an update logs its call and nothing else. *)
Lemma update_doc_calls (c : Call) (docID : gostring)
  (f : TelegramMessage -> TelegramMessage) (w : World) :
  calls (run (update_doc env c docID f) w) = calls w ++ [c].
Proof.
  unfold run. destruct (firestore_fails env (calls w) c) eqn:Hf.
  - now rewrite update_doc_down.
  - destruct (messages w !! docID) eqn:Hm.
    + now rewrite (update_doc_ok _ _ _ _ _ Hf Hm).
    + now rewrite update_doc_missing.
Qed.

Lemma query_claimed (fingerprint : gostring)
  (ms : gmap (list N) TelegramMessage) :
  (0 <? List.length
          (firstn 1 (List.filter (claims_fingerprint fingerprint)
                       (map_to_list ms))))%nat = true
  <-> fingerprint_claimed fingerprint ms.
Proof.
  unfold fingerprint_claimed. split.
  - destruct (List.filter _ _) as [|[k m] l] eqn:E; [discriminate|].
    intros _.
    assert (Hin : In (k, m) (List.filter (claims_fingerprint fingerprint)
                               (map_to_list ms))) by (rewrite E; now left).
    apply filter_In in Hin as [Hin Hc].
    apply list_elem_of_In, elem_of_map_to_list in Hin.
    unfold claims_fingerprint in Hc. simpl in Hc.
    apply andb_true_iff in Hc as [Hfp Hfw].
    apply bool_decide_eq_true in Hfp. eauto.
  - intros (k & m & Hk & Hfp & Hfw).
    assert (Hin : In (k, m) (List.filter (claims_fingerprint fingerprint)
                               (map_to_list ms))).
    { apply filter_In. split.
      - now apply list_elem_of_In, elem_of_map_to_list.
      - unfold claims_fingerprint. simpl. rewrite Hfw, andb_true_r.
        now apply bool_decide_eq_true. }
    destruct (List.filter _ _); [destruct Hin | reflexivity].
Qed.

Lemma isFingerprintForwarded_ok (fingerprint : gostring) (w : World) :
  firestore_fails env (calls w) (QueryForwarded fingerprint) = false ->
  exists forwarded,
    isFingerprintForwarded env fingerprint w
    = ((forwarded, None), log (QueryForwarded fingerprint) w) /\
    (forwarded = true <-> fingerprint_claimed fingerprint (messages w)).
Proof.
  intros Hf. unfold isFingerprintForwarded, bind, firestore_call, gets, ret.
  rewrite Hf. simpl. eexists. split; [reflexivity|]. apply query_claimed.
Qed.

Lemma isFingerprintForwarded_down (fingerprint : gostring) (w : World) :
  firestore_fails env (calls w) (QueryForwarded fingerprint) = true ->
  isFingerprintForwarded env fingerprint w
  = ((false, Some Unavailable), log (QueryForwarded fingerprint) w).
Proof.
  intros Hf. unfold isFingerprintForwarded, bind, firestore_call, ret.
  now rewrite Hf.
Qed.

Lemma isFingerprintForwarded_world (fingerprint : gostring) (w : World) :
  snd (isFingerprintForwarded env fingerprint w)
  = log (QueryForwarded fingerprint) w.
Proof.
  destruct (firestore_fails env (calls w) (QueryForwarded fingerprint)) eqn:Hf.
  - now rewrite isFingerprintForwarded_down.
  - destruct (isFingerprintForwarded_ok _ _ Hf) as (b & -> & _). reflexivity.
Qed.

Lemma sendTextMessage_world (chatID : Z) (text : gostring) (w : World) :
  snd (sendTextMessage env chatID text w)
  = log (HttpPost (telegramAPIURL env (str "sendMessage")) chatID text) w.
Proof. reflexivity. Qed.

Section ProcessOne.

Variable U : rune -> rune.
Variable doc : DocumentSnapshot.
Variable msg : TelegramMessage.
Hypothesis Hdoc : fields doc = Some msg.

Let fingerprint := computeFingerprint U (MessageText msg).
Let relevant := isRelevant U (MessageText msg).
Let classified (w : World) : World :=
  run (updateProcessingResult env (Ref_ID doc) relevant fingerprint) w.

(** The body of [processOne], step by step. *)
Lemma processOne_steps (w : World) :
  processOne U env doc w
  = if negb relevant then (tt, classified w)
    else
      let r := isFingerprintForwarded env fingerprint (classified w) in
      if is_Some_bool (snd (fst r)) || fst (fst r) then (tt, snd r)
      else
        (tt, run (markForwarded env (Ref_ID doc))
               (run (sendTextMessage env (mustGetPersonalChatID env)
                       (formatMessage msg)) (snd r))).
Proof.
  unfold processOne, DataTo, classified, run. rewrite Hdoc.
  fold fingerprint relevant. unfold bind at 1.
  destruct (updateProcessingResult env (Ref_ID doc) relevant fingerprint w)
    as [e w1]. cbn [snd].
  destruct (negb relevant); [reflexivity|].
  unfold bind at 1.
  destruct (isFingerprintForwarded env fingerprint w1) as [[fw err] w2].
  cbn [fst snd].
  destruct (is_Some_bool err || fw); [reflexivity|].
  unfold bind, ret.
  destruct (sendTextMessage env (mustGetPersonalChatID env) (formatMessage msg) w2)
    as [e1 w3]. cbn [snd].
  now destruct (markForwarded env (Ref_ID doc) w3) as [e2 w4].
Qed.

Lemma classified_calls (w : World) :
  calls (classified w)
  = calls w ++ [DocUpdateResult (Ref_ID doc) relevant fingerprint].
Proof.
  unfold classified, updateProcessingResult, run, bind, gets. simpl.
  apply update_doc_calls.
Qed.

(** A record that is not relevant is classified and left. *)
Lemma processOne_irrelevant (w : World) :
  relevant = false -> processOne U env doc w = (tt, classified w).
Proof. intros H. rewrite processOne_steps. now rewrite H. Qed.

(** The existence check answering true, or failing, ends the work on
    the record: nothing is sent and nothing is marked. *)
Lemma processOne_stops (w : World) (forwarded : bool) (err : option error) :
  relevant = true ->
  fst (isFingerprintForwarded env fingerprint (classified w))
  = (forwarded, err) ->
  forwarded = true \/ err <> None ->
  processOne U env doc w
  = (tt, log (QueryForwarded fingerprint) (classified w)).
Proof.
  intros Hrel Hq Hstop. rewrite processOne_steps, Hrel. simpl negb. cbv iota zeta.
  rewrite Hq, isFingerprintForwarded_world. cbn [fst snd].
  destruct Hstop as [-> | Herr].
  - now rewrite orb_true_r.
  - destruct err; [reflexivity | congruence].
Qed.

(** Otherwise the message is sent and the record is marked, whatever
    the outcome of the send. *)
Lemma processOne_sends (w : World) :
  relevant = true ->
  firestore_fails env (calls (classified w)) (QueryForwarded fingerprint)
  = false ->
  ~ fingerprint_claimed fingerprint (messages (classified w)) ->
  processOne U env doc w
  = (tt, run (markForwarded env (Ref_ID doc))
           (log (HttpPost (telegramAPIURL env (str "sendMessage"))
                   (mustGetPersonalChatID env) (formatMessage msg))
              (log (QueryForwarded fingerprint) (classified w)))).
Proof.
  intros Hrel Hq Hfree. rewrite processOne_steps, Hrel. simpl negb. cbv iota zeta.
  destruct (isFingerprintForwarded_ok _ _ Hq) as (fw & Heq & Hfw).
  rewrite Heq. cbn [fst snd].
  destruct fw; [exfalso; now apply Hfree, Hfw|].
  simpl orb. cbv iota. unfold run at 2. now rewrite sendTextMessage_world.
Qed.

End ProcessOne.

End Store.

(** ** One record through the worker *)

Section Pipeline.

Variable U : rune -> rune.
Variable env : Env.

Lemma updateProcessingResult_eq (docID : gostring) (isRelevant : bool)
  (fingerprint : gostring) (w : World) :
  updateProcessingResult env docID isRelevant fingerprint w
  = update_doc env (DocUpdateResult docID isRelevant fingerprint) docID
      (fun msg =>
         with_result msg isRelevant fingerprint (time_Now env (calls w))) w.
Proof. reflexivity. Qed.

Lemma not_claimed_after_result (fingerprint fp' : gostring)
  (ms : gmap (list N) TelegramMessage) (docID : gostring)
  (stored : TelegramMessage) (rel : bool) (now : Z) :
  IsForwarded stored = false ->
  ~ fingerprint_claimed fingerprint ms ->
  ~ fingerprint_claimed fingerprint
      (<[docID := with_result stored rel fp' now]> ms).
Proof.
  intros Hfw Hfree (k & m & Hk & Hfp & Hm). apply Hfree.
  destruct (decide (docID = k)) as [-> | Hne].
  - rewrite lookup_insert_eq in Hk. injection Hk as <-. simpl in Hm. congruence.
  - rewrite lookup_insert_ne in Hk by exact Hne. now exists k, m.
Qed.

(** A relevant record whose fingerprint is free: classified, looked
    up, sent and marked, whether or not the send succeeds. *)
Lemma processOne_forwards (w : World) (doc : DocumentSnapshot)
  (msg stored : TelegramMessage) :
  firestore_reliable env ->
  fields doc = Some msg ->
  isRelevant U (MessageText msg) = true ->
  messages w !! Ref_ID doc = Some stored ->
  IsForwarded stored = false ->
  ~ fingerprint_claimed (computeFingerprint U (MessageText msg)) (messages w) ->
  let fp := computeFingerprint U (MessageText msg) in
  run (processOne U env doc) w
  = {| messages :=
         <[Ref_ID doc :=
             with_forwarded
               (with_result stored true fp (time_Now env (calls w)))]>
           (messages w);
       calls :=
         calls w ++
           [DocUpdateResult (Ref_ID doc) true fp; QueryForwarded fp;
            HttpPost (telegramAPIURL env (str "sendMessage"))
              (mustGetPersonalChatID env) (formatMessage msg);
            DocUpdateForwarded (Ref_ID doc)] |}.
Proof.
  intros Hrel Hdoc Hr Hst Hfw Hfree fp. unfold run at 1.
  unfold fp. clear fp. set (fp := computeFingerprint U (MessageText msg)) in *.
  assert (Hcl : run (updateProcessingResult env (Ref_ID doc) true fp) w
                = {| messages :=
                       <[Ref_ID doc :=
                           with_result stored true fp
                             (time_Now env (calls w))]> (messages w);
                     calls := calls w
                              ++ [DocUpdateResult (Ref_ID doc) true fp] |}).
  { unfold run. rewrite updateProcessingResult_eq.
    now rewrite (update_doc_ok env _ _ _ _ stored (Hrel _ _) Hst). }
  rewrite (processOne_sends env U doc msg Hdoc w Hr); fold fp; rewrite Hr, Hcl.
  - unfold run, markForwarded.
    erewrite update_doc_ok;
      [| apply Hrel | unfold log; cbn [messages]; apply lookup_insert_eq].
    unfold log. cbn [snd messages calls]. rewrite insert_insert_eq.
    now rewrite <- !app_assoc.
  - apply Hrel.
  - cbn [messages]. now apply not_claimed_after_result.
Qed.

(** A relevant record whose fingerprint is already claimed once it is
    classified: nothing is sent and nothing is marked. *)
Lemma processOne_duplicate (w : World) (doc : DocumentSnapshot)
  (msg stored : TelegramMessage) :
  firestore_reliable env ->
  fields doc = Some msg ->
  isRelevant U (MessageText msg) = true ->
  messages w !! Ref_ID doc = Some stored ->
  let fp := computeFingerprint U (MessageText msg) in
  let classified :=
    <[Ref_ID doc := with_result stored true fp (time_Now env (calls w))]>
      (messages w) in
  fingerprint_claimed fp classified ->
  run (processOne U env doc) w
  = {| messages := classified;
       calls := calls w ++
                  [DocUpdateResult (Ref_ID doc) true fp; QueryForwarded fp] |}.
Proof.
  intros Hrel Hdoc Hr Hst fp classified Hcl. unfold run at 1.
  unfold classified in *. clear classified. unfold fp in *. clear fp.
  set (fp := computeFingerprint U (MessageText msg)) in *.
  set (classified :=
         <[Ref_ID doc := with_result stored true fp (time_Now env (calls w))]>
           (messages w)) in *.
  assert (Hw1 : run (updateProcessingResult env (Ref_ID doc) true fp) w
                = {| messages := classified;
                     calls := calls w
                              ++ [DocUpdateResult (Ref_ID doc) true fp] |}).
  { unfold run. rewrite updateProcessingResult_eq.
    now rewrite (update_doc_ok env _ _ _ _ stored (Hrel _ _) Hst). }
  destruct (isFingerprintForwarded_ok env fp
              (run (updateProcessingResult env (Ref_ID doc) true fp) w)
              (Hrel _ _)) as (fw & Heq & Hfw).
  rewrite (processOne_stops env U doc msg Hdoc w fw None Hr).
  - rewrite Hr. fold fp. rewrite Hw1. unfold log. cbn [snd messages calls].
    now rewrite <- app_assoc.
  - rewrite Hr. fold fp. unfold run in Heq |- *. now rewrite Heq.
  - left. apply Hfw. now rewrite Hw1.
Qed.


End Pipeline.

(** ** The worker: sends, marks and duplicates *)

Lemma run_for_each_cons {A} (f : A -> M unit) (x : A) (l : list A)
  (w : World) :
  run (for_each f (x :: l)) w = run (for_each f l) (run (f x) w).
Proof. unfold run. simpl. unfold bind. now destruct (f x w). Qed.

Lemma run_for_each_nil {A} (f : A -> M unit) (w : World) :
  run (for_each f []) w = w.
Proof. reflexivity. Qed.

Section Worker.

Variable U : rune -> rune.
Variable env : Env.

(** C1 (the code departs from it): for a relevant record whose
    fingerprint is not yet claimed, the message is sent once; when that
    send fails (transport error or a status other than 200) the record
    is marked forwarded all the same, because [processOne] drops the
    error of [sendTextMessage] and goes on to [markForwarded]. *)
Theorem failed_send_is_marked_forwarded (w : World) (doc : DocumentSnapshot)
  (msg stored : TelegramMessage) :
  firestore_reliable env ->
  (forall h c, http_Post env h c <> Response 200) ->
  fields doc = Some msg ->
  isRelevant U (MessageText msg) = true ->
  messages w !! Ref_ID doc = Some stored ->
  IsForwarded stored = false ->
  ~ fingerprint_claimed (computeFingerprint U (MessageText msg)) (messages w) ->
  let fp := computeFingerprint U (MessageText msg) in
  let send :=
    HttpPost (telegramAPIURL env (str "sendMessage"))
      (mustGetPersonalChatID env) (formatMessage msg) in
  let w' := run (processOne U env doc) w in
  (forall w2,
     fst (sendTextMessage env (mustGetPersonalChatID env)
            (formatMessage msg) w2) <> None) /\
  calls w' = calls w ++ [DocUpdateResult (Ref_ID doc) true fp;
                         QueryForwarded fp; send;
                         DocUpdateForwarded (Ref_ID doc)] /\
  exists rec,
    messages w' !! Ref_ID doc = Some rec /\
    IsProcessed rec = true /\ IsForwarded rec = true.
Proof.
  intros Hrel Hsend Hdoc Hr Hst Hfw Hfree fp send w'.
  split; [|split].
  - intros w2. unfold sendTextMessage. cbn [fst].
    specialize (Hsend (calls w2)
      (HttpPost (telegramAPIURL env (str "sendMessage"))
         (mustGetPersonalChatID env) (formatMessage msg))).
    destruct (http_Post env _ _) as [|code]; [discriminate|].
    destruct (code =? 200)%Z eqn:E; [|discriminate].
    apply Z.eqb_eq in E. congruence.
  - unfold w'. now rewrite (processOne_forwards U env w doc msg stored).
  - unfold w'. rewrite (processOne_forwards U env w doc msg stored) by assumption.
    cbn [messages]. rewrite lookup_insert_eq. eauto.
Qed.

(** C3 (the code departs from it): when the classification update of a
    relevant record fails, [processOne] drops the error and goes on:
    the existence check is made, the message is sent and the record is
    marked, while it stays unprocessed for the next run. *)
Theorem failed_update_is_not_skipped (w : World) (doc : DocumentSnapshot)
  (msg stored : TelegramMessage) :
  (forall h c,
     firestore_fails env h c
     = match c with DocUpdateResult _ _ _ => true | _ => false end) ->
  fields doc = Some msg ->
  isRelevant U (MessageText msg) = true ->
  messages w !! Ref_ID doc = Some stored ->
  IsProcessed stored = false ->
  ~ fingerprint_claimed (computeFingerprint U (MessageText msg)) (messages w) ->
  let fp := computeFingerprint U (MessageText msg) in
  let w' := run (processOne U env doc) w in
  fst (updateProcessingResult env (Ref_ID doc) true fp w) = Some Unavailable /\
  calls w' = calls w ++ [DocUpdateResult (Ref_ID doc) true fp;
                         QueryForwarded fp;
                         HttpPost (telegramAPIURL env (str "sendMessage"))
                           (mustGetPersonalChatID env) (formatMessage msg);
                         DocUpdateForwarded (Ref_ID doc)] /\
  exists rec,
    messages w' !! Ref_ID doc = Some rec /\
    IsProcessed rec = false /\ IsForwarded rec = true.
Proof.
  intros Hfail Hdoc Hr Hst Hproc Hfree fp w'.
  assert (Hdown : updateProcessingResult env (Ref_ID doc) true fp w
                  = (Some Unavailable,
                     log (DocUpdateResult (Ref_ID doc) true fp) w)).
  { rewrite updateProcessingResult_eq. apply update_doc_down.
    now rewrite Hfail. }
  assert (Hw' : w' = {| messages :=
                          <[Ref_ID doc := with_forwarded stored]> (messages w);
                        calls := calls w ++
                          [DocUpdateResult (Ref_ID doc) true fp;
                           QueryForwarded fp;
                           HttpPost (telegramAPIURL env (str "sendMessage"))
                             (mustGetPersonalChatID env) (formatMessage msg);
                           DocUpdateForwarded (Ref_ID doc)] |}).
  { unfold w', run at 1.
    rewrite (processOne_sends env U doc msg Hdoc w Hr);
      fold fp; rewrite Hr; unfold run; rewrite Hdown; cbn [snd].
    - unfold markForwarded.
      erewrite update_doc_ok;
        [| now rewrite Hfail | unfold log; cbn [messages]; exact Hst].
      unfold log. cbn [snd messages calls]. now rewrite <- !app_assoc.
    - now rewrite Hfail.
    - exact Hfree. }
  split; [now rewrite Hdown|]. rewrite Hw'. cbn [messages calls].
  split; [reflexivity|]. rewrite lookup_insert_eq. eauto.
Qed.

(** Two relevant records with one fingerprint, in this order. *)
Lemma first_forwarded_second_not (w : World) (ka kb : gostring)
  (A B : TelegramMessage) :
  firestore_reliable env ->
  ka <> kb ->
  messages w !! ka = Some A -> messages w !! kb = Some B ->
  IsForwarded A = false -> IsForwarded B = false ->
  isRelevant U (MessageText A) = true ->
  isRelevant U (MessageText B) = true ->
  computeFingerprint U (MessageText A) = computeFingerprint U (MessageText B) ->
  ~ fingerprint_claimed (computeFingerprint U (MessageText A)) (messages w) ->
  let w' :=
    run (for_each (processOne U env) [snapshot (ka, A); snapshot (kb, B)]) w in
  exists A' B',
    messages w' !! ka = Some A' /\ messages w' !! kb = Some B' /\
    IsProcessed A' = true /\ IsProcessed B' = true /\
    IsForwarded A' = true /\ IsForwarded B' = false.
Proof.
  intros Hrel Hne HA HB HfA HfB HrA HrB Hfp Hfree w'.
  unfold w'. rewrite !run_for_each_cons, run_for_each_nil.
  rewrite (processOne_forwards U env w (snapshot (ka, A)) A A)
    by (try assumption; reflexivity).
  set (fp := computeFingerprint U (MessageText A)) in *.
  set (AF := with_forwarded (with_result A true fp (time_Now env (calls w)))).
  cbn [snapshot Ref_ID fst].
  match goal with
  | |- context [run _ ?w1] => set (w1' := w1)
  end.
  assert (HB1 : messages w1' !! kb = Some B).
  { unfold w1'. cbn [messages]. now rewrite lookup_insert_ne. }
  rewrite (processOne_duplicate U env w1' (snapshot (kb, B))
             B B Hrel eq_refl HrB HB1).
  - cbn [messages Ref_ID snapshot fst]. unfold w1'. cbn [messages].
    eexists _, _. split; [|split; [apply lookup_insert_eq|]].
    + rewrite lookup_insert_ne by congruence. apply lookup_insert_eq.
    + unfold AF.
      cbn [IsProcessed IsForwarded with_forwarded with_result]. auto.
  - exists ka, AF. cbn [Ref_ID snapshot fst]. split; [|split].
    + rewrite lookup_insert_ne by congruence. unfold w1'. cbn [messages].
      apply lookup_insert_eq.
    + unfold AF. cbn [JobFingerprint with_forwarded with_result].
      now rewrite <- Hfp.
    + reflexivity.
Qed.




End Worker.

(** ** The webhook *)

Section Webhook.

Variable env : Env.

Lemma getFirestoreClient_ok (w : World) :
  firestore_reliable env ->
  os_Getenv env (str "GOOGLE_CLOUD_PROJECT") <> [] ->
  getFirestoreClient env w
  = (None, log (NewClient (os_Getenv env (str "GOOGLE_CLOUD_PROJECT"))) w).
Proof.
  intros Hrel Hset. unfold getFirestoreClient.
  rewrite bool_decide_eq_false_2 by exact Hset.
  unfold bind, firestore_call, ret. now rewrite Hrel.
Qed.

Lemma has_content_accepted (msg : TelegramMessageRaw) :
  has_content msg ->
  negb (negb (bool_decide (raw_Text msg = []))
        || negb (bool_decide (raw_Caption msg = [])))
  && negb (is_Some_bool (raw_Document msg)
           || (0 <? List.length (raw_Photo msg))%nat) = false.
Proof.
  intros [H | [H | [H | H]]].
  - now rewrite (bool_decide_eq_false_2 _ H).
  - rewrite (bool_decide_eq_false_2 _ H). now rewrite orb_true_r.
  - destruct (raw_Document msg); [|congruence]. apply andb_false_r.
  - destruct (raw_Photo msg); [congruence|].
    cbn [List.length Nat.ltb Nat.leb is_Some_bool].
    rewrite orb_true_r. apply andb_false_r.
Qed.

Lemma webhook_always_200 (method : gostring) (body : option TelegramUpdate)
  (w : World) :
  fst (telegramWebhookHandler env method body w) = 200%Z.
Proof.
  unfold telegramWebhookHandler.
  destruct (negb (bool_decide (method = str "POST"))); [reflexivity|].
  destruct body as [update|]; [|reflexivity].
  destruct (match Message update with
            | Some m => Some m
            | None => ChannelPost update
            end) as [msg|]; [|reflexivity].
  destruct (negb _ && negb _); [reflexivity|].
  unfold bind at 1. destruct (getFirestoreClient env w) as [e w1].
  destruct (is_Some_bool e); [reflexivity|].
  unfold bind at 1, gets. unfold bind.
  destruct (storeMessage env _ _ w1) as [e2 w2].
  now destruct (is_Some_bool e2).
Qed.

Lemma webhook_stores (update : TelegramUpdate) (msg : TelegramMessageRaw)
  (w : World) :
  firestore_reliable env ->
  os_Getenv env (str "GOOGLE_CLOUD_PROJECT") <> [] ->
  incoming update = Some msg ->
  has_content msg ->
  messages (run (telegramWebhookHandler env (str "POST") (Some update)) w)
  = <[fmt_d (chat_ID (raw_Chat msg)) ++ str "_" ++ fmt_d (raw_MessageID msg) :=
        {| ChannelID := chat_ID (raw_Chat msg);
           ChannelName := chat_Title (raw_Chat msg);
           MessageID := raw_MessageID msg;
           MessageText := raw_Text msg;
           MessageTimestamp := raw_Date msg;
           ReceivedAt :=
             time_Now env
               (calls w ++
                  [NewClient (os_Getenv env (str "GOOGLE_CLOUD_PROJECT"))]);
           IsProcessed := false;
           IsRelevant := None;
           ProcessedAt := None;
           JobFingerprint := None;
           IsForwarded := false |}]> (messages w).
Proof.
  intros Hrel Hset Hin Hc. unfold run, telegramWebhookHandler.
  rewrite bool_decide_eq_true_2 by reflexivity. cbn [negb].
  unfold incoming in Hin. rewrite Hin.
  rewrite (has_content_accepted msg Hc).
  unfold bind at 1. rewrite (getFirestoreClient_ok w Hrel Hset).
  cbn [is_Some_bool]. unfold bind at 1, gets.
  unfold bind, storeMessage, bind, firestore_call, write_doc, ret.
  rewrite Hrel. reflexivity.
Qed.

(** When the project is not set, the client cannot be made or the
    write fails, nothing is stored. *)
Lemma webhook_not_stored (update : TelegramUpdate) (msg : TelegramMessageRaw)
  (w : World) :
  incoming update = Some msg ->
  has_content msg ->
  let project := os_Getenv env (str "GOOGLE_CLOUD_PROJECT") in
  let docID :=
    fmt_d (chat_ID (raw_Chat msg)) ++ str "_" ++ fmt_d (raw_MessageID msg) in
  project = [] \/
  firestore_fails env (calls w) (NewClient project) = true \/
  firestore_fails env (calls w ++ [NewClient project])
    (DocSet docID (ingested msg (time_Now env (calls w ++ [NewClient project]))))
  = true ->
  messages (run (telegramWebhookHandler env (str "POST") (Some update)) w)
  = messages w.
Proof.
  intros Hin Hc project docID Hfail. unfold run, telegramWebhookHandler.
  rewrite bool_decide_eq_true_2 by reflexivity. cbn [negb].
  unfold incoming in Hin. rewrite Hin.
  rewrite (has_content_accepted msg Hc).
  unfold bind at 1, getFirestoreClient. fold project.
  destruct (bool_decide (project = [])) eqn:Ep; [reflexivity|].
  apply bool_decide_eq_false in Ep.
  unfold bind at 1, firestore_call, ret.
  destruct (firestore_fails env (calls w) (NewClient project)) eqn:E1;
    cbn [negb is_Some_bool]; [reflexivity|].
  destruct Hfail as [H | [H | H]]; [contradiction | discriminate |].
  unfold bind at 1, gets.
  unfold bind, storeMessage, bind, firestore_call, write_doc, ret, log.
  cbn [calls]. fold docID.
  change {| ChannelID := chat_ID (raw_Chat msg);
            ChannelName := chat_Title (raw_Chat msg);
            MessageID := raw_MessageID msg;
            MessageText := raw_Text msg;
            MessageTimestamp := raw_Date msg;
            ReceivedAt := time_Now env (calls w ++ [NewClient project]);
            IsProcessed := false;
            IsRelevant := None;
            ProcessedAt := None;
            JobFingerprint := None;
            IsForwarded := false |}
    with (ingested msg (time_Now env (calls w ++ [NewClient project]))).
  rewrite H. reflexivity.
Qed.

(** C9 (as amended): an update with a message that has a text, a
    caption or media, posted while the project is set and the Firestore
    calls go through, is stored under the key chat id, underscore,
    message id, with the text of the update as its text and every
    processing field unset or false; a post with a caption and no text
    is stored with an empty text.  When the project is not set, the
    client cannot be made or the write fails, nothing is stored.  The
    webhook answers 200 whatever it is sent and whatever fails. *)
Theorem webhook_stores_text_and_answers_200 :
  (forall method body w,
     fst (telegramWebhookHandler env method body w) = 200%Z) /\
  (forall update msg w,
     firestore_reliable env ->
     os_Getenv env (str "GOOGLE_CLOUD_PROJECT") <> [] ->
     incoming update = Some msg ->
     has_content msg ->
     let docID :=
       fmt_d (chat_ID (raw_Chat msg)) ++ str "_"
       ++ fmt_d (raw_MessageID msg) in
     let w' :=
       run (telegramWebhookHandler env (str "POST") (Some update)) w in
     messages w'
     = <[docID :=
           {| ChannelID := chat_ID (raw_Chat msg);
              ChannelName := chat_Title (raw_Chat msg);
              MessageID := raw_MessageID msg;
              MessageText := raw_Text msg;
              MessageTimestamp := raw_Date msg;
              ReceivedAt :=
                time_Now env
                  (calls w ++
                     [NewClient (os_Getenv env (str "GOOGLE_CLOUD_PROJECT"))]);
              IsProcessed := false;
              IsRelevant := None;
              ProcessedAt := None;
              JobFingerprint := None;
              IsForwarded := false |}]> (messages w) /\
     (raw_Text msg = [] ->
      exists rec,
        messages w' !! docID = Some rec /\ MessageText rec = [])) /\
  (forall update msg w,
     incoming update = Some msg ->
     has_content msg ->
     let project := os_Getenv env (str "GOOGLE_CLOUD_PROJECT") in
     let docID :=
       fmt_d (chat_ID (raw_Chat msg)) ++ str "_"
       ++ fmt_d (raw_MessageID msg) in
     let w' :=
       run (telegramWebhookHandler env (str "POST") (Some update)) w in
     project = [] \/
     firestore_fails env (calls w) (NewClient project) = true \/
     firestore_fails env (calls w ++ [NewClient project])
       (DocSet docID
          (ingested msg (time_Now env (calls w ++ [NewClient project]))))
     = true ->
     messages w' = messages w /\
     fst (telegramWebhookHandler env (str "POST") (Some update) w) = 200%Z).
Proof.
  split; [exact webhook_always_200|]. split.
  - intros update msg w Hrel Hset Hin Hc docID w'.
    pose proof (webhook_stores update msg w Hrel Hset Hin Hc) as Hst.
    fold docID w' in Hst. split; [exact Hst|].
    intros Hempty. rewrite Hst, lookup_insert_eq. eauto.
  - intros update msg w Hin Hc project docID w' Hfail.
    split; [|apply webhook_always_200].
    exact (webhook_not_stored update msg w Hin Hc Hfail).
Qed.

End Webhook.

(** ** One pass of the worker *)

Section WorkerPass.

Variable U : rune -> rune.
Variable env : Env.

(** A POST to the worker with the store available: the records fetched
    are processed one after the other and the answer is 200. *)
Lemma workerHandler_post (w : World) :
  firestore_reliable env ->
  os_Getenv env (str "GOOGLE_CLOUD_PROJECT") <> [] ->
  let project := os_Getenv env (str "GOOGLE_CLOUD_PROJECT") in
  let docs :=
    firstn 50
      (map snapshot
         (List.filter (fun kv => negb (IsProcessed (snd kv)))
            (map_to_list (messages w)))) in
  workerHandler U env (str "POST") w
  = ({| Status := 200; Body := str "processed" |},
     run (for_each (processOne U env) docs)
       (log (QueryUnprocessed 50) (log (NewClient project) w))).
Proof.
  intros Hrel Hset project docs. unfold workerHandler.
  rewrite bool_decide_eq_false_2 by (cbv; discriminate).
  rewrite bool_decide_eq_true_2 by reflexivity. cbn [negb].
  unfold bind at 1. rewrite (getFirestoreClient_ok env w Hrel Hset).
  cbn [is_Some_bool]. unfold bind at 1.
  unfold fetchUnprocessed, bind at 1, firestore_call. rewrite Hrel.
  cbn [negb]. unfold gets. cbn [is_Some_bool]. unfold bind, ret, run.
  fold project. unfold log at 1 2. cbn [messages]. fold docs.
  now destruct (for_each (processOne U env) docs _).
Qed.

(** When the unprocessed records of the store are exactly two, the
    query lists them in one order or the other. *)
Lemma fetched_two (ms : gmap (list N) TelegramMessage) (ka kb : gostring)
  (A B : TelegramMessage) :
  ka <> kb ->
  ms !! ka = Some A -> ms !! kb = Some B ->
  IsProcessed A = false -> IsProcessed B = false ->
  (forall k m, ms !! k = Some m -> IsProcessed m = false ->
               k = ka \/ k = kb) ->
  let fetched :=
    List.filter (fun kv => negb (IsProcessed (snd kv))) (map_to_list ms) in
  fetched = [(ka, A); (kb, B)] \/ fetched = [(kb, B); (ka, A)].
Proof.
  intros Hne HA HB HpA HpB Honly fetched.
  apply Permutation.Permutation_length_2_inv.
  apply Permutation.NoDup_Permutation.
  - constructor; [|constructor; [intros []|constructor]].
    intros [H | []]. congruence.
  - apply List.NoDup_filter, NoDup_ListNoDup, NoDup_map_to_list.
  - intros [k m]. unfold fetched. rewrite filter_In. cbn [snd]. split.
    + intros [[= -> ->] | [[= -> ->] | []]]; rewrite ?HpA, ?HpB;
        (split; [|reflexivity]);
        now apply list_elem_of_In, elem_of_map_to_list.
    + intros [Hk Hp]. apply negb_true_iff in Hp.
      apply list_elem_of_In, elem_of_map_to_list in Hk.
      destruct (Honly k m Hk Hp) as [-> | ->].
      * left. congruence.
      * right. left. congruence.
Qed.

(** No record stops the loop: the records after it are processed from
    the world it leaves, whatever happened to it. *)
Lemma batch_goes_on (doc : DocumentSnapshot) (rest : list DocumentSnapshot)
  (w : World) :
  run (for_each (processOne U env) (doc :: rest)) w
  = run (for_each (processOne U env) rest) (run (processOne U env doc) w).
Proof. apply run_for_each_cons. Qed.

(** Two duplicates through a POST to the worker, when they are the
    unprocessed records of the store: one of them ends forwarded. *)
Lemma worker_pass_forwards_one_of_two (w : World) (ka kb : gostring)
  (A B : TelegramMessage) :
  firestore_reliable env ->
  os_Getenv env (str "GOOGLE_CLOUD_PROJECT") <> [] ->
  ka <> kb ->
  messages w !! ka = Some A -> messages w !! kb = Some B ->
  IsProcessed A = false -> IsProcessed B = false ->
  (forall k m, messages w !! k = Some m -> IsProcessed m = false ->
               k = ka \/ k = kb) ->
  IsForwarded A = false -> IsForwarded B = false ->
  isRelevant U (MessageText A) = true ->
  isRelevant U (MessageText B) = true ->
  computeFingerprint U (MessageText A) = computeFingerprint U (MessageText B) ->
  ~ fingerprint_claimed (computeFingerprint U (MessageText A)) (messages w) ->
  let w' := run (workerHandler U env (str "POST")) w in
  exists A' B',
    messages w' !! ka = Some A' /\ messages w' !! kb = Some B' /\
    IsProcessed A' = true /\ IsProcessed B' = true /\
    xorb (IsForwarded A') (IsForwarded B') = true.
Proof.
  intros Hrel Hset Hne HA HB HpA HpB Honly HfA HfB HrA HrB Hfp Hfree w'.
  assert (Hrun : w' = snd (workerHandler U env (str "POST") w))
    by reflexivity.
  rewrite (workerHandler_post w Hrel Hset) in Hrun. cbn [snd] in Hrun.
  rewrite Hrun. clear Hrun w'.
  set (w2 := log _ (log _ w)).
  assert (Hms : messages w2 = messages w) by reflexivity.
  destruct (fetched_two (messages w) ka kb A B Hne HA HB HpA HpB Honly)
    as [-> | ->]; cbn [map firstn].
  - destruct (first_forwarded_second_not U env w2 ka kb A B)
      as (A' & B' & H1 & H2 & H3 & H4 & H5 & H6);
      rewrite ?Hms; try assumption.
    exists A', B'. rewrite H5, H6. auto.
  - destruct (first_forwarded_second_not U env w2 kb ka B A)
      as (B' & A' & H1 & H2 & H3 & H4 & H5 & H6);
      rewrite ?Hms; try assumption; try congruence.
    exists A', B'. rewrite H5, H6. auto.
Qed.

End WorkerPass.

(** ** What [ParseInt] makes of a string that is not a numeral *)












(** ** The destination chat *)

Section Destination.

Variable env : Env.

Lemma mustGetPersonalChatID_eq :
  mustGetPersonalChatID env
  = fst (strconv.ParseInt (os_Getenv env (str "PERSONAL_CHAT_ID"))).
Proof.
  unfold mustGetPersonalChatID. now destruct (strconv.ParseInt _).
Qed.


End Destination.

(** * Further properties of the program *)

(** ** The normaliser and the classifier *)

Lemma trim_right_last (s pre : gostring) (c : rune) :
  trim_right s = pre ++ [c] -> unicode_IsSpace c = false.
Proof.
  revert pre. induction s as [|a s IH]; intros pre; [now destruct pre|].
  rewrite trim_right_cons. destruct (trim_right s) as [|b t] eqn:E.
  - destruct (unicode_IsSpace a) eqn:Ea; [now destruct pre|].
    destruct pre as [|p pre]; [now intros [= <-]|].
    now destruct pre.
  - destruct pre as [|p pre]; [discriminate|].
    intros [= _ H]. now apply (IH pre).
Qed.

Lemma TrimSpace_head (s rest : gostring) (c : rune) :
  strings_TrimSpace s = c :: rest -> unicode_IsSpace c = false.
Proof.
  unfold strings_TrimSpace. intros H.
  destruct (trim_right_head _ _ _ H) as [s' Hs'].
  eapply trim_left_head, Hs'.
Qed.

Section NormalizerOutput.

Variable U : rune -> rune.

(** What [normalizeText] returns: only [a-z], [0-9] and single spaces,
    no space at either end, and never more runes than it was given. *)
Theorem normalizeText_shape (s : gostring) :
  Forall (fun c => canon_char c = true) (normalizeText U s) /\
  single_spaced (normalizeText U s) = true /\
  (forall rest, normalizeText U s <> 32 :: rest) /\
  (forall pre, normalizeText U s <> pre ++ [32]) /\
  (List.length (normalizeText U s) <= List.length s)%nat.
Proof.
  destruct (normalizeText_canonical U s) as [Hc Hs].
  split; [exact Hc|]. split; [exact Hs|].
  rewrite normalizeText_steps. split; [|split].
  - intros rest H. apply TrimSpace_head in H. discriminate.
  - intros pre H. unfold strings_TrimSpace in H.
    apply trim_right_last in H. discriminate.
  - unfold strings_TrimSpace, ReplaceAllString.
    eapply Nat.le_trans; [apply trim_right_length_le|].
    eapply Nat.le_trans; [apply trim_left_length_le|].
    eapply Nat.le_trans; [apply collapse_length_le|].
    fold (ReplaceAllString nonTextRegex
            (replace_from phoneRegex []
               0 (replace_from emailRegex [] 0
                    (replace_from urlRegex [] 0 (strings_ToLower U s)))) [32]).
    rewrite replace_nonText, length_map.
    eapply Nat.le_trans; [apply replace_length_le|].
    eapply Nat.le_trans; [apply replace_length_le|].
    eapply Nat.le_trans; [apply replace_length_le|].
    unfold strings_ToLower. now rewrite length_map.
Qed.

Lemma ToLower_lowerASCII (s : gostring) :
  strings_ToLower U (map lowerASCII s) = strings_ToLower U s.
Proof.
  unfold strings_ToLower. rewrite map_map. apply map_ext. intros r.
  unfold unicode_ToLower, lowerASCII, is_upper_AZ.
  destruct ((65 <=? r) && (r <=? 90)) eqn:E.
  - apply andb_true_iff in E as [E1 E2].
    apply N.leb_le in E1, E2.
    assert (H1 : (r + 32 <=? 127) = true) by (apply N.leb_le; lia).
    assert (H2 : (r <=? 127) = true) by (apply N.leb_le; lia).
    assert (H3 : ((65 <=? r + 32) && (r + 32 <=? 90)) = false).
    { apply andb_false_iff. right. apply N.leb_gt. lia. }
    cbv beta. now rewrite ?H1, ?H2, ?H3, ?E.
  - cbv beta. now rewrite ?E.
Qed.

Lemma ToLower_same_letters (s s' : gostring) :
  map lowerASCII s = map lowerASCII s' ->
  strings_ToLower U s = strings_ToLower U s'.
Proof.
  intros H. now rewrite <- (ToLower_lowerASCII s), H, ToLower_lowerASCII.
Qed.

(** Two texts that differ only in the case of ASCII letters have the
    same normal form, the same fingerprint and the same relevance. *)
Theorem ascii_case_is_ignored (s s' : gostring) :
  map lowerASCII s = map lowerASCII s' ->
  normalizeText U s = normalizeText U s' /\
  computeFingerprint U s = computeFingerprint U s' /\
  isRelevant U s = isRelevant U s'.
Proof.
  intros H. apply ToLower_same_letters in H.
  assert (Hn : normalizeText U s = normalizeText U s')
    by now rewrite !normalizeText_steps, H.
  split; [exact Hn|]. split.
  - unfold computeFingerprint. now rewrite Hn.
  - unfold isRelevant. now rewrite H.
Qed.

End NormalizerOutput.

Lemma HasPrefix_app_r (s p post : gostring) :
  strings_HasPrefix s p = true -> strings_HasPrefix (s ++ post) p = true.
Proof.
  revert s. induction p as [|a p IH]; intros s H; [reflexivity|].
  destruct s as [|c s]; [discriminate|]. simpl in *.
  apply andb_true_iff in H as [Hc Hp]. now rewrite Hc, IH.
Qed.

Lemma Contains_app_r (s p post : gostring) :
  strings_Contains s p = true -> strings_Contains (s ++ post) p = true.
Proof.
  induction s as [|c s IH]; intros H.
  - simpl in H. rewrite orb_false_r in H.
    apply Contains_here. now apply (HasPrefix_app_r [] p post).
  - simpl in H. apply orb_true_iff in H as [H | H].
    + apply Contains_here. now apply (HasPrefix_app_r (c :: s)).
    + simpl. rewrite (IH H). apply orb_true_r.
Qed.

Lemma containsAny_inside (pre s post : gostring) (patterns : list gostring) :
  containsAny s patterns = true ->
  containsAny (pre ++ s ++ post) patterns = true.
Proof.
  rewrite !containsAny_spec. intros (p & Hin & Hp). exists p.
  split; [exact Hin|]. now apply Contains_later, Contains_app_r.
Qed.

Section Embedding.

Variable U : rune -> rune.

(** The reject rules look for substrings only: a posting that is
    rejected stays rejected whatever text is put before or after it. *)
Theorem rejected_inside_any_text (pre text post : gostring) :
  isRelevant U text = false ->
  isRelevant U (pre ++ text ++ post) = false.
Proof.
  intros Hrej.
  destruct (isRelevant U (pre ++ text ++ post)) eqn:E; [|reflexivity].
  apply isRelevant_true_iff in E as (H1 & H2 & H3 & H4).
  rewrite excludes2025_is_list_membership in H4.
  rewrite !ToLower_app in H1, H2, H3, H4.
  assert (Hrel : isRelevant U text = true).
  { apply isRelevant_true_iff.
    rewrite excludes2025_is_list_membership.
    repeat split;
      match goal with
      | |- containsAny ?t ?ps = false =>
          destruct (containsAny t ps) eqn:Ec; [|reflexivity];
          apply (containsAny_inside (strings_ToLower U pre) _
                   (strings_ToLower U post)) in Ec; congruence
      end. }
  congruence.
Qed.

End Embedding.

(** ** The destination chat, for a well-formed value *)

Lemma int64_small (z : Z) :
  (-9223372036854775808 <= z < 9223372036854775808)%Z -> strconv.int64 z = z.
Proof.
  intros H. unfold strconv.int64. rewrite Z.mod_small by lia. lia.
Qed.

Lemma digits_ascii (ds : gostring) :
  Forall (fun c => is_digit c = true) ds -> Forall (fun c => c <= 127) ds.
Proof.
  apply List.Forall_impl. intros c Hc. apply is_digit_bounds in Hc. lia.
Qed.

Lemma ParseUint_digits (ds : gostring) :
  ds <> [] -> Forall (fun c => is_digit c = true) ds ->
  digits_value 0 ds <= strconv.maxUint64 ->
  strconv.ParseUint ds = (digits_value 0 ds, None).
Proof.
  intros Hne Hds Hfit. destruct ds as [|c rest]; [congruence|].
  unfold strconv.ParseUint.
  rewrite (parse_digits_spec _ Hds) by (unfold strconv.maxUint64; lia).
  apply N.leb_le in Hfit. now rewrite Hfit.
Qed.

Lemma ParseInt_unsigned (ds : gostring) :
  ds <> [] -> Forall (fun c => is_digit c = true) ds ->
  digits_value 0 ds < 9223372036854775808 ->
  strconv.ParseInt ds = (Z.of_N (digits_value 0 ds), None).
Proof.
  intros Hne Hds Hfit. unfold strconv.ParseInt.
  rewrite (utf8_ascii _ (digits_ascii _ Hds)).
  destruct ds as [|c rest]; [congruence|].
  assert (Hc : is_digit c = true) by now inversion Hds.
  apply is_digit_bounds in Hc.
  assert (E43 : (c =? 43) = false) by (apply N.eqb_neq; lia).
  assert (E45 : (c =? 45) = false) by (apply N.eqb_neq; lia).
  rewrite E43, E45. cbn [orb negb andb].
  rewrite (ParseUint_digits (c :: rest) Hne Hds)
    by (unfold strconv.maxUint64; lia).
  assert (E1 : (9223372036854775808 <=? digits_value 0 (c :: rest)) = false)
    by (apply N.leb_gt; lia).
  rewrite E1. now rewrite int64_small by lia.
Qed.

Lemma ParseInt_plus (ds : gostring) :
  ds <> [] -> Forall (fun c => is_digit c = true) ds ->
  digits_value 0 ds < 9223372036854775808 ->
  strconv.ParseInt (43 :: ds) = (Z.of_N (digits_value 0 ds), None).
Proof.
  intros Hne Hds Hfit. unfold strconv.ParseInt.
  rewrite utf8_ascii by (constructor; [lia | now apply digits_ascii]).
  change (43 =? 43) with true. change (43 =? 45) with false.
  cbn [orb negb andb].
  rewrite (ParseUint_digits ds Hne Hds) by (unfold strconv.maxUint64; lia).
  assert (E1 : (9223372036854775808 <=? digits_value 0 ds) = false)
    by (apply N.leb_gt; lia).
  rewrite E1. now rewrite int64_small by lia.
Qed.

Lemma ParseInt_minus (ds : gostring) :
  ds <> [] -> Forall (fun c => is_digit c = true) ds ->
  digits_value 0 ds <= 9223372036854775808 ->
  strconv.ParseInt (45 :: ds) = ((- Z.of_N (digits_value 0 ds))%Z, None).
Proof.
  intros Hne Hds Hfit. unfold strconv.ParseInt.
  rewrite utf8_ascii by (constructor; [lia | now apply digits_ascii]).
  change (45 =? 43) with false. change (45 =? 45) with true.
  cbn [orb negb andb].
  rewrite (ParseUint_digits ds Hne Hds) by (unfold strconv.maxUint64; lia).
  assert (E1 : (9223372036854775808 <? digits_value 0 ds) = false)
    by (apply N.ltb_ge; lia).
  rewrite E1. f_equal.
  destruct (N.eq_dec (digits_value 0 ds) 9223372036854775808) as [-> | Hlt].
  - reflexivity.
  - rewrite (int64_small (Z.of_N _)) by lia. apply int64_small. lia.
Qed.

Section ValidDestination.

Variable env : Env.

(** When PERSONAL_CHAT_ID is a decimal numeral within [int64], with or
    without a sign, [mustGetPersonalChatID] is the number it denotes. *)
Theorem chat_id_of_valid_numeral (ds : gostring) :
  ds <> [] -> Forall (fun c => is_digit c = true) ds ->
  let idStr := os_Getenv env (str "PERSONAL_CHAT_ID") in
  let n := digits_value 0 ds in
  (n < 9223372036854775808 -> idStr = ds \/ idStr = 43 :: ds ->
   mustGetPersonalChatID env = Z.of_N n) /\
  (n <= 9223372036854775808 -> idStr = 45 :: ds ->
   mustGetPersonalChatID env = (- Z.of_N n)%Z).
Proof.
  intros Hne Hds idStr n. rewrite mustGetPersonalChatID_eq. fold idStr.
  split.
  - intros Hfit [-> | ->].
    + now rewrite ParseInt_unsigned.
    + now rewrite ParseInt_plus.
  - intros Hfit ->. now rewrite ParseInt_minus.
Qed.

End ValidDestination.

(** ** What the worker never does *)

Lemma advances_refl (m : TelegramMessage) : advances m m.
Proof. unfold advances, same_post. auto 10. Qed.

Lemma advances_trans (a b c : TelegramMessage) :
  advances a b -> advances b c -> advances a c.
Proof.
  unfold advances, same_post.
  intros ((?&?&?&?&?&?)&?&?) ((?&?&?&?&?&?)&?&?).
  repeat split; try congruence; auto.
Qed.

Lemma store_advances_refl (ms : gmap (list N) TelegramMessage) :
  store_advances ms ms.
Proof. intros k. destruct (ms !! k); [apply advances_refl | exact I]. Qed.

Lemma store_advances_trans (a b c : gmap (list N) TelegramMessage) :
  store_advances a b -> store_advances b c -> store_advances a c.
Proof.
  intros Hab Hbc k. specialize (Hab k). specialize (Hbc k).
  destruct (a !! k), (b !! k), (c !! k); try tauto.
  eapply advances_trans; eauto.
Qed.

Lemma store_advances_insert (ms : gmap (list N) TelegramMessage)
  (k : gostring) (m m' : TelegramMessage) :
  ms !! k = Some m -> advances m m' -> store_advances ms (<[k := m']> ms).
Proof.
  intros Hk Hadv j. destruct (decide (k = j)) as [<- | Hne].
  - now rewrite Hk, lookup_insert_eq.
  - rewrite lookup_insert_ne by exact Hne.
    destruct (ms !! j); [apply advances_refl | exact I].
Qed.

Lemma with_result_advances (m : TelegramMessage) (rel : bool)
  (fp : gostring) (now : Z) :
  advances m (with_result m rel fp now).
Proof. unfold advances, same_post. cbn. auto 10. Qed.

Lemma with_forwarded_advances (m : TelegramMessage) :
  advances m (with_forwarded m).
Proof. unfold advances, same_post. cbn. auto 10. Qed.

Section Frame.

Variable U : rune -> rune.
Variable env : Env.

Lemma update_doc_advances (c : Call) (docID : gostring)
  (f : TelegramMessage -> TelegramMessage) (w : World) :
  (forall m, advances m (f m)) ->
  store_advances (messages w) (messages (run (update_doc env c docID f) w)).
Proof.
  intros Hf. unfold run.
  destruct (firestore_fails env (calls w) c) eqn:Hd.
  - rewrite update_doc_down by exact Hd. apply store_advances_refl.
  - destruct (messages w !! docID) as [m|] eqn:Hm.
    + rewrite (update_doc_ok env _ _ _ _ m Hd Hm). cbn [snd messages].
      apply (store_advances_insert _ _ m); auto.
    + rewrite update_doc_missing by assumption. apply store_advances_refl.
Qed.

Lemma processOne_advances (doc : DocumentSnapshot) (w : World) :
  store_advances (messages w) (messages (run (processOne U env doc) w)).
Proof.
  destruct (fields doc) as [msg|] eqn:Hdoc.
  2:{ unfold run, processOne, DataTo. rewrite Hdoc.
      apply store_advances_refl. }
  unfold run. rewrite (processOne_steps env U doc msg Hdoc).
  set (fp := computeFingerprint U (MessageText msg)).
  set (rel := isRelevant U (MessageText msg)).
  assert (H1 : store_advances (messages w)
                 (messages
                    (run (updateProcessingResult env (Ref_ID doc) rel fp) w))).
  { unfold run. rewrite updateProcessingResult_eq.
    apply update_doc_advances. intros m. apply with_result_advances. }
  destruct (negb rel); [exact H1|].
  cbv zeta. rewrite isFingerprintForwarded_world.
  destruct (is_Some_bool _ || _); [exact H1|].
  cbn [snd]. eapply store_advances_trans; [exact H1|].
  unfold markForwarded.
  match goal with
  | |- store_advances _ (messages (run (update_doc _ _ _ _) ?w3)) =>
      change (messages (run (updateProcessingResult env (Ref_ID doc) rel fp) w))
        with (messages w3)
  end.
  apply update_doc_advances. intros m. apply with_forwarded_advances.
Qed.

Lemma for_each_advances (docs : list DocumentSnapshot) (w : World) :
  store_advances (messages w)
    (messages (run (for_each (processOne U env) docs) w)).
Proof.
  revert w. induction docs as [|d docs IH]; intros w.
  - apply store_advances_refl.
  - rewrite run_for_each_cons.
    eapply store_advances_trans; [apply processOne_advances | apply IH].
Qed.

Lemma getFirestoreClient_cases (w : World) :
  let c1 := NewClient (os_Getenv env (str "GOOGLE_CLOUD_PROJECT")) in
  getFirestoreClient env w = (Some ProjectNotSet, w) \/
  getFirestoreClient env w = (Some Unavailable, log c1 w) \/
  getFirestoreClient env w = (None, log c1 w).
Proof.
  intros c1. unfold getFirestoreClient.
  destruct (bool_decide (os_Getenv env (str "GOOGLE_CLOUD_PROJECT") = []));
    [now left | right].
  unfold bind, firestore_call, ret. fold c1.
  destruct (firestore_fails env (calls w) c1); cbn [negb]; auto.
Qed.

Lemma fetchUnprocessed_cases (limit : nat) (w : World) :
  fetchUnprocessed env limit w
  = (if firestore_fails env (calls w) (QueryUnprocessed limit)
     then ([], Some Unavailable)
     else (batch_of limit (messages w), None),
     log (QueryUnprocessed limit) w).
Proof.
  unfold fetchUnprocessed, bind, firestore_call, ret, gets.
  now destruct (firestore_fails env (calls w) (QueryUnprocessed limit)).
Qed.

Lemma workerHandler_eq (method : gostring) (w : World) :
  workerHandler U env method w
  = if bool_decide (method = str "GET")
    then ({| Status := 200; Body := str "worker alive" |}, w)
    else if negb (bool_decide (method = str "POST"))
    then ({| Status := 405; Body := str "method not allowed" ++ [10] |}, w)
    else
      let (err, w1) := getFirestoreClient env w in
      if is_Some_bool err
      then ({| Status := 500;
               Body := str "firestore unavailable" ++ [10] |}, w1)
      else
        let (r, w2) := fetchUnprocessed env 50 w1 in
        if is_Some_bool (snd r)
        then ({| Status := 500; Body := str "failed to fetch" ++ [10] |}, w2)
        else ({| Status := 200; Body := str "processed" |},
              run (for_each (processOne U env) (fst r)) w2).
Proof.
  unfold workerHandler.
  destruct (bool_decide (method = str "GET")); [reflexivity|].
  destruct (negb (bool_decide (method = str "POST"))); [reflexivity|].
  unfold bind at 1. destruct (getFirestoreClient env w) as [e w1].
  destruct (is_Some_bool e); [reflexivity|].
  unfold bind at 1. destruct (fetchUnprocessed env 50 w1) as [[docs err] w2].
  cbn [fst snd]. destruct (is_Some_bool err); [reflexivity|].
  unfold bind, ret, run. now destruct (for_each (processOne U env) docs w2).
Qed.

(** What [workerHandler] does to the world: nothing for a method other
    than POST; for a POST only calls are logged before the loop, which
    runs over the batch of the store as it is. *)
Lemma workerHandler_world (method : gostring) (w : World) :
  exists w2,
    messages w2 = messages w /\
    (exists pre, calls w2 = calls w ++ pre /\
                 forallb (fun c => negb (is_send c || is_write c)) pre = true) /\
    (method <> str "POST" -> w2 = w) /\
    (run (workerHandler U env method) w = w2 \/
     run (workerHandler U env method) w
     = run (for_each (processOne U env) (batch_of 50 (messages w))) w2).
Proof.
  unfold run at 1 2. rewrite workerHandler_eq.
  assert (Hnil : exists pre, calls w = calls w ++ pre /\
            forallb (fun c => negb (is_send c || is_write c)) pre = true)
    by (exists []; now rewrite app_nil_r).
  destruct (bool_decide (method = str "GET")) eqn:Eget.
  { exists w. auto 6. }
  destruct (bool_decide (method = str "POST")) eqn:Epost; cbn [negb].
  2:{ exists w. auto 6. }
  apply bool_decide_eq_true in Epost.
  set (c1 := NewClient (os_Getenv env (str "GOOGLE_CLOUD_PROJECT"))).
  destruct (getFirestoreClient_cases w) as [-> | [-> | ->]]; cbn [is_Some_bool].
  { exists w. split; [reflexivity|]. split; [exact Hnil|].
    split; [congruence | now left]. }
  { exists (log c1 w). split; [reflexivity|].
    split; [exists [c1]; split; reflexivity|].
    split; [congruence | now left]. }
  rewrite fetchUnprocessed_cases. fold c1.
  exists (log (QueryUnprocessed 50) (log c1 w)). split; [reflexivity|].
  split.
  { exists [c1; QueryUnprocessed 50]. split; [|reflexivity].
    unfold log. cbn [calls]. now rewrite <- app_assoc. }
  split; [congruence|].
  destruct (firestore_fails env _ _); cbn [fst snd is_Some_bool];
    [now left | now right].
Qed.

(** In any environment and whatever happens to the calls it makes, the
    worker neither deletes nor creates a record, leaves the fields set
    at ingestion as they are, and never takes back a processed or
    forwarded flag. *)
Theorem worker_only_advances_records (method : gostring) (w : World) :
  store_advances (messages w)
    (messages (run (workerHandler U env method) w)).
Proof.
  destruct (workerHandler_world method w) as (w2 & Hms & _ & _ & [-> | ->]).
  - rewrite Hms. apply store_advances_refl.
  - rewrite <- Hms. apply for_each_advances.
Qed.

End Frame.

(** ** The batch that the worker fetches *)

Lemma In_firstn_In {A} (n : nat) (x : A) (l : list A) :
  In x (firstn n l) -> In x l.
Proof.
  revert l. induction n as [|n IH]; intros [|a l] H; simpl in *; try tauto.
  destruct H as [H | H]; auto.
Qed.

Lemma NoDup_firstn_of {A} (n : nat) (l : list A) :
  List.NoDup l -> List.NoDup (firstn n l).
Proof.
  revert l. induction n as [|n IH]; intros l H; [constructor|].
  destruct l as [|a l]; [constructor|]. simpl.
  inversion H as [|? ? Hn Hl]; subst. constructor; [|now apply IH].
  intros Hin. apply Hn. eapply In_firstn_In, Hin.
Qed.

Lemma NoDup_keys {A B} (l : list (A * B)) :
  List.NoDup l ->
  (forall x y, In x l -> In y l -> fst x = fst y -> x = y) ->
  List.NoDup (map fst l).
Proof.
  induction 1 as [|a l Hn Hl IH]; intros Hkey; simpl; constructor.
  - intros Hin. apply in_map_iff in Hin as (y & Hy & Hin).
    apply Hn. rewrite <- (Hkey y a); simpl; auto.
  - apply IH. intros x y Hx Hy. apply Hkey; simpl; auto.
Qed.

Lemma unprocessed_In (ms : gmap (list N) TelegramMessage) (k : gostring)
  (m : TelegramMessage) :
  In (k, m) (List.filter (fun kv => negb (IsProcessed (snd kv)))
               (map_to_list ms))
  <-> ms !! k = Some m /\ IsProcessed m = false.
Proof.
  rewrite filter_In. cbn [snd]. rewrite negb_true_iff.
  split; intros [H1 H2]; (split; [|exact H2]).
  - apply elem_of_map_to_list, list_elem_of_In, H1.
  - apply list_elem_of_In, elem_of_map_to_list, H1.
Qed.

Lemma unprocessed_NoDup (ms : gmap (list N) TelegramMessage) :
  List.NoDup
    (map fst (List.filter (fun kv => negb (IsProcessed (snd kv)))
                (map_to_list ms))).
Proof.
  apply NoDup_keys.
  - apply List.NoDup_filter, NoDup_ListNoDup, NoDup_map_to_list.
  - intros [k1 m1] [k2 m2] H1 H2 Hk. cbn [fst] in Hk. subst k2.
    apply unprocessed_In in H1 as [H1 _]. apply unprocessed_In in H2 as [H2 _].
    congruence.
Qed.

Lemma batch_of_ids (limit : nat) (ms : gmap (list N) TelegramMessage) :
  map Ref_ID (batch_of limit ms)
  = firstn limit
      (map fst (List.filter (fun kv => negb (IsProcessed (snd kv)))
                  (map_to_list ms))).
Proof.
  unfold batch_of. rewrite <- firstn_map, map_map. reflexivity.
Qed.

Lemma batch_of_In (limit : nat) (ms : gmap (list N) TelegramMessage)
  (d : DocumentSnapshot) :
  In d (batch_of limit ms) ->
  exists m, fields d = Some m /\ ms !! Ref_ID d = Some m /\
            IsProcessed m = false.
Proof.
  unfold batch_of. intros H. apply In_firstn_In in H.
  apply in_map_iff in H as ([k m] & <- & H).
  apply unprocessed_In in H as [H1 H2]. exists m. auto.
Qed.

Section Fetch.

Variable env : Env.

(** [fetchUnprocessed] reads and never writes; on failure it returns no
    snapshot; otherwise at most [limit] snapshots, with distinct IDs,
    each the unprocessed record stored under its ID; and all the
    unprocessed records when there are no more than [limit]. *)
Theorem fetchUnprocessed_contract (limit : nat) (w : World) :
  let r := fetchUnprocessed env limit w in
  let docs := fst (fst r) in
  let err := snd (fst r) in
  messages (snd r) = messages w /\
  calls (snd r) = calls w ++ [QueryUnprocessed limit] /\
  (err <> None -> docs = []) /\
  (List.length docs <= limit)%nat /\
  List.NoDup (map Ref_ID docs) /\
  (forall d, In d docs ->
     exists m, fields d = Some m /\ messages w !! Ref_ID d = Some m /\
               IsProcessed m = false) /\
  (err = None ->
   (List.length
      (List.filter (fun kv => negb (IsProcessed (snd kv)))
         (map_to_list (messages w))) <= limit)%nat ->
   forall k m, messages w !! k = Some m -> IsProcessed m = false ->
               In (snapshot (k, m)) docs).
Proof.
  intros r docs err. unfold docs, err, r. rewrite fetchUnprocessed_cases.
  cbn [fst snd]. split; [reflexivity|]. split; [reflexivity|].
  destruct (firestore_fails env (calls w) (QueryUnprocessed limit));
    cbn [fst snd].
  - split; [reflexivity|]. split; [simpl; lia|]. split; [constructor|].
    split; [intros d []|discriminate].
  - split; [congruence|]. split; [apply firstn_le_length|].
    split; [rewrite batch_of_ids; apply NoDup_firstn_of, unprocessed_NoDup|].
    split; [apply batch_of_In|].
    intros _ Hlen k m Hk Hm. unfold batch_of.
    rewrite firstn_all2 by now rewrite length_map.
    apply in_map. now apply unprocessed_In.
Qed.

End Fetch.

(** ** The answers of the worker *)

Section Answers.

Variable U : rune -> rune.
Variable env : Env.

(** The worker answers 200 to a GET and 405 to any method but GET and
    POST, without a call and without touching the world; a POST is
    answered 500 exactly when the project is not set, the client cannot
    be made or the query fails, and then the collection is as it was. *)
Theorem worker_answers (method : gostring) (w : World) :
  let resp := fst (workerHandler U env method w) in
  let w' := run (workerHandler U env method) w in
  let project := os_Getenv env (str "GOOGLE_CLOUD_PROJECT") in
  (method = str "GET" -> Status resp = 200%Z /\ w' = w) /\
  (method <> str "GET" -> method <> str "POST" ->
   Status resp = 405%Z /\ w' = w) /\
  (method = str "POST" ->
   (Status resp = 500%Z <->
    project = [] \/
    firestore_fails env (calls w) (NewClient project) = true \/
    firestore_fails env (calls w ++ [NewClient project])
      (QueryUnprocessed 50) = true) /\
   (Status resp = 200%Z \/ Status resp = 500%Z)) /\
  (Status resp <> 200%Z -> messages w' = messages w).
Proof.
  intros resp w' project. unfold resp, w', run. rewrite workerHandler_eq.
  destruct (bool_decide (method = str "GET")) eqn:Eget.
  { apply bool_decide_eq_true in Eget. subst method.
    repeat split; try reflexivity; try congruence; try discriminate. }
  apply bool_decide_eq_false in Eget.
  destruct (bool_decide (method = str "POST")) eqn:Epost; cbn [negb].
  2:{ apply bool_decide_eq_false in Epost.
      repeat split; try reflexivity; try congruence. }
  apply bool_decide_eq_true in Epost.
  split; [congruence|]. split; [congruence|].
  unfold getFirestoreClient. fold project.
  destruct (bool_decide (project = [])) eqn:Eproj.
  { apply bool_decide_eq_true in Eproj. cbn [is_Some_bool fst snd Status].
    split; [intros _; split; [split; [now left | reflexivity] | now right]
           | reflexivity]. }
  apply bool_decide_eq_false in Eproj.
  unfold bind, firestore_call, ret.
  destruct (firestore_fails env (calls w) (NewClient project)) eqn:Ec;
    cbn [negb is_Some_bool fst snd Status].
  { split; [intros _; split; [split; [right; now left | reflexivity]
                             | now right]
           | reflexivity]. }
  rewrite fetchUnprocessed_cases.
  change (calls (log (NewClient project) w))
    with (calls w ++ [NewClient project]).
  destruct (firestore_fails env (calls w ++ [NewClient project])
              (QueryUnprocessed 50)) eqn:Eq;
    cbn [fst snd is_Some_bool Status].
  { split; [intros _; split; [split; [right; now right | reflexivity]
                             | now right]
           | reflexivity]. }
  split; [|intros H; now contradiction H].
  intros _. split; [|now left]. split; [discriminate|].
  intros [H | [H | H]]; congruence.
Qed.

Lemma workerHandler_idle (method : gostring) (w : World) :
  (forall k m, messages w !! k = Some m -> IsProcessed m = true) ->
  let w' := run (workerHandler U env method) w in
  messages w' = messages w /\
  exists l, calls w' = calls w ++ l /\
            forallb (fun c => negb (is_send c || is_write c)) l = true.
Proof.
  intros Hall w'.
  assert (Hbatch : batch_of 50 (messages w) = []).
  { unfold batch_of.
    destruct (List.filter _ (map_to_list (messages w))) as [|[k m] l] eqn:E;
      [reflexivity|].
    assert (Hin : In (k, m)
                    (List.filter (fun kv => negb (IsProcessed (snd kv)))
                       (map_to_list (messages w)))) by (rewrite E; now left).
    apply unprocessed_In in Hin as [Hk Hp].
    rewrite (Hall k m Hk) in Hp. discriminate. }
  destruct (workerHandler_world U env method w)
    as (w2 & Hms & Hpre & _ & Hrun).
  rewrite Hbatch, run_for_each_nil in Hrun.
  assert (Hw' : w' = w2) by (destruct Hrun; assumption).
  rewrite Hw'. auto.
Qed.

(** With no unprocessed record in the store, the worker changes no
    record and makes neither a write nor a send, whatever the method
    and the environment. *)
Theorem worker_idle_on_processed_store (method : gostring) (w : World) :
  (forall k m, messages w !! k = Some m -> IsProcessed m = true) ->
  let w' := run (workerHandler U env method) w in
  messages w' = messages w /\
  exists l, calls w' = calls w ++ l /\
            forallb (fun c => negb (is_send c || is_write c)) l = true.
Proof. exact (workerHandler_idle method w). Qed.

End Answers.

(** ** The calls of a pass *)

Section Calls.

Variable U : rune -> rune.
Variable env : Env.

(** In any environment [processOne] makes no call for a snapshot that
    does not decode, one update for a record that is not relevant, and
    for a relevant record the update and the existence check, followed
    or not by exactly one send and one mark: never a send without the
    check before it, never a second attempt. *)
Theorem processOne_call_shape (doc : DocumentSnapshot) (w : World) :
  let w' := run (processOne U env doc) w in
  (fields doc = None -> w' = w) /\
  (forall msg, fields doc = Some msg ->
     let fp := computeFingerprint U (MessageText msg) in
     let update := DocUpdateResult (Ref_ID doc)
                     (isRelevant U (MessageText msg)) fp in
     let send := HttpPost (telegramAPIURL env (str "sendMessage"))
                   (mustGetPersonalChatID env) (formatMessage msg) in
     (isRelevant U (MessageText msg) = false ->
      calls w' = calls w ++ [update]) /\
     (isRelevant U (MessageText msg) = true ->
      calls w' = calls w ++ [update; QueryForwarded fp] \/
      calls w' = calls w ++ [update; QueryForwarded fp; send;
                             DocUpdateForwarded (Ref_ID doc)])).
Proof.
  intros w'. split.
  - intros Hdoc. unfold w', run, processOne, DataTo. now rewrite Hdoc.
  - intros msg Hdoc fp update send. unfold w', run.
    rewrite (processOne_steps env U doc msg Hdoc).
    pose proof (classified_calls env U doc msg w) as H1.
    fold fp in H1. fold update in H1. fold fp. unfold run in H1.
    split; intros Hr; rewrite Hr in *; cbn [negb]; [exact H1|].
    cbv zeta. rewrite isFingerprintForwarded_world.
    destruct (is_Some_bool _ || _).
    + left. unfold log, run. cbn [snd calls]. now rewrite H1, <- app_assoc.
    + right. cbn [snd]. unfold markForwarded. rewrite update_doc_calls.
      unfold run. rewrite sendTextMessage_world. unfold log. cbn [calls].
      now rewrite H1, <- !app_assoc.
Qed.

Lemma processOne_sends_le_one (doc : DocumentSnapshot) (w : World) :
  exists l,
    calls (run (processOne U env doc) w) = calls w ++ l /\
    (List.length (List.filter is_send l) <= 1)%nat.
Proof.
  destruct (fields doc) as [msg|] eqn:Hdoc.
  2:{ exists []. unfold run, processOne, DataTo. rewrite Hdoc. simpl.
      split; [now rewrite app_nil_r | lia]. }
  unfold run. rewrite (processOne_steps env U doc msg Hdoc).
  pose proof (classified_calls env U doc msg w) as H1. unfold run in H1.
  destruct (negb _).
  { eexists. split; [exact H1|]. simpl. lia. }
  cbv zeta. rewrite isFingerprintForwarded_world.
  destruct (is_Some_bool _ || _).
  { eexists. unfold log, run. cbn [snd calls]. rewrite H1, <- app_assoc.
    split; [reflexivity|]. simpl. lia. }
  cbn [snd]. unfold markForwarded. rewrite update_doc_calls.
  unfold run. rewrite sendTextMessage_world. unfold log. cbn [calls].
  rewrite H1, <- !app_assoc. eexists. split; [reflexivity|]. simpl. lia.
Qed.

Lemma for_each_sends_le (docs : list DocumentSnapshot) (w : World) :
  exists l,
    calls (run (for_each (processOne U env) docs) w) = calls w ++ l /\
    (List.length (List.filter is_send l) <= List.length docs)%nat.
Proof.
  revert w. induction docs as [|d docs IH]; intros w.
  - exists []. rewrite run_for_each_nil, app_nil_r. simpl. auto.
  - rewrite run_for_each_cons.
    destruct (processOne_sends_le_one d w) as (l1 & H1 & Hl1).
    destruct (IH (run (processOne U env d) w)) as (l2 & H2 & Hl2).
    exists (l1 ++ l2). rewrite H2, H1, <- app_assoc. split; [reflexivity|].
    rewrite List.filter_app, length_app. simpl. lia.
Qed.

Lemma no_send_in (pre : list Call) :
  forallb (fun c => negb (is_send c || is_write c)) pre = true ->
  List.filter is_send pre = [].
Proof.
  induction pre as [|c pre IH]; intros H; [reflexivity|]. simpl in *.
  apply andb_true_iff in H as [Hc Hpre].
  apply negb_true_iff, orb_false_iff in Hc as [Hc _].
  rewrite Hc. now apply IH.
Qed.

(** One request to the worker sends at most 50 messages, and at most
    one for each record of the batch. *)
Theorem worker_sends_at_most_batch (method : gostring) (w : World) :
  exists l,
    calls (run (workerHandler U env method) w) = calls w ++ l /\
    (List.length (List.filter is_send l)
     <= List.length (batch_of 50 (messages w)))%nat /\
    (List.length (List.filter is_send l) <= 50)%nat.
Proof.
  assert (H50 : (List.length (batch_of 50 (messages w)) <= 50)%nat)
    by apply firstn_le_length.
  destruct (workerHandler_world U env method w)
    as (w2 & Hms & (pre & Hpre & Hns) & _ & [-> | ->]).
  - exists pre. rewrite (no_send_in pre Hns). simpl.
    split; [exact Hpre|]. split; lia.
  - destruct (for_each_sends_le (batch_of 50 (messages w)) w2)
      as (l & Hl & Hle).
    exists (pre ++ l). rewrite Hl, Hpre, <- app_assoc.
    split; [reflexivity|].
    rewrite List.filter_app, length_app, (no_send_in pre Hns). simpl.
    split; lia.
Qed.

End Calls.

(** ** The deduplication invariant over a pass *)

Lemma unforwarded_while_unprocessed (ms : gmap (list N) TelegramMessage)
  (k : gostring) (m : TelegramMessage) :
  dedup_invariant ms -> ms !! k = Some m -> IsProcessed m = false ->
  IsForwarded m = false.
Proof.
  intros [Ha _] Hk Hp. destruct (IsForwarded m) eqn:E; [|reflexivity].
  rewrite (Ha k m Hk E) in Hp. discriminate.
Qed.

(** Classifying an unforwarded record keeps the invariant. *)
Lemma dedup_after_result (ms : gmap (list N) TelegramMessage)
  (id : gostring) (stored : TelegramMessage) (rel : bool) (fp : gostring)
  (now : Z) :
  dedup_invariant ms -> ms !! id = Some stored ->
  IsForwarded stored = false ->
  dedup_invariant (<[id := with_result stored rel fp now]> ms).
Proof.
  intros [Ha Hb] Hst Hfw. split.
  - intros k m Hk Hf. destruct (decide (id = k)) as [<- | Hne].
    + rewrite lookup_insert_eq in Hk. now injection Hk as <-.
    + rewrite lookup_insert_ne in Hk by exact Hne. eauto.
  - intros k1 k2 m1 m2 f H1 H2 Hf1 Hf2 Hw1 Hw2.
    destruct (decide (id = k1)) as [<- | Hn1].
    { rewrite lookup_insert_eq in H1. injection H1 as <-.
      cbn in Hw1. congruence. }
    destruct (decide (id = k2)) as [<- | Hn2].
    { rewrite lookup_insert_eq in H2. injection H2 as <-.
      cbn in Hw2. congruence. }
    rewrite lookup_insert_ne in H1, H2 by assumption. eauto.
Qed.

(** Marking a classified record whose fingerprint nobody has claimed
    keeps the invariant. *)
Lemma dedup_after_mark (ms : gmap (list N) TelegramMessage)
  (id : gostring) (stored : TelegramMessage) (fp : gostring) (now : Z) :
  dedup_invariant ms -> ms !! id = Some stored ->
  IsForwarded stored = false ->
  ~ fingerprint_claimed fp (<[id := with_result stored true fp now]> ms) ->
  dedup_invariant
    (<[id := with_forwarded (with_result stored true fp now)]> ms).
Proof.
  intros [Ha Hb] Hst Hfw Hfree. split.
  - intros k m Hk Hf. destruct (decide (id = k)) as [<- | Hne].
    + rewrite lookup_insert_eq in Hk. now injection Hk as <-.
    + rewrite lookup_insert_ne in Hk by exact Hne. eauto.
  - assert (Hother : forall k m,
              id <> k -> ms !! k = Some m ->
              JobFingerprint m = Some fp -> IsForwarded m = true -> False).
    { intros k m Hne Hk Hf Hw. apply Hfree. exists k, m.
      rewrite lookup_insert_ne by exact Hne. auto. }
    intros k1 k2 m1 m2 f H1 H2 Hf1 Hf2 Hw1 Hw2.
    destruct (decide (id = k1)) as [<- | Hn1];
      destruct (decide (id = k2)) as [<- | Hn2]; [reflexivity| | |].
    + rewrite lookup_insert_eq in H1. injection H1 as <-.
      rewrite lookup_insert_ne in H2 by exact Hn2.
      cbn in Hf1. injection Hf1 as <-. exfalso. eauto.
    + rewrite lookup_insert_eq in H2. injection H2 as <-.
      rewrite lookup_insert_ne in H1 by exact Hn1.
      cbn in Hf2. injection Hf2 as <-. exfalso. eauto.
    + rewrite lookup_insert_ne in H1, H2 by assumption. eauto.
Qed.

Section Dedup.

Variable U : rune -> rune.
Variable env : Env.
Hypothesis Hrel : firestore_reliable env.

(** With Firestore available, what [processOne] leaves of a record
    that is in the store: the classified record, or the classified and
    marked record when it is relevant and its fingerprint was free. *)
Lemma processOne_reliable (doc : DocumentSnapshot) (msg stored : TelegramMessage)
  (w : World) :
  fields doc = Some msg ->
  messages w !! Ref_ID doc = Some stored ->
  let fp := computeFingerprint U (MessageText msg) in
  let rel := isRelevant U (MessageText msg) in
  let classified :=
    <[Ref_ID doc := with_result stored rel fp (time_Now env (calls w))]>
      (messages w) in
  messages (run (processOne U env doc) w) = classified \/
  (rel = true /\ ~ fingerprint_claimed fp classified /\
   messages (run (processOne U env doc) w)
   = <[Ref_ID doc :=
         with_forwarded (with_result stored true fp (time_Now env (calls w)))]>
       (messages w)).
Proof.
  intros Hdoc Hst fp rel classified.
  assert (Hcl : run (updateProcessingResult env (Ref_ID doc) rel fp) w
                = {| messages := classified;
                     calls := calls w
                              ++ [DocUpdateResult (Ref_ID doc) rel fp] |}).
  { unfold run. rewrite updateProcessingResult_eq.
    now rewrite (update_doc_ok env _ _ _ _ stored (Hrel _ _) Hst). }
  destruct rel eqn:Er.
  2:{ left. unfold run at 1.
      rewrite (processOne_irrelevant env U doc msg Hdoc w Er).
      fold fp. unfold rel in Er. rewrite Er. cbn [snd]. now rewrite Hcl. }
  destruct (isFingerprintForwarded_ok env fp
              (run (updateProcessingResult env (Ref_ID doc) true fp) w)
              (Hrel _ _)) as (fw & Heq & Hfw).
  unfold rel in Er. destruct fw.
  - left. unfold run at 1.
    rewrite (processOne_stops env U doc msg Hdoc w true None Er).
    + rewrite Er. fold fp. now rewrite Hcl.
    + rewrite Er. fold fp. unfold run in Heq |- *. now rewrite Heq.
    + now left.
  - right. split; [reflexivity|].
    assert (Hfree : ~ fingerprint_claimed fp classified).
    { intros Hc. rewrite Hcl in Hfw. cbn [messages] in Hfw.
      apply Hfw in Hc. discriminate. }
    split; [exact Hfree|]. unfold run at 1.
    rewrite (processOne_sends env U doc msg Hdoc w Er);
      fold fp; rewrite Er, Hcl.
    + unfold run, markForwarded.
      erewrite update_doc_ok;
        [| apply Hrel | unfold log; cbn [messages]; apply lookup_insert_eq].
      unfold log, classified. cbn [snd messages].
      now rewrite insert_insert_eq.
    + apply Hrel.
    + exact Hfree.
Qed.

Lemma processOne_keeps_dedup (doc : DocumentSnapshot)
  (msg stored : TelegramMessage) (w : World) :
  fields doc = Some msg ->
  messages w !! Ref_ID doc = Some stored ->
  IsProcessed stored = false ->
  dedup_invariant (messages w) ->
  dedup_invariant (messages (run (processOne U env doc) w)) /\
  (exists m', messages (run (processOne U env doc) w) !! Ref_ID doc = Some m'
              /\ IsProcessed m' = true) /\
  (forall k, k <> Ref_ID doc ->
     messages (run (processOne U env doc) w) !! k = messages w !! k).
Proof.
  intros Hdoc Hst Hp Hinv.
  pose proof (unforwarded_while_unprocessed _ _ _ Hinv Hst Hp) as Hfw.
  destruct (processOne_reliable doc msg stored w Hdoc Hst)
    as [-> | (Hr & Hfree & ->)].
  - split; [now apply dedup_after_result|]. split.
    + rewrite lookup_insert_eq. eauto.
    + intros k Hk. now rewrite lookup_insert_ne.
  - rewrite Hr in Hfree. split; [now apply dedup_after_mark|]. split.
    + rewrite lookup_insert_eq. eauto.
    + intros k Hk. now rewrite lookup_insert_ne.
Qed.

Lemma for_each_keeps_dedup (docs : list DocumentSnapshot) (w : World) :
  List.NoDup (map Ref_ID docs) ->
  (forall d, In d docs ->
     exists m, fields d = Some m /\ messages w !! Ref_ID d = Some m /\
               IsProcessed m = false) ->
  dedup_invariant (messages w) ->
  let w' := run (for_each (processOne U env) docs) w in
  dedup_invariant (messages w') /\
  (forall d, In d docs ->
     exists m', messages w' !! Ref_ID d = Some m' /\ IsProcessed m' = true).
Proof.
  revert w. induction docs as [|d docs IH]; intros w Hnd Hdocs Hinv w'.
  - unfold w'. rewrite run_for_each_nil. split; [exact Hinv | intros ? []].
  - unfold w'. rewrite run_for_each_cons.
    inversion Hnd as [|? ? Hnotin Hnd']; subst.
    destruct (Hdocs d (or_introl eq_refl)) as (m & Hf & Hst & Hp).
    destruct (processOne_keeps_dedup d m m w Hf Hst Hp Hinv)
      as (Hinv1 & (m1 & Hm1 & Hp1) & Hframe).
    set (w1 := run (processOne U env d) w) in *.
    destruct (IH w1 Hnd') as [Hinv2 Hdone]; [|exact Hinv1|].
    { intros d' Hin. destruct (Hdocs d' (or_intror Hin)) as (m' & ? & ? & ?).
      exists m'. repeat split; try assumption.
      rewrite Hframe; [assumption|].
      intros Heq. apply Hnotin. rewrite <- Heq. now apply in_map. }
    split; [exact Hinv2|].
    intros d' [<- | Hin]; [|now apply Hdone].
    pose proof (for_each_advances U env docs w1 (Ref_ID d)) as Hadv.
    rewrite Hm1 in Hadv.
    destruct (messages (run (for_each (processOne U env) docs) w1)
                !! Ref_ID d) as [m2|]; [|contradiction].
    exists m2. split; [reflexivity|]. now apply Hadv.
Qed.

Lemma workerHandler_keeps_dedup (method : gostring) (w : World) :
  dedup_invariant (messages w) ->
  dedup_invariant (messages (run (workerHandler U env method) w)).
Proof.
  intros Hinv.
  destruct (workerHandler_world U env method w)
    as (w2 & Hms & _ & _ & [-> | ->]); [now rewrite Hms|].
  apply for_each_keeps_dedup.
  - rewrite batch_of_ids. apply NoDup_firstn_of, unprocessed_NoDup.
  - rewrite Hms. apply batch_of_In.
  - now rewrite Hms.
Qed.

Lemma processOne_processes (doc : DocumentSnapshot)
  (msg stored : TelegramMessage) (w : World) :
  fields doc = Some msg ->
  messages w !! Ref_ID doc = Some stored ->
  exists m',
    messages (run (processOne U env doc) w) = <[Ref_ID doc := m']> (messages w)
    /\ IsProcessed m' = true.
Proof.
  intros Hdoc Hst.
  destruct (processOne_reliable doc msg stored w Hdoc Hst)
    as [-> | (_ & _ & ->)]; eauto.
Qed.

Lemma for_each_processes (docs : list DocumentSnapshot) (w : World) :
  List.NoDup (map Ref_ID docs) ->
  (forall d, In d docs ->
     exists m, fields d = Some m /\ messages w !! Ref_ID d = Some m) ->
  forall d, In d docs ->
    exists m',
      messages (run (for_each (processOne U env) docs) w) !! Ref_ID d = Some m'
      /\ IsProcessed m' = true.
Proof.
  revert w. induction docs as [|d docs IH]; intros w Hnd Hdocs; [intros ? []|].
  rewrite run_for_each_cons.
  inversion Hnd as [|? ? Hnotin Hnd']; subst.
  destruct (Hdocs d (or_introl eq_refl)) as (m & Hf & Hst).
  destruct (processOne_processes d m m w Hf Hst) as (m1 & Hm1 & Hp1).
  set (w1 := run (processOne U env d) w) in *.
  intros d' [<- | Hin].
  - pose proof (for_each_advances U env docs w1 (Ref_ID d)) as Hadv.
    rewrite Hm1, lookup_insert_eq in Hadv.
    destruct (messages (run (for_each (processOne U env) docs) w1)
                !! Ref_ID d) as [m2|]; [|contradiction].
    exists m2. split; [reflexivity|]. now apply Hadv.
  - apply (IH w1 Hnd'); [|exact Hin].
    intros d2 Hin2. destruct (Hdocs d2 (or_intror Hin2)) as (m2 & ? & ?).
    exists m2. split; [assumption|].
    rewrite Hm1, lookup_insert_ne; [assumption|].
    intros Heq. apply Hnotin. rewrite Heq. now apply in_map.
Qed.

Lemma workerHandler_processes_batch (w : World) :
  os_Getenv env (str "GOOGLE_CLOUD_PROJECT") <> [] ->
  forall d, In d (batch_of 50 (messages w)) ->
    exists m',
      messages (run (workerHandler U env (str "POST")) w) !! Ref_ID d = Some m'
      /\ IsProcessed m' = true.
Proof.
  intros Hset.
  assert (Hrun : run (workerHandler U env (str "POST")) w
                 = snd (workerHandler U env (str "POST") w)) by reflexivity.
  rewrite (workerHandler_post U env w Hrel Hset) in Hrun. cbn [snd] in Hrun.
  rewrite Hrun. fold (batch_of 50 (messages w)).
  apply for_each_processes.
  - rewrite batch_of_ids. apply NoDup_firstn_of, unprocessed_NoDup.
  - intros d Hin. destruct (batch_of_In _ _ _ Hin) as (m & ? & ? & ?). eauto.
Qed.

End Dedup.

Section DedupTheorems.

Variable U : rune -> rune.
Variable env : Env.

(** With Firestore available, a request to the worker keeps the
    deduplication invariant of the collection, whatever the outcome of
    the sends: forwarded records are processed, and no two forwarded
    records carry the same fingerprint. *)
Theorem worker_keeps_dedup_invariant (method : gostring) (w : World) :
  firestore_reliable env ->
  dedup_invariant (messages w) ->
  dedup_invariant (messages (run (workerHandler U env method) w)).
Proof. intros Hrel. now apply workerHandler_keeps_dedup. Qed.

(** With Firestore available and no more than 50 unprocessed records, a
    POST to the worker leaves every record processed, and a second POST
    then changes no record. *)
Theorem worker_pass_processes_everything (w : World) :
  firestore_reliable env ->
  os_Getenv env (str "GOOGLE_CLOUD_PROJECT") <> [] ->
  (List.length
     (List.filter (fun kv => negb (IsProcessed (snd kv)))
        (map_to_list (messages w))) <= 50)%nat ->
  let w' := run (workerHandler U env (str "POST")) w in
  (forall k m, messages w' !! k = Some m -> IsProcessed m = true) /\
  messages (run (workerHandler U env (str "POST")) w') = messages w'.
Proof.
  intros Hrel Hset Hlen w'.
  assert (Hall : forall k m, messages w' !! k = Some m -> IsProcessed m = true).
  { intros k m' Hk.
    assert (Hadv : store_advances (messages w) (messages w')).
    { unfold w'.
      destruct (workerHandler_world U env (str "POST") w)
        as (w2 & Hms & _ & _ & [-> | ->]).
      - rewrite Hms. apply store_advances_refl.
      - rewrite <- Hms. apply for_each_advances. }
    specialize (Hadv k). rewrite Hk in Hadv.
    destruct (messages w !! k) as [m|] eqn:Hm; [|contradiction].
    destruct (IsProcessed m) eqn:Hp; [now apply Hadv|].
    assert (Hin : In (snapshot (k, m)) (batch_of 50 (messages w))).
    { unfold batch_of. rewrite firstn_all2 by now rewrite length_map.
      apply in_map. now apply unprocessed_In. }
    destruct (workerHandler_processes_batch U env Hrel w Hset _ Hin)
      as (m2 & Hm2 & Hp2).
    cbn [snapshot Ref_ID fst] in Hm2. fold w' in Hm2. congruence. }
  split; [exact Hall|].
  apply (workerHandler_idle U env (str "POST") w' Hall).
Qed.

End DedupTheorems.

(** ** Document IDs *)

Lemma str_cons (c : ascii) (s : string) :
  str (String c s) = N_of_ascii c :: str s.
Proof. reflexivity. Qed.

Lemma str_inj (s s' : string) : str s = str s' -> s = s'.
Proof.
  revert s'. induction s as [|c s IH]; intros [|c' s'] H;
    try discriminate; [reflexivity|].
  rewrite !str_cons in H. injection H as Hc Hs.
  f_equal; [|now apply IH].
  now rewrite <- (ascii_N_embedding c), <- (ascii_N_embedding c'), Hc.
Qed.

Lemma uint_digits (d : Decimal.uint) :
  Forall (fun c => is_digit c = true)
    (str (DecimalString.NilEmpty.string_of_uint d)).
Proof.
  induction d; cbn [DecimalString.NilEmpty.string_of_uint];
    [constructor | ..]; rewrite str_cons; now constructor.
Qed.

Lemma fmt_d_no_underscore (x : Z) : ~ In 95 (fmt_d x).
Proof.
  assert (Hu : forall d, ~ In 95 (str (DecimalString.NilZero.string_of_uint d))).
  { intros d Hin.
    assert (Hd : Forall (fun c => is_digit c = true)
                   (str (DecimalString.NilZero.string_of_uint d))).
    { destruct d; try apply uint_digits. now repeat constructor. }
    rewrite List.Forall_forall in Hd. apply Hd in Hin. discriminate. }
  unfold fmt_d, DecimalString.NilZero.string_of_int.
  destruct (Z.to_int x) as [d | d]; [apply Hu|].
  rewrite str_cons. intros [H | H]; [discriminate | now apply Hu in H].
Qed.

Lemma fmt_d_inj (x y : Z) : fmt_d x = fmt_d y -> x = y.
Proof.
  unfold fmt_d. intros H. apply str_inj in H.
  apply DecimalZ.to_int_inj.
  assert (Hnil : forall z, Z.to_int z <> Decimal.Pos Decimal.Nil /\
                           Z.to_int z <> Decimal.Neg Decimal.Nil).
  { intros [|p|p]; split; try discriminate; simpl; intros [= Hp];
      now apply DecimalPos.Unsigned.to_uint_nonnil in Hp. }
  destruct (Hnil x) as [Hx1 Hx2]. destruct (Hnil y) as [Hy1 Hy2].
  pose proof (DecimalString.NilZero.isi _ Hx1 Hx2) as Ex.
  pose proof (DecimalString.NilZero.isi _ Hy1 Hy2) as Ey.
  rewrite H in Ex. congruence.
Qed.

Lemma split_at_separator (a b a' b' : gostring) (sep : N) :
  ~ In sep a -> ~ In sep a' ->
  a ++ sep :: b = a' ++ sep :: b' -> a = a' /\ b = b'.
Proof.
  revert a'. induction a as [|x a IH]; intros [|x' a'] Ha Ha' H;
    simpl in *.
  - now injection H as ->.
  - injection H as -> _. tauto.
  - injection H as -> _. tauto.
  - injection H as -> H. destruct (IH a') as [-> ->]; auto.
Qed.

Lemma document_id_injective_pair (chat id chat' id' : Z) :
  document_id chat id = document_id chat' id' -> (chat, id) = (chat', id').
Proof.
  unfold document_id. change (str "_") with [95]. cbn [app]. intros H.
  apply split_at_separator in H as [H1 H2];
    try apply fmt_d_no_underscore.
  f_equal; now apply fmt_d_inj.
Qed.

(** The document ID determines the chat and the message: two posts
    share an ID only if they are the same message of the same chat. *)
Theorem document_id_determines_post (chat id chat' id' : Z) :
  document_id chat id = document_id chat' id' -> chat = chat' /\ id = id'.
Proof.
  intros H. apply document_id_injective_pair in H. now injection H.
Qed.

(** ** The webhook: drops, writes and redelivery *)

Section Ingestion.

Variable env : Env.

Lemma storeMessage_cases (docID : gostring) (msg : TelegramMessage)
  (w : World) :
  storeMessage env docID msg w
  = if firestore_fails env (calls w) (DocSet docID msg)
    then (Some Unavailable, log (DocSet docID msg) w)
    else (None, {| messages := <[docID := msg]> (messages w);
                   calls := calls w ++ [DocSet docID msg] |}).
Proof.
  unfold storeMessage, bind, firestore_call, write_doc, ret.
  now destruct (firestore_fails env (calls w) (DocSet docID msg)).
Qed.

Lemma webhook_eq (method : gostring) (body : option TelegramUpdate)
  (w : World) :
  telegramWebhookHandler env method body w
  = if negb (bool_decide (method = str "POST")) then (200%Z, w)
    else
      match body with
      | None => (200%Z, w)
      | Some update =>
          match incoming update with
          | None => (200%Z, w)
          | Some msg =>
              if negb (negb (bool_decide (raw_Text msg = []))
                       || negb (bool_decide (raw_Caption msg = [])))
                 && negb (is_Some_bool (raw_Document msg)
                          || (0 <? List.length (raw_Photo msg))%nat)
              then (200%Z, w)
              else
                let (err, w1) := getFirestoreClient env w in
                if is_Some_bool err then (200%Z, w1)
                else
                  (200%Z,
                   snd (storeMessage env
                          (document_id (chat_ID (raw_Chat msg))
                             (raw_MessageID msg))
                          (ingested msg (time_Now env (calls w1))) w1))
          end
      end.
Proof.
  unfold telegramWebhookHandler, incoming.
  destruct (negb (bool_decide (method = str "POST"))); [reflexivity|].
  destruct body as [update|]; [|reflexivity].
  destruct (match Message update with
            | Some m => Some m
            | None => ChannelPost update
            end) as [msg|]; [|reflexivity].
  destruct (negb _ && negb _); [reflexivity|].
  unfold bind at 1. destruct (getFirestoreClient env w) as [e w1].
  destruct (is_Some_bool e); [reflexivity|].
  unfold bind at 1, gets. unfold bind.
  fold (document_id (chat_ID (raw_Chat msg)) (raw_MessageID msg)).
  fold (ingested msg (time_Now env (calls w1))).
  destruct (storeMessage env _ _ w1) as [e2 w2].
  now destruct (is_Some_bool e2).
Qed.

(** A request that is not a POST, whose body does not decode, that has
    neither a message nor a channel post, or whose message has no text,
    caption, document or photo, is answered 200 and leaves the world as
    it is: no call is made. *)
Theorem webhook_drops_without_effect (method : gostring)
  (body : option TelegramUpdate) (w : World) :
  (method <> str "POST" ->
   telegramWebhookHandler env method body w = (200%Z, w)) /\
  (body = None -> telegramWebhookHandler env method body w = (200%Z, w)) /\
  (forall update, body = Some update -> incoming update = None ->
     telegramWebhookHandler env method body w = (200%Z, w)) /\
  (forall update msg, body = Some update -> incoming update = Some msg ->
     raw_Text msg = [] -> raw_Caption msg = [] ->
     raw_Document msg = None -> raw_Photo msg = [] ->
     telegramWebhookHandler env method body w = (200%Z, w)).
Proof.
  rewrite webhook_eq. repeat split.
  - intros H. now rewrite (bool_decide_eq_false_2 _ H).
  - intros ->. now destruct (negb _).
  - intros update -> ->. now destruct (negb _).
  - intros update msg -> -> -> -> -> ->. now destruct (negb _).
Qed.

(** In any environment the webhook sends nothing and writes at most one
    document: either the collection is as it was, or the request was an
    accepted POST and the record of its message now stands under the
    ID of that message. *)
Theorem webhook_writes_at_most_its_document (method : gostring)
  (body : option TelegramUpdate) (w : World) :
  let w' := run (telegramWebhookHandler env method body) w in
  (exists l, calls w' = calls w ++ l /\ List.filter is_send l = []) /\
  (messages w' = messages w \/
   exists update msg now,
     method = str "POST" /\ body = Some update /\
     incoming update = Some msg /\ has_content msg /\
     messages w'
     = <[document_id (chat_ID (raw_Chat msg)) (raw_MessageID msg) :=
           ingested msg now]> (messages w)).
Proof.
  intros w'. unfold w', run. rewrite webhook_eq.
  assert (Hsame : forall st : Z,
            (exists l, calls (snd (st, w)) = calls w ++ l /\
                       List.filter is_send l = []) /\
            (messages (snd (st, w)) = messages w \/
             exists update msg now,
               method = str "POST" /\ body = Some update /\
               incoming update = Some msg /\ has_content msg /\
               messages (snd (st, w))
               = <[document_id (chat_ID (raw_Chat msg)) (raw_MessageID msg) :=
                     ingested msg now]> (messages w))).
  { intros st. split; [exists []; now rewrite app_nil_r | now left]. }
  destruct (bool_decide (method = str "POST")) eqn:Epost; cbn [negb];
    [|apply Hsame].
  apply bool_decide_eq_true in Epost.
  destruct body as [update|]; [|apply Hsame].
  destruct (incoming update) as [msg|] eqn:Hin; [|apply Hsame].
  destruct (negb _ && negb _) eqn:Econtent; [apply Hsame|].
  assert (Hc : has_content msg).
  { unfold has_content.
    apply andb_false_iff in Econtent as [E | E];
      apply negb_false_iff, orb_true_iff in E as [E | E].
    - left. apply negb_true_iff, bool_decide_eq_false in E. exact E.
    - right. left. apply negb_true_iff, bool_decide_eq_false in E. exact E.
    - right. right. left. now destruct (raw_Document msg).
    - right. right. right. now destruct (raw_Photo msg). }
  set (c1 := NewClient (os_Getenv env (str "GOOGLE_CLOUD_PROJECT"))).
  destruct (getFirestoreClient_cases env w) as [-> | [-> | ->]];
    cbn [is_Some_bool snd].
  - apply (Hsame 200%Z).
  - split; [exists [c1]; now split | now left].
  - rewrite storeMessage_cases.
    destruct (firestore_fails env _ _); cbn [snd].
    + split; [|now left]. eexists. unfold log. cbn [calls].
      rewrite <- app_assoc. split; reflexivity.
    + split.
      * eexists. cbn [calls]. unfold log. cbn [calls].
        rewrite <- app_assoc. split; reflexivity.
      * right. exists update, msg. eexists. cbn [messages].
        unfold log. cbn [messages]. auto 6.
Qed.

Lemma webhook_stores_ingested (update : TelegramUpdate)
  (msg : TelegramMessageRaw) (w : World) :
  firestore_reliable env ->
  os_Getenv env (str "GOOGLE_CLOUD_PROJECT") <> [] ->
  incoming update = Some msg ->
  has_content msg ->
  run (telegramWebhookHandler env (str "POST") (Some update)) w
  = {| messages :=
         <[document_id (chat_ID (raw_Chat msg)) (raw_MessageID msg) :=
             ingested msg
               (time_Now env
                  (calls w ++
                     [NewClient (os_Getenv env (str "GOOGLE_CLOUD_PROJECT"))]))]>
           (messages w);
       calls :=
         calls w ++
           [NewClient (os_Getenv env (str "GOOGLE_CLOUD_PROJECT"));
            DocSet (document_id (chat_ID (raw_Chat msg)) (raw_MessageID msg))
              (ingested msg
                 (time_Now env
                    (calls w ++
                       [NewClient
                          (os_Getenv env (str "GOOGLE_CLOUD_PROJECT"))])))] |}.
Proof.
  intros Hrel Hset Hin Hc. unfold run. rewrite webhook_eq.
  rewrite bool_decide_eq_true_2 by reflexivity. cbn [negb].
  rewrite Hin, (has_content_accepted msg Hc).
  rewrite (getFirestoreClient_ok env w Hrel Hset). cbn [is_Some_bool snd].
  rewrite storeMessage_cases, Hrel. unfold log. cbn [snd messages calls].
  now rewrite <- app_assoc.
Qed.

End Ingestion.

Section Redelivery.

Variable U : rune -> rune.
Variable env : Env.

(** The existence check reads and never writes; it answers true exactly
    when some record carries the fingerprint and is marked forwarded,
    and false together with an error when the query fails. *)
Theorem isFingerprintForwarded_contract (fingerprint : gostring) (w : World) :
  let r := isFingerprintForwarded env fingerprint w in
  snd r = log (QueryForwarded fingerprint) w /\
  (firestore_fails env (calls w) (QueryForwarded fingerprint) = true ->
   fst r = (false, Some Unavailable)) /\
  (firestore_fails env (calls w) (QueryForwarded fingerprint) = false ->
   snd (fst r) = None /\
   (fst (fst r) = true <-> fingerprint_claimed fingerprint (messages w))).
Proof.
  intros r. unfold r. split; [apply isFingerprintForwarded_world|]. split.
  - intros Hf. now rewrite isFingerprintForwarded_down.
  - intros Hf. destruct (isFingerprintForwarded_ok env _ _ Hf)
      as (fw & -> & Hfw). cbn [fst snd]. auto.
Qed.

(** Two accepted posts, one after the other, with the store available:
    when they differ in chat or message ID both records are in the
    collection; when they agree in both, the second has replaced the
    first. *)
Theorem two_ingestions (u1 u2 : TelegramUpdate) (m1 m2 : TelegramMessageRaw)
  (w : World) :
  firestore_reliable env ->
  os_Getenv env (str "GOOGLE_CLOUD_PROJECT") <> [] ->
  incoming u1 = Some m1 -> has_content m1 ->
  incoming u2 = Some m2 -> has_content m2 ->
  let id1 := document_id (chat_ID (raw_Chat m1)) (raw_MessageID m1) in
  let id2 := document_id (chat_ID (raw_Chat m2)) (raw_MessageID m2) in
  let w1 := run (telegramWebhookHandler env (str "POST") (Some u1)) w in
  let w2 := run (telegramWebhookHandler env (str "POST") (Some u2)) w1 in
  exists now1 now2,
    messages w2 !! id2 = Some (ingested m2 now2) /\
    ((chat_ID (raw_Chat m1), raw_MessageID m1)
     <> (chat_ID (raw_Chat m2), raw_MessageID m2) ->
     messages w2 !! id1 = Some (ingested m1 now1)) /\
    ((chat_ID (raw_Chat m1), raw_MessageID m1)
     = (chat_ID (raw_Chat m2), raw_MessageID m2) ->
     messages w2 = <[id2 := ingested m2 now2]> (messages w)).
Proof.
  intros Hrel Hset Hin1 Hc1 Hin2 Hc2 id1 id2 w1 w2.
  unfold w2, w1.
  rewrite (webhook_stores_ingested env u1 m1 w Hrel Hset Hin1 Hc1).
  rewrite (webhook_stores_ingested env u2 m2 _ Hrel Hset Hin2 Hc2).
  cbn [messages calls]. fold id1 id2. eexists _, _.
  split; [apply lookup_insert_eq|]. split.
  - intros Hne. rewrite lookup_insert_ne; [apply lookup_insert_eq|].
    intros Heq. apply Hne. symmetry in Heq.
    apply document_id_injective_pair in Heq. exact Heq.
  - intros [= Hc Hm]. unfold id1, id2. rewrite Hc, Hm.
    apply insert_insert_eq.
Qed.

(** A post that was forwarded and is delivered to the webhook again is
    forwarded again: the webhook replaces its record by a fresh one, so
    the claim on its fingerprint is gone when the worker comes to it. *)
Theorem redelivery_is_forwarded_again (update : TelegramUpdate)
  (msg : TelegramMessageRaw) (old : TelegramMessage) (w : World) :
  firestore_reliable env ->
  os_Getenv env (str "GOOGLE_CLOUD_PROJECT") <> [] ->
  incoming update = Some msg -> has_content msg ->
  isRelevant U (raw_Text msg) = true ->
  let id := document_id (chat_ID (raw_Chat msg)) (raw_MessageID msg) in
  let fp := computeFingerprint U (raw_Text msg) in
  messages w !! id = Some old ->
  IsForwarded old = true -> JobFingerprint old = Some fp ->
  (forall k m, k <> id -> messages w !! k = Some m ->
               JobFingerprint m = Some fp -> IsForwarded m = false) ->
  let w1 := run (telegramWebhookHandler env (str "POST") (Some update)) w in
  exists fresh,
    messages w1 !! id = Some fresh /\
    IsProcessed fresh = false /\ IsForwarded fresh = false /\
    calls (run (processOne U env (snapshot (id, fresh))) w1)
    = calls w1 ++
        [DocUpdateResult id true fp; QueryForwarded fp;
         HttpPost (telegramAPIURL env (str "sendMessage"))
           (mustGetPersonalChatID env) (formatMessage fresh);
         DocUpdateForwarded id].
Proof.
  intros Hrel Hset Hin Hc Hr id fp Hold Hfw Hfp Hothers w1.
  unfold w1.
  rewrite (webhook_stores_ingested env update msg w Hrel Hset Hin Hc).
  fold id. cbn [messages].
  set (fresh := ingested msg _).
  exists fresh. split; [apply lookup_insert_eq|].
  split; [reflexivity|]. split; [reflexivity|].
  rewrite (processOne_forwards U env _ (snapshot (id, fresh)) fresh fresh);
    try assumption; try reflexivity.
  - cbn [snapshot Ref_ID fst messages]. apply lookup_insert_eq.
  - cbn [messages]. intros (k & m & Hk & Hf & Hw).
    destruct (decide (id = k)) as [<- | Hne].
    + rewrite lookup_insert_eq in Hk. injection Hk as <-. discriminate.
    + rewrite lookup_insert_ne in Hk by exact Hne.
      rewrite (Hothers k m) in Hw; auto. discriminate.
Qed.

End Redelivery.

(** ** Only relevant records are marked, and a post from end to end *)

Section Relevant.

Variable U : rune -> rune.
Variable env : Env.
Hypothesis Hrel : firestore_reliable env.

Lemma for_each_invariant (I : gmap (list N) TelegramMessage -> Prop)
  (docs : list DocumentSnapshot) (w : World) :
  (forall doc msg stored w0,
     fields doc = Some msg -> messages w0 !! Ref_ID doc = Some stored ->
     IsProcessed stored = false -> I (messages w0) ->
     I (messages (run (processOne U env doc) w0))) ->
  List.NoDup (map Ref_ID docs) ->
  (forall d, In d docs ->
     exists m, fields d = Some m /\ messages w !! Ref_ID d = Some m /\
               IsProcessed m = false) ->
  I (messages w) ->
  I (messages (run (for_each (processOne U env) docs) w)).
Proof.
  intros Hstep. revert w.
  induction docs as [|d docs IH]; intros w Hnd Hdocs Hinv.
  - now rewrite run_for_each_nil.
  - rewrite run_for_each_cons.
    inversion Hnd as [|? ? Hnotin Hnd']; subst.
    destruct (Hdocs d (or_introl eq_refl)) as (m & Hf & Hst & Hp).
    destruct (processOne_processes U env Hrel d m m w Hf Hst)
      as (m1 & Hm1 & _).
    apply IH; [exact Hnd' | | now apply (Hstep d m m)].
    intros d' Hin. destruct (Hdocs d' (or_intror Hin)) as (m' & ? & ? & ?).
    exists m'. repeat split; try assumption.
    rewrite Hm1, lookup_insert_ne; [assumption|].
    intros Heq. apply Hnotin. rewrite Heq. now apply in_map.
Qed.

Lemma processOne_keeps_relevant (doc : DocumentSnapshot)
  (msg stored : TelegramMessage) (w : World) :
  fields doc = Some msg ->
  messages w !! Ref_ID doc = Some stored ->
  IsProcessed stored = false ->
  forwarded_are_relevant (messages w) ->
  forwarded_are_relevant (messages (run (processOne U env doc) w)).
Proof.
  intros Hdoc Hst Hp Hinv.
  assert (Hfw : IsForwarded stored = false).
  { destruct (IsForwarded stored) eqn:E; [|reflexivity].
    destruct (Hinv _ _ Hst E) as [Hp' _]. congruence. }
  destruct (processOne_reliable U env Hrel doc msg stored w Hdoc Hst)
    as [-> | (Hr & _ & ->)]; intros k m Hk Hf;
    (destruct (decide (Ref_ID doc = k)) as [<- | Hne];
     [rewrite lookup_insert_eq in Hk; injection Hk as <-
     |rewrite lookup_insert_ne in Hk by exact Hne; now apply (Hinv k)]).
  - cbn in Hf. congruence.
  - cbn. auto.
Qed.

End Relevant.

Lemma fetched_one (ms : gmap (list N) TelegramMessage) (k : gostring)
  (m : TelegramMessage) :
  ms !! k = Some m -> IsProcessed m = false ->
  (forall k' m', ms !! k' = Some m' -> IsProcessed m' = false -> k' = k) ->
  List.filter (fun kv => negb (IsProcessed (snd kv))) (map_to_list ms)
  = [(k, m)].
Proof.
  intros Hk Hp Honly.
  apply Permutation.Permutation_length_1_inv.
  apply Permutation.NoDup_Permutation.
  - constructor; [intros [] | constructor].
  - apply List.NoDup_filter, NoDup_ListNoDup, NoDup_map_to_list.
  - intros [k' m']. rewrite unprocessed_In. split.
    + intros [[= -> ->] | []]. auto.
    + intros [Hk' Hp']. left. pose proof (Honly k' m' Hk' Hp') as ->.
      rewrite Hk in Hk'. now injection Hk' as <-.
Qed.

Section EndToEnd.

Variable U : rune -> rune.
Variable env : Env.

(** With Firestore available, a request to the worker never leaves an
    irrelevant or an unprocessed record marked forwarded. *)
Theorem worker_marks_only_relevant (method : gostring) (w : World) :
  firestore_reliable env ->
  forwarded_are_relevant (messages w) ->
  forwarded_are_relevant (messages (run (workerHandler U env method) w)).
Proof.
  intros Hrel Hinv.
  destruct (workerHandler_world U env method w)
    as (w2 & Hms & _ & _ & [-> | ->]); [now rewrite Hms|].
  apply (for_each_invariant U env Hrel forwarded_are_relevant).
  - intros doc msg stored w0. apply (processOne_keeps_relevant U env Hrel).
  - rewrite batch_of_ids. apply NoDup_firstn_of, unprocessed_NoDup.
  - rewrite Hms. apply batch_of_In.
  - now rewrite Hms.
Qed.

Lemma processOne_rejects (w : World) (doc : DocumentSnapshot)
  (msg stored : TelegramMessage) :
  firestore_reliable env ->
  fields doc = Some msg ->
  isRelevant U (MessageText msg) = false ->
  messages w !! Ref_ID doc = Some stored ->
  let fp := computeFingerprint U (MessageText msg) in
  run (processOne U env doc) w
  = {| messages :=
         <[Ref_ID doc := with_result stored false fp (time_Now env (calls w))]>
           (messages w);
       calls := calls w ++ [DocUpdateResult (Ref_ID doc) false fp] |}.
Proof.
  intros Hrel Hdoc Hr Hst fp. unfold run at 1.
  rewrite (processOne_irrelevant env U doc msg Hdoc w Hr). cbn [snd].
  rewrite Hr. fold fp. unfold run. rewrite updateProcessingResult_eq.
  now rewrite (update_doc_ok env _ _ _ _ stored (Hrel _ _) Hst).
Qed.

(** A post from the webhook to the chat.  Into a store whose records
    are all processed comes one accepted post, and then a POST to the
    worker.  A relevant post whose fingerprint no other record has
    claimed is classified, sent once and marked; a relevant post whose
    fingerprint is claimed, and a post that is not relevant, are
    classified and nothing is sent. *)
Theorem ingested_post_through_the_worker (update : TelegramUpdate)
  (msg : TelegramMessageRaw) (w : World) :
  firestore_reliable env ->
  os_Getenv env (str "GOOGLE_CLOUD_PROJECT") <> [] ->
  incoming update = Some msg -> has_content msg ->
  (forall k m, messages w !! k = Some m -> IsProcessed m = true) ->
  let id := document_id (chat_ID (raw_Chat msg)) (raw_MessageID msg) in
  let fp := computeFingerprint U (raw_Text msg) in
  let project := os_Getenv env (str "GOOGLE_CLOUD_PROJECT") in
  let w1 := run (telegramWebhookHandler env (str "POST") (Some update)) w in
  let w2 := run (workerHandler U env (str "POST")) w1 in
  exists fresh rec,
    messages w1 !! id = Some fresh /\
    MessageText fresh = raw_Text msg /\
    ChannelName fresh = chat_Title (raw_Chat msg) /\
    messages w2 !! id = Some rec /\
    IsProcessed rec = true /\
    IsRelevant rec = Some (isRelevant U (raw_Text msg)) /\
    JobFingerprint rec = Some fp /\
    (isRelevant U (raw_Text msg) = true ->
     (forall k m, k <> id -> messages w !! k = Some m ->
                  JobFingerprint m = Some fp -> IsForwarded m = false) ->
     IsForwarded rec = true /\
     calls w2 = calls w1 ++
       [NewClient project; QueryUnprocessed 50;
        DocUpdateResult id true fp; QueryForwarded fp;
        HttpPost (telegramAPIURL env (str "sendMessage"))
          (mustGetPersonalChatID env) (formatMessage fresh);
        DocUpdateForwarded id]) /\
    (isRelevant U (raw_Text msg) = true ->
     (exists k m, k <> id /\ messages w !! k = Some m /\
                  JobFingerprint m = Some fp /\ IsForwarded m = true) ->
     IsForwarded rec = false /\
     calls w2 = calls w1 ++
       [NewClient project; QueryUnprocessed 50;
        DocUpdateResult id true fp; QueryForwarded fp]) /\
    (isRelevant U (raw_Text msg) = false ->
     IsForwarded rec = false /\
     calls w2 = calls w1 ++
       [NewClient project; QueryUnprocessed 50;
        DocUpdateResult id false fp]).
Proof.
  intros Hrel Hset Hin Hc Hall id fp project w1 w2.
  assert (Hw1 : w1 = run (telegramWebhookHandler env (str "POST") (Some update)) w)
    by reflexivity.
  rewrite (webhook_stores_ingested env update msg w Hrel Hset Hin Hc) in Hw1.
  fold id project in Hw1.
  set (fresh := ingested msg (time_Now env (calls w ++ [NewClient project])))
    in Hw1.
  assert (Hfetch : List.filter (fun kv => negb (IsProcessed (snd kv)))
                     (map_to_list (messages w1)) = [(id, fresh)]).
  { apply fetched_one.
    - rewrite Hw1. cbn [messages]. apply lookup_insert_eq.
    - reflexivity.
    - intros k' m' Hk' Hp'. rewrite Hw1 in Hk'. cbn [messages] in Hk'.
      destruct (decide (id = k')) as [<- | Hne]; [reflexivity|].
      rewrite lookup_insert_ne in Hk' by exact Hne.
      rewrite (Hall k' m' Hk') in Hp'. discriminate. }
  assert (Hw2 : w2 = snd (workerHandler U env (str "POST") w1)) by reflexivity.
  rewrite (workerHandler_post U env w1 Hrel Hset) in Hw2. cbn [snd] in Hw2.
  rewrite Hfetch in Hw2. cbn [map firstn] in Hw2.
  rewrite run_for_each_cons, run_for_each_nil in Hw2. fold project in Hw2.
  set (w1' := log (QueryUnprocessed 50) (log (NewClient project) w1)) in *.
  set (doc := snapshot (id, fresh)) in *.
  assert (Hms : messages w1' = <[id := fresh]> (messages w))
    by (unfold w1', log; cbn [messages]; now rewrite Hw1).
  assert (Hcs : calls w1'
                = calls w1 ++ [NewClient project; QueryUnprocessed 50])
    by (unfold w1', log; cbn [calls]; now rewrite <- app_assoc).
  assert (Hst : messages w1' !! Ref_ID doc = Some fresh)
    by (rewrite Hms; apply lookup_insert_eq).
  assert (Hfresh : messages w1 !! id = Some fresh)
    by (rewrite Hw1; apply lookup_insert_eq).
  destruct (isRelevant U (raw_Text msg)) eqn:Hr.
  - (* relevant *)
    destruct (processOne_reliable U env Hrel doc fresh fresh w1' eq_refl Hst)
      as [Hm | (_ & Hncl & Hm)];
      change (MessageText fresh) with (raw_Text msg) in *;
      rewrite Hr in *; fold fp in Hm |- *;
      change (Ref_ID doc) with id in *.
    + (* the classified record stands: the fingerprint was claimed *)
      exists fresh. eexists. split; [exact Hfresh|].
      split; [reflexivity|]. split; [reflexivity|].
      split; [rewrite Hw2, Hm; apply lookup_insert_eq|].
      split; [reflexivity|]. split; [reflexivity|]. split; [reflexivity|].
      split; [|split; [|discriminate]].
      * intros _ Hfree. exfalso.
        assert (Hncl : ~ fingerprint_claimed fp (messages w1')).
        { rewrite Hms. intros (k & m & Hk & Hf & Hw).
          destruct (decide (id = k)) as [<- | Hne].
          - rewrite lookup_insert_eq in Hk. injection Hk as <-. discriminate.
          - rewrite lookup_insert_ne in Hk by exact Hne.
            rewrite (Hfree k m) in Hw; auto. discriminate. }
        pose proof (processOne_forwards U env w1' doc fresh fresh Hrel eq_refl)
          as Hfwd.
        change (MessageText fresh) with (raw_Text msg) in Hfwd.
        specialize (Hfwd Hr Hst eq_refl Hncl). cbv zeta in Hfwd.
        rewrite Hfwd in Hm. cbn [messages] in Hm.
        assert (Hl : (<[Ref_ID doc :=
                          with_forwarded
                            (with_result fresh true
                               (computeFingerprint U (raw_Text msg))
                               (time_Now env (calls w1')))]> (messages w1'))
                     !! id
                     = (<[id := with_result fresh true fp
                                  (time_Now env (calls w1'))]> (messages w1'))
                       !! id) by now rewrite Hm.
        change (Ref_ID doc) with id in Hl.
        rewrite !lookup_insert_eq in Hl. discriminate.
      * intros _ (k & m & Hne & Hk & Hf & Hw). split; [reflexivity|].
        assert (Hcl : fingerprint_claimed fp
                        (<[id := with_result fresh true fp
                                   (time_Now env (calls w1'))]>
                           (messages w1'))).
        { exists k, m. rewrite lookup_insert_ne by congruence.
          rewrite Hms, lookup_insert_ne by congruence. auto. }
        pose proof (processOne_duplicate U env w1' doc fresh fresh Hrel eq_refl)
          as Hdup.
        change (MessageText fresh) with (raw_Text msg) in Hdup.
        specialize (Hdup Hr Hst). cbv zeta in Hdup. fold fp in Hdup.
        change (Ref_ID doc) with id in Hdup.
        rewrite Hw2, (Hdup Hcl). cbn [calls]. now rewrite Hcs, <- app_assoc.
    + (* the record was marked: the fingerprint was free *)
      exists fresh. eexists. split; [exact Hfresh|].
      split; [reflexivity|]. split; [reflexivity|].
      split; [rewrite Hw2, Hm; apply lookup_insert_eq|].
      split; [reflexivity|]. split; [reflexivity|]. split; [reflexivity|].
      split; [|split; [|discriminate]].
      * intros _ _. split; [reflexivity|].
        assert (Hncl' : ~ fingerprint_claimed fp (messages w1')).
        { intros (k & m & Hk & Hf & Hw). apply Hncl.
          destruct (decide (id = k)) as [<- | Hne].
          - rewrite Hst in Hk. injection Hk as <-. discriminate.
          - exists k, m. rewrite lookup_insert_ne by exact Hne. auto. }
        pose proof (processOne_forwards U env w1' doc fresh fresh Hrel eq_refl)
          as Hfwd.
        change (MessageText fresh) with (raw_Text msg) in Hfwd.
        specialize (Hfwd Hr Hst eq_refl Hncl'). cbv zeta in Hfwd.
        fold fp in Hfwd. change (Ref_ID doc) with id in Hfwd.
        rewrite Hw2, Hfwd. cbn [calls]. now rewrite Hcs, <- app_assoc.
      * intros _ (k & m & Hne & Hk & Hf & Hw). exfalso. apply Hncl.
        exists k, m. rewrite lookup_insert_ne by congruence.
        rewrite Hms, lookup_insert_ne by congruence. auto.
  - (* not relevant *)
    pose proof (processOne_rejects w1' doc fresh fresh Hrel eq_refl) as Hrej.
    change (MessageText fresh) with (raw_Text msg) in Hrej.
    specialize (Hrej Hr Hst). cbv zeta in Hrej. fold fp in Hrej.
    change (Ref_ID doc) with id in Hrej.
    exists fresh. eexists. split; [exact Hfresh|].
    split; [reflexivity|]. split; [reflexivity|].
    split; [rewrite Hw2, Hrej; cbn [messages]; apply lookup_insert_eq|].
    split; [reflexivity|]. split; [reflexivity|]. split; [reflexivity|].
    split; [discriminate|]. split; [discriminate|].
    intros _. split; [reflexivity|].
    rewrite Hw2, Hrej. cbn [calls]. now rewrite Hcs, <- app_assoc.
Qed.

End EndToEnd.

(** ** Locality of the updates *)

Section Locality.

Variable U : rune -> rune.
Variable env : Env.

Lemma update_doc_frame (c : Call) (docID : gostring)
  (f : TelegramMessage -> TelegramMessage) (w : World) (k : gostring) :
  k <> docID ->
  messages (run (update_doc env c docID f) w) !! k = messages w !! k.
Proof.
  intros Hne. unfold run.
  destruct (firestore_fails env (calls w) c) eqn:Hd.
  - now rewrite update_doc_down by exact Hd.
  - destruct (messages w !! docID) as [m|] eqn:Hm.
    + rewrite (update_doc_ok env _ _ _ _ m Hd Hm). cbn [snd messages].
      apply lookup_insert_ne. congruence.
    + now rewrite update_doc_missing by assumption.
Qed.

Lemma processOne_frame (doc : DocumentSnapshot) (w : World) (k : gostring) :
  k <> Ref_ID doc ->
  messages (run (processOne U env doc) w) !! k = messages w !! k.
Proof.
  intros Hne. destruct (fields doc) as [msg|] eqn:Hdoc.
  2:{ unfold run, processOne, DataTo. now rewrite Hdoc. }
  unfold run. rewrite (processOne_steps env U doc msg Hdoc).
  set (fp := computeFingerprint U (MessageText msg)).
  set (rel := isRelevant U (MessageText msg)).
  assert (H1 : messages
                 (run (updateProcessingResult env (Ref_ID doc) rel fp) w) !! k
               = messages w !! k).
  { unfold run. rewrite updateProcessingResult_eq.
    now apply update_doc_frame. }
  destruct (negb rel); [exact H1|].
  cbv zeta. rewrite isFingerprintForwarded_world.
  destruct (is_Some_bool _ || _); [exact H1|].
  cbn [snd]. rewrite <- H1. unfold markForwarded.
  now rewrite update_doc_frame by exact Hne.
Qed.

Lemma for_each_frame (docs : list DocumentSnapshot) (w : World)
  (k : gostring) :
  ~ In k (map Ref_ID docs) ->
  messages (run (for_each (processOne U env) docs) w) !! k = messages w !! k.
Proof.
  revert w. induction docs as [|d docs IH]; intros w Hk.
  - reflexivity.
  - rewrite run_for_each_cons, IH by (intros H; apply Hk; now right).
    apply processOne_frame. intros ->. apply Hk. now left.
Qed.

(** In any environment a request to the worker leaves every record
    outside the batch exactly as it is; a processed record is never in
    the batch, so it is never written again. *)
Theorem worker_touches_only_the_batch (method : gostring) (w : World)
  (k : gostring) :
  let w' := run (workerHandler U env method) w in
  (~ In k (map Ref_ID (batch_of 50 (messages w))) ->
   messages w' !! k = messages w !! k) /\
  (forall m, messages w !! k = Some m -> IsProcessed m = true ->
             messages w' !! k = Some m).
Proof.
  intros w'.
  assert (Hout : ~ In k (map Ref_ID (batch_of 50 (messages w))) ->
                 messages w' !! k = messages w !! k).
  { intros Hk. unfold w'.
    destruct (workerHandler_world U env method w)
      as (w2 & Hm & _ & _ & [-> | ->]).
    - now rewrite Hm.
    - rewrite for_each_frame by exact Hk. now rewrite Hm. }
  split; [exact Hout|].
  intros m Hm Hp. rewrite Hout; [exact Hm|].
  intros Hin. apply in_map_iff in Hin as (d & <- & Hd).
  apply batch_of_In in Hd as (m' & _ & Hm' & Hp'). congruence.
Qed.

(** [updateProcessingResult] makes one call and touches no other
    document; when the call fails, and when there is no document with
    the ID, it returns an error and the collection is as it was;
    otherwise the document gets the result and keeps the fields of its
    ingestion and its forwarded flag. *)
Theorem updateProcessingResult_contract (docID : gostring)
  (isRelevant : bool) (fingerprint : gostring) (w : World) :
  let c := DocUpdateResult docID isRelevant fingerprint in
  let r := updateProcessingResult env docID isRelevant fingerprint w in
  calls (snd r) = calls w ++ [c] /\
  (forall k, k <> docID -> messages (snd r) !! k = messages w !! k) /\
  (firestore_fails env (calls w) c = true ->
   fst r = Some Unavailable /\ messages (snd r) = messages w) /\
  (firestore_fails env (calls w) c = false ->
   messages w !! docID = None ->
   fst r = Some NotFound /\ messages (snd r) = messages w) /\
  (forall stored,
     firestore_fails env (calls w) c = false ->
     messages w !! docID = Some stored ->
     exists rec,
       fst r = None /\ messages (snd r) !! docID = Some rec /\
       same_post stored rec /\ IsForwarded rec = IsForwarded stored /\
       IsProcessed rec = true /\ IsRelevant rec = Some isRelevant /\
       JobFingerprint rec = Some fingerprint /\
       ProcessedAt rec = Some (time_Now env (calls w))).
Proof.
  intros c r. unfold r. rewrite updateProcessingResult_eq. fold c.
  split; [apply update_doc_calls|].
  split; [intros k Hk; now apply update_doc_frame|].
  split; [|split].
  - intros Hd. now rewrite update_doc_down by exact Hd.
  - intros Hd Hm. now rewrite update_doc_missing by assumption.
  - intros stored Hd Hm. rewrite (update_doc_ok env _ _ _ _ stored Hd Hm).
    cbn [fst snd messages]. eexists. split; [reflexivity|].
    split; [apply lookup_insert_eq|].
    unfold same_post. cbn. auto 12.
Qed.

(** [markForwarded] makes one call and touches no other document; a
    failed call and a missing document give an error and change
    nothing; otherwise only the forwarded flag of the document is set,
    and marking a document that is marked changes nothing. *)
Theorem markForwarded_contract (docID : gostring) (w : World) :
  let c := DocUpdateForwarded docID in
  let r := markForwarded env docID w in
  calls (snd r) = calls w ++ [c] /\
  (forall k, k <> docID -> messages (snd r) !! k = messages w !! k) /\
  (firestore_fails env (calls w) c = true ->
   fst r = Some Unavailable /\ messages (snd r) = messages w) /\
  (firestore_fails env (calls w) c = false ->
   messages w !! docID = None ->
   fst r = Some NotFound /\ messages (snd r) = messages w) /\
  (forall stored,
     firestore_fails env (calls w) c = false ->
     messages w !! docID = Some stored ->
     fst r = None /\
     messages (snd r) !! docID = Some (with_forwarded stored)) /\
  (forall stored,
     messages w !! docID = Some stored -> IsForwarded stored = true ->
     messages (snd r) = messages w).
Proof.
  intros c r. unfold r, markForwarded. fold c.
  split; [apply update_doc_calls|].
  split; [intros k Hk; now apply update_doc_frame|].
  split; [|split; [|split]].
  - intros Hd. now rewrite update_doc_down by exact Hd.
  - intros Hd Hm. now rewrite update_doc_missing by assumption.
  - intros stored Hd Hm. rewrite (update_doc_ok env _ _ _ _ stored Hd Hm).
    cbn [fst snd messages]. split; [reflexivity|apply lookup_insert_eq].
  - intros stored Hm Hf.
    destruct (firestore_fails env (calls w) c) eqn:Hd.
    + now rewrite update_doc_down by exact Hd.
    + rewrite (update_doc_ok env _ _ _ _ stored Hd Hm). cbn [snd messages].
      apply insert_id. rewrite Hm. f_equal.
      destruct stored. cbn in Hf. subst. reflexivity.
Qed.

(** [sendTextMessage] makes one post to the sendMessage URL of the bot
    and never touches the collection; it returns no error exactly when
    the post gets a response with status 200. *)
Theorem sendTextMessage_contract (chatID : Z) (text : gostring) (w : World) :
  let c := HttpPost (str "https://api.telegram.org/bot"
                     ++ os_Getenv env (str "BOT_TOKEN")
                     ++ str "/sendMessage") chatID text in
  let r := sendTextMessage env chatID text w in
  messages (snd r) = messages w /\
  calls (snd r) = calls w ++ [c] /\
  (fst r = None <-> http_Post env (calls w) c = Response 200) /\
  (http_Post env (calls w) c = TransportError -> fst r = Some PostFailed) /\
  (forall code, http_Post env (calls w) c = Response code ->
                code <> 200%Z -> fst r = Some (BadStatus code)).
Proof.
  intros c r.
  assert (Hc : HttpPost (telegramAPIURL env (str "sendMessage")) chatID text
               = c) by reflexivity.
  unfold r, sendTextMessage. rewrite Hc.
  cbn [fst snd]. split; [reflexivity|]. split; [reflexivity|].
  split; [|split].
  - destruct (http_Post env (calls w) c) as [|code];
      [split; intros H; discriminate H|].
    destruct (code =? 200)%Z eqn:E.
    + apply Z.eqb_eq in E as ->. split; reflexivity.
    + apply Z.eqb_neq in E. split; [intros H; discriminate H|].
      intros [= ->]. lia.
  - intros ->. reflexivity.
  - intros code -> Hne. apply Z.eqb_neq in Hne. now rewrite Hne.
Qed.

End Locality.


(** * The properties on concrete inputs *)

Lemma relevant_without_any_signal_witness :
  isRelevant ascii_only (str "Backend engineer role, apply now") = true.
Proof.
  apply (relevant_without_any_signal ascii_only); vm_compute; reflexivity.
Defined.

Lemma intern_any_case_rejected_witness :
  isRelevant ascii_only (str "Hiring " ++ str "INTERN" ++ str "s for 2025")
  = false.
Proof.
  apply (intern_any_case_rejected ascii_only). vm_compute. reflexivity.
Defined.

Lemma excludes2025_exactly_the_list_witness :
  excludes2025 (str "freshers of the 2024 batch only") = true /\
  isRelevant ascii_only (str "Openings for the 2026 batch") = true.
Proof.
  destruct (excludes2025_exactly_the_list ascii_only) as (Hiff & _ & H2026).
  split.
  - apply Hiff. exists (str "2024 batch"). split; [now left|].
    vm_compute. reflexivity.
  - apply H2026; try (vm_compute; reflexivity).
    intros H. apply (containsAny_spec _ explicitNon2025Patterns) in H.
    vm_compute in H. discriminate.
Defined.

Lemma normalize_idempotent_without_phone_run_witness :
  has_match phoneRegex (normalizeText ascii_only (str "Visit http://x.com NOW"))
  = false /\
  normalizeText ascii_only
    (normalizeText ascii_only (str "Visit http://x.com NOW"))
  = normalizeText ascii_only (str "Visit http://x.com NOW").
Proof.
  split; [vm_compute; reflexivity|].
  apply (normalize_idempotent_without_phone_run ascii_only).
  vm_compute. reflexivity.
Defined.

(** C2 as stated fails: the dot of 1234.56789 keeps the phone expression
    from matching in the first pass and becomes a space; the result,
    1234 56789, is a phone-like run that the second pass removes. *)
Lemma normalize_not_idempotent :
  normalizeText ascii_only (str "1234.56789") = str "1234 56789" /\
  normalizeText ascii_only (normalizeText ascii_only (str "1234.56789")) = [] /\
  normalizeText ascii_only (normalizeText ascii_only (str "1234.56789"))
  <> normalizeText ascii_only (str "1234.56789").
Proof.
  split; [vm_compute; reflexivity|].
  split; [vm_compute; reflexivity|].
  vm_compute. discriminate.
Qed.

Lemma fingerprint_is_hex_sha256_of_normalized_prefix_witness :
  firstn 400 (normalizeText ascii_only (str "Visit http://x.com NOW"))
  = firstn 400 (normalizeText ascii_only (str "visit now")) /\
  computeFingerprint ascii_only (str "Visit http://x.com NOW")
  = computeFingerprint ascii_only (str "visit now").
Proof.
  split; [vm_compute; reflexivity|].
  apply (fingerprint_is_hex_sha256_of_normalized_prefix ascii_only).
  vm_compute. reflexivity.
Defined.

Lemma one_post_not_claimed :
  ~ fingerprint_claimed (computeFingerprint ascii_only (MessageText post_A))
      (messages one_post).
Proof.
  intros H. apply query_claimed in H. vm_compute in H. discriminate.
Qed.


Lemma failed_send_is_marked_forwarded_witness :
  exists rec,
    messages
      (run (processOne ascii_only (sample_env (str "77") never TransportError)
              (snapshot (str "-1001_5", post_A))) one_post)
      !! str "-1001_5" = Some rec /\
    IsProcessed rec = true /\ IsForwarded rec = true.
Proof.
  apply (failed_send_is_marked_forwarded ascii_only
           (sample_env (str "77") never TransportError)
           one_post (snapshot (str "-1001_5", post_A)) post_A post_A).
  - intros h c. reflexivity.
  - intros h c. discriminate.
  - reflexivity.
  - vm_compute. reflexivity.
  - vm_compute. reflexivity.
  - reflexivity.
  - exact one_post_not_claimed.
Defined.

Lemma failed_update_is_not_skipped_witness :
  exists rec,
    messages
      (run (processOne ascii_only
              (sample_env (str "77") result_updates (Response 200))
              (snapshot (str "-1001_5", post_A))) one_post)
      !! str "-1001_5" = Some rec /\
    IsProcessed rec = false /\ IsForwarded rec = true.
Proof.
  apply (failed_update_is_not_skipped ascii_only
           (sample_env (str "77") result_updates (Response 200))
           one_post (snapshot (str "-1001_5", post_A)) post_A post_A).
  - intros h c. reflexivity.
  - reflexivity.
  - vm_compute. reflexivity.
  - vm_compute. reflexivity.
  - reflexivity.
  - exact one_post_not_claimed.
Defined.



(** C9 as stated fails: when the write to Firestore fails, an accepted
    post is answered 200 and no record of it is stored. *)
Lemma accepted_post_is_lost_when_the_write_fails :
  (exists msg, incoming caption_only = Some msg /\ has_content msg) /\
  fst (telegramWebhookHandler
         (sample_env (str "77") writes_fail (Response 200))
         (str "POST") (Some caption_only) one_post) = 200%Z /\
  messages
    (run (telegramWebhookHandler
            (sample_env (str "77") writes_fail (Response 200))
            (str "POST") (Some caption_only)) one_post)
    !! str "-1001_12" = None.
Proof.
  split.
  { eexists. split; [reflexivity|]. right. left. vm_compute. discriminate. }
  split; [vm_compute; reflexivity|].
  vm_compute. reflexivity.
Qed.

Lemma webhook_stores_text_and_answers_200_witness :
  exists rec,
    messages
      (run (telegramWebhookHandler
              (sample_env (str "77") never (Response 200))
              (str "POST") (Some caption_only)) one_post)
      !! str "-1001_12" = Some rec /\
    MessageText rec = [] /\ IsProcessed rec = false /\ IsForwarded rec = false.
Proof.
  destruct (proj1 (proj2 (webhook_stores_text_and_answers_200
                            (sample_env (str "77") never (Response 200))))
              caption_only
              {| raw_MessageID := 12; raw_Date := 1700000000;
                 raw_Text := []; raw_Caption := str "We are hiring";
                 raw_Chat := {| chat_ID := -1001; chat_Title := str "jobs";
                                chat_Type := str "channel" |};
                 raw_Photo := [ {| photo_FileID := str "f1" |} ];
                 raw_Document := None |}
              one_post)
    as (Hst & Hempty).
  - intros h c. reflexivity.
  - vm_compute. discriminate.
  - reflexivity.
  - right. left. vm_compute. discriminate.
  - destruct (Hempty eq_refl) as (rec & Hrec & Htext).
    exists rec. split; [exact Hrec|]. split; [exact Htext|].
    rewrite Hst in Hrec.
    rewrite lookup_insert_eq in Hrec. injection Hrec as <-. auto.
Defined.



(** ** The further properties on concrete inputs *)

Lemma two_posts_records (k : gostring) (m : TelegramMessage) :
  messages two_posts !! k = Some m ->
  IsProcessed m = false /\ IsForwarded m = false.
Proof.
  intros H. cbn [messages two_posts] in H.
  apply lookup_insert_Some in H as [[_ <-] | [_ H]]; [now split|].
  apply lookup_singleton_Some in H as [_ <-]. now split.
Qed.

Lemma forwarded_store_record (k : gostring) (m : TelegramMessage) :
  messages forwarded_store !! k = Some m ->
  k = str "-1001_5" /\ m = forwarded_record.
Proof.
  intros H. cbn [messages forwarded_store] in H.
  apply lookup_singleton_Some in H as [<- <-]. now split.
Qed.

Lemma normalizeText_shape_witness :
  single_spaced (normalizeText ascii_only (str "Visit   http://x.com NOW"))
  = true.
Proof.
  exact (proj1 (proj2 (normalizeText_shape ascii_only
                         (str "Visit   http://x.com NOW")))).
Defined.

Lemma ascii_case_is_ignored_witness :
  computeFingerprint ascii_only (str "Apply NOW")
  = computeFingerprint ascii_only (str "apply now").
Proof.
  refine (proj1 (proj2 (ascii_case_is_ignored ascii_only
                          (str "Apply NOW") (str "apply now") _))).
  vm_compute. reflexivity.
Defined.

Lemma rejected_inside_any_text_witness :
  isRelevant ascii_only
    (str "Hello, " ++ str "unpaid internship" ++ str " for the 2025 batch")
  = false.
Proof.
  apply (rejected_inside_any_text ascii_only). vm_compute. reflexivity.
Defined.

Lemma chat_id_of_valid_numeral_witness :
  mustGetPersonalChatID (sample_env (str "-42") never (Response 200))
  = (- Z.of_N (digits_value 0 (str "42")))%Z.
Proof.
  refine (proj2 (chat_id_of_valid_numeral
                   (sample_env (str "-42") never (Response 200))
                   (str "42") _ _) _ _).
  - vm_compute. discriminate.
  - vm_compute. repeat constructor.
  - vm_compute. discriminate.
  - vm_compute. reflexivity.
Defined.

Lemma worker_only_advances_records_witness :
  store_advances (messages two_posts)
    (messages
       (run (workerHandler ascii_only
               (sample_env (str "77") result_updates TransportError)
               (str "POST")) two_posts)).
Proof.
  exact (worker_only_advances_records ascii_only
           (sample_env (str "77") result_updates TransportError)
           (str "POST") two_posts).
Defined.

Lemma fetchUnprocessed_contract_witness :
  In (snapshot (str "-1001_5", post_A))
    (fst (fst (fetchUnprocessed
                 (sample_env (str "77") never (Response 200)) 50 two_posts))).
Proof.
  refine (proj2 (proj2 (proj2 (proj2 (proj2 (proj2
            (fetchUnprocessed_contract
               (sample_env (str "77") never (Response 200)) 50 two_posts))))))
            _ _ (str "-1001_5") post_A _ _).
  - vm_compute. reflexivity.
  - apply Nat.leb_le. vm_compute. reflexivity.
  - vm_compute. reflexivity.
  - reflexivity.
Defined.

Lemma worker_answers_witness :
  Status (fst (workerHandler ascii_only
                 (sample_env (str "77") queries_fail (Response 200))
                 (str "POST") two_posts)) = 500%Z.
Proof.
  destruct (worker_answers ascii_only
              (sample_env (str "77") queries_fail (Response 200))
              (str "POST") two_posts) as (_ & _ & Hpost & _).
  destruct (Hpost eq_refl) as [Hiff _].
  apply Hiff. right. right. reflexivity.
Defined.

Lemma worker_idle_on_processed_store_witness :
  messages
    (run (workerHandler ascii_only
            (sample_env (str "77") never (Response 200)) (str "POST"))
       forwarded_store)
  = messages forwarded_store.
Proof.
  refine (proj1 (worker_idle_on_processed_store ascii_only
                   (sample_env (str "77") never (Response 200)) (str "POST")
                   forwarded_store _)).
  intros k m H. apply forwarded_store_record in H as [_ ->]. reflexivity.
Defined.

Lemma processOne_call_shape_witness :
  calls (run (processOne ascii_only
                (sample_env (str "77") never (Response 200))
                (snapshot (str "-1001_7", post_C))) one_post)
  = calls one_post ++
      [DocUpdateResult (str "-1001_7")
         (isRelevant ascii_only (MessageText post_C))
         (computeFingerprint ascii_only (MessageText post_C))].
Proof.
  refine (proj1 (proj2 (processOne_call_shape ascii_only
                          (sample_env (str "77") never (Response 200))
                          (snapshot (str "-1001_7", post_C)) one_post)
                   post_C _) _).
  - reflexivity.
  - vm_compute. reflexivity.
Defined.

Lemma worker_sends_at_most_batch_witness :
  exists l,
    calls (run (workerHandler ascii_only
                  (sample_env (str "77") never (Response 200)) (str "POST"))
             two_posts) = calls two_posts ++ l /\
    (List.length (List.filter is_send l)
     <= List.length (batch_of 50 (messages two_posts)))%nat /\
    (List.length (List.filter is_send l) <= 50)%nat.
Proof.
  exact (worker_sends_at_most_batch ascii_only
           (sample_env (str "77") never (Response 200)) (str "POST")
           two_posts).
Defined.

Lemma worker_keeps_dedup_invariant_witness :
  dedup_invariant
    (messages
       (run (workerHandler ascii_only
               (sample_env (str "77") never TransportError) (str "POST"))
          two_posts)).
Proof.
  apply (worker_keeps_dedup_invariant ascii_only
           (sample_env (str "77") never TransportError) (str "POST")
           two_posts).
  - intros h c. reflexivity.
  - split.
    + intros k m H Hf. apply two_posts_records in H as [_ H]. congruence.
    + intros k1 k2 m1 m2 fp H _ _ _ Hf.
      apply two_posts_records in H as [_ H]. congruence.
Defined.

Lemma worker_pass_processes_everything_witness :
  messages
    (run (workerHandler ascii_only
            (sample_env (str "77") never (Response 200)) (str "POST"))
       (run (workerHandler ascii_only
               (sample_env (str "77") never (Response 200)) (str "POST"))
          two_posts))
  = messages
      (run (workerHandler ascii_only
              (sample_env (str "77") never (Response 200)) (str "POST"))
         two_posts).
Proof.
  refine (proj2 (worker_pass_processes_everything ascii_only
                   (sample_env (str "77") never (Response 200))
                   two_posts _ _ _)).
  - intros h c. reflexivity.
  - vm_compute. discriminate.
  - apply Nat.leb_le. vm_compute. reflexivity.
Defined.

Lemma document_id_determines_post_witness :
  (-1001)%Z = (-1001)%Z /\ 5%Z = 5%Z.
Proof.
  apply (document_id_determines_post (-1001) 5 (-1001) 5). reflexivity.
Defined.

Lemma webhook_drops_without_effect_witness :
  telegramWebhookHandler (sample_env (str "77") never (Response 200))
    (str "GET") (Some caption_only) one_post
  = (200%Z, one_post).
Proof.
  refine (proj1 (webhook_drops_without_effect
                   (sample_env (str "77") never (Response 200))
                   (str "GET") (Some caption_only) one_post) _).
  vm_compute. discriminate.
Defined.

Lemma webhook_writes_at_most_its_document_witness :
  exists l,
    calls (run (telegramWebhookHandler
                  (sample_env (str "77") never (Response 200))
                  (str "POST") (Some caption_only)) one_post)
    = calls one_post ++ l /\
    List.filter is_send l = [].
Proof.
  exact (proj1 (webhook_writes_at_most_its_document
                  (sample_env (str "77") never (Response 200))
                  (str "POST") (Some caption_only) one_post)).
Defined.

Lemma isFingerprintForwarded_contract_witness :
  fst (fst (isFingerprintForwarded
              (sample_env (str "77") never (Response 200))
              (computeFingerprint ascii_only (raw_Text (hiring_msg 5)))
              forwarded_store))
  = true.
Proof.
  destruct (isFingerprintForwarded_contract
              (sample_env (str "77") never (Response 200))
              (computeFingerprint ascii_only (raw_Text (hiring_msg 5)))
              forwarded_store) as (_ & _ & Hup).
  destruct (Hup eq_refl) as [_ Hiff]. apply Hiff.
  exists (str "-1001_5"), forwarded_record.
  split; [apply lookup_singleton_eq|]. split; reflexivity.
Defined.

Lemma two_ingestions_witness :
  exists now1 now2,
    messages
      (run (telegramWebhookHandler
              (sample_env (str "77") never (Response 200))
              (str "POST") (Some (hiring_update 6)))
         (run (telegramWebhookHandler
                 (sample_env (str "77") never (Response 200))
                 (str "POST") (Some (hiring_update 5))) empty_store))
      !! document_id (-1001) 6 = Some (ingested (hiring_msg 6) now2) /\
    messages
      (run (telegramWebhookHandler
              (sample_env (str "77") never (Response 200))
              (str "POST") (Some (hiring_update 6)))
         (run (telegramWebhookHandler
                 (sample_env (str "77") never (Response 200))
                 (str "POST") (Some (hiring_update 5))) empty_store))
      !! document_id (-1001) 5 = Some (ingested (hiring_msg 5) now1).
Proof.
  destruct (two_ingestions (sample_env (str "77") never (Response 200))
              (hiring_update 5) (hiring_update 6)
              (hiring_msg 5) (hiring_msg 6) empty_store)
    as (now1 & now2 & H2 & H1 & _).
  - intros h c. reflexivity.
  - vm_compute. discriminate.
  - reflexivity.
  - left. vm_compute. discriminate.
  - reflexivity.
  - left. vm_compute. discriminate.
  - exists now1, now2. split; [exact H2|]. apply H1.
    vm_compute. discriminate.
Defined.

Lemma redelivery_is_forwarded_again_witness :
  exists fresh,
    messages
      (run (telegramWebhookHandler
              (sample_env (str "77") never (Response 200))
              (str "POST") (Some (hiring_update 5))) forwarded_store)
      !! document_id (-1001) 5 = Some fresh /\
    IsProcessed fresh = false /\ IsForwarded fresh = false /\
    List.length
      (List.filter is_send
         (calls
            (run (processOne ascii_only
                    (sample_env (str "77") never (Response 200))
                    (snapshot (document_id (-1001) 5, fresh)))
               (run (telegramWebhookHandler
                       (sample_env (str "77") never (Response 200))
                       (str "POST") (Some (hiring_update 5)))
                  forwarded_store)))) = 1%nat.
Proof.
  destruct (redelivery_is_forwarded_again ascii_only
              (sample_env (str "77") never (Response 200))
              (hiring_update 5) (hiring_msg 5) forwarded_record
              forwarded_store)
    as (fresh & Hf & Hp & Hu & Hc).
  - intros h c. reflexivity.
  - vm_compute. discriminate.
  - reflexivity.
  - left. vm_compute. discriminate.
  - vm_compute. reflexivity.
  - vm_compute. reflexivity.
  - reflexivity.
  - reflexivity.
  - intros k m Hne Hk. apply forwarded_store_record in Hk as [-> _].
    exfalso. apply Hne. vm_compute. reflexivity.
  - exists fresh. split; [exact Hf|]. split; [exact Hp|].
    split; [exact Hu|].
    change (document_id (-1001) 5)
      with (document_id (chat_ID (raw_Chat (hiring_msg 5)))
              (raw_MessageID (hiring_msg 5))).
    rewrite Hc, List.filter_app, List.length_app.
    vm_compute. reflexivity.
Defined.

Lemma worker_marks_only_relevant_witness :
  forwarded_are_relevant
    (messages
       (run (workerHandler ascii_only
               (sample_env (str "77") never (Response 200)) (str "POST"))
          mixed_store)).
Proof.
  apply (worker_marks_only_relevant ascii_only
           (sample_env (str "77") never (Response 200)) (str "POST")
           mixed_store).
  - intros h c. reflexivity.
  - intros k m H Hf. cbn [messages mixed_store] in H.
    apply lookup_insert_Some in H as [[_ <-] | [_ H]]; [discriminate Hf|].
    apply forwarded_store_record in H as [_ ->]. split; reflexivity.
Defined.

Lemma ingested_post_through_the_worker_witness :
  exists rec,
    messages
      (run (workerHandler ascii_only
              (sample_env (str "77") never (Response 200)) (str "POST"))
         (run (telegramWebhookHandler
                 (sample_env (str "77") never (Response 200))
                 (str "POST") (Some (hiring_update 5))) empty_store))
      !! document_id (-1001) 5 = Some rec /\
    IsProcessed rec = true /\ IsForwarded rec = true.
Proof.
  destruct (ingested_post_through_the_worker ascii_only
              (sample_env (str "77") never (Response 200))
              (hiring_update 5) (hiring_msg 5) empty_store)
    as (fresh & rec & _ & _ & _ & Hrec & Hp & _ & _ & Hfree & _).
  - intros h c. reflexivity.
  - vm_compute. discriminate.
  - reflexivity.
  - left. vm_compute. discriminate.
  - intros k m H. cbn [messages empty_store] in H.
    rewrite lookup_empty in H. discriminate.
  - exists rec. split; [exact Hrec|]. split; [exact Hp|].
    apply Hfree.
    + vm_compute. reflexivity.
    + intros k m _ H. cbn [messages empty_store] in H.
      rewrite lookup_empty in H. discriminate.
Defined.

Lemma worker_touches_only_the_batch_witness :
  messages
    (run (workerHandler ascii_only
            (sample_env (str "77") never (Response 200)) (str "POST"))
       mixed_store) !! str "-1001_5"
  = Some forwarded_record.
Proof.
  refine (proj2 (worker_touches_only_the_batch ascii_only
                   (sample_env (str "77") never (Response 200)) (str "POST")
                   mixed_store (str "-1001_5")) forwarded_record _ _).
  - vm_compute. reflexivity.
  - reflexivity.
Defined.

Lemma updateProcessingResult_contract_witness :
  fst (updateProcessingResult
         (sample_env (str "77") result_updates (Response 200))
         (str "-1001_5") true (str "ab") one_post) = Some Unavailable /\
  messages
    (snd (updateProcessingResult
            (sample_env (str "77") result_updates (Response 200))
            (str "-1001_5") true (str "ab") one_post))
  = messages one_post.
Proof.
  destruct (updateProcessingResult_contract
              (sample_env (str "77") result_updates (Response 200))
              (str "-1001_5") true (str "ab") one_post)
    as (_ & _ & Hdown & _).
  apply Hdown. reflexivity.
Defined.

Lemma markForwarded_contract_witness :
  messages
    (snd (markForwarded (sample_env (str "77") never (Response 200))
            (str "-1001_5") forwarded_store))
  = messages forwarded_store.
Proof.
  destruct (markForwarded_contract
              (sample_env (str "77") never (Response 200))
              (str "-1001_5") forwarded_store)
    as (_ & _ & _ & _ & _ & Hagain).
  apply (Hagain forwarded_record).
  - apply lookup_singleton_eq.
  - reflexivity.
Defined.

Lemma sendTextMessage_contract_witness :
  fst (sendTextMessage (sample_env (str "77") never (Response 500))
         77 (str "hello") one_post)
  = Some (BadStatus 500).
Proof.
  destruct (sendTextMessage_contract
              (sample_env (str "77") never (Response 500))
              77 (str "hello") one_post)
    as (_ & _ & _ & _ & Hcode).
  apply Hcode; [reflexivity|lia].
Defined.
